(** * Numbot: the verification-session orchestrator of [main.py]

    A shallow embedding of the bot's core: the token cache
    ([generate_bearer_token]), the balance reader ([get_balance]), the
    [verify] command with its number-acquisition loop, and [check_otp] with
    its OTP-acquisition loop and regular-expression extraction.

    The Python code talks to the network, reads the clock, sleeps, logs and
    sends chat messages.  Here all of that is explicit: a [world] carries the
    clock, the number of HTTP exchanges made so far, the module-level [CACHE]
    dictionary and the history of effects; the remote provider is a function
    from the exchange number and the request to a latency and a reply.

    The loops of the program are bounded by the clock, not by their
    structure; they are written with fuel, and shown to need no more than
    thirty and sixty units of it. *)

From Stdlib Require Import Ascii String Floats.SpecFloat.
From stdpp Require Import gmap strings list fin_maps.

Open Scope string_scope.

(** ** Python values

    Everything the program manipulates comes out of [response.json()], so a
    Python value is a parsed JSON value: [None] is JSON's [null]. *)

#[warnings="-register-all"]
Inductive json :=
| JNull
| JBool (b : bool)
| JInt (z : Z)
| JFloat (f : spec_float)
| JStr (s : string)
| JList (l : list json)
| JObj (kvs : list (string * json)).

(** Python truthiness, as used by [if not x], [x and y], [while not x]. *)
Definition truthy (v : json) : bool :=
  match v with
  | JNull => false
  | JBool b => b
  | JInt z => negb (z =? 0)%Z
  | JFloat (S754_zero _) => false
  | JFloat _ => true
  | JStr s => negb (String.eqb s "")
  | JList l => match l with [] => false | _ => true end
  | JObj kvs => match kvs with [] => false | _ => true end
  end.

(** A JSON object is kept as the pairs of its text; as in [json.loads], the
    last binding of a repeated key is the one the dictionary holds. *)
Fixpoint dict_lookup (k : string) (kvs : list (string * json)) : option json :=
  match kvs with
  | [] => None
  | (k', v) :: rest =>
      match dict_lookup k rest with
      | Some v' => Some v'
      | None => if String.eqb k k' then Some v else None
      end
  end.

(** ** Exceptions *)

(** The subclasses of [requests.exceptions.RequestException] the program can
    meet: a transport failure (connection error, timeout, unusable URL), the
    [HTTPError] of [raise_for_status], whose text names the status and the
    URL but not the body, and the [JSONDecodeError] of [response.json()]. *)
Inductive request_exception :=
| ConnectionError
| HTTPError (status : Z)
| JSONDecodeError.

Inductive exn :=
| RequestException (e : request_exception)
| AttributeError
| TypeError
| KeyError
| IndexError
| ValueError
| NameError.

(** ** The network *)

Inductive http_method := GET | POST.

(** The URLs are f-strings over fixed prefixes; they are kept structured. *)
Inductive url :=
| UrlAuth                 (* .../api/pub/v2/auth *)
| UrlAccountMe            (* .../api/pub/v2/account/me *)
| UrlVerifications        (* .../api/pub/v2/verifications *)
| UrlHref (href : json)   (* data["href"] *)
| UrlSms (id : json).     (* .../api/pub/v2/sms?ReservationId={verification_id} *)

Record request := {
  meth : http_method;
  target : url;
  bearer : option json;      (* Authorization: Bearer ..., or the identity headers *)
  payload : option string    (* serviceName of the creation body *)
}.

Inductive body :=
| BodyEmpty                (* response.text == "" *)
| BodyGarbage              (* text that is not JSON *)
| BodyJson (j : json).

Inductive reply :=
| Transport                               (* no response at all *)
| Response (status : Z) (b : body).

Record exchange := { latency : N; answer : reply }.

(** ** Text

    A Python [str] is kept as the bytes of its UTF-8 encoding. A character
    of the text is a byte together with the continuation bytes (10xxxxxx)
    that follow it. *)

Definition is_continuation (c : ascii) : bool :=
  let n := nat_of_ascii c in ((128 <=? n) && (n <? 192))%nat.

(** The characters of a text, in order. *)
Fixpoint characters (s : string) : list string :=
  match s with
  | EmptyString => []
  | String c rest =>
      match rest with
      | EmptyString => [String c EmptyString]
      | String d _ =>
          if is_continuation d then
            match characters rest with
            | ch :: chs => String c ch :: chs
            | [] => [String c EmptyString]
            end
          else String c EmptyString :: characters rest
      end
  end.

(** What the interpreter's Unicode database answers for a character outside
    ASCII: whether it is a decimal digit ([str.isdecimal]) and whether it is
    alphanumeric ([str.isalnum]). The database is not part of the program;
    the program runs with the one its world has. *)
Record unicode_tables := {
  isdecimal : string -> bool;
  isalnum : string -> bool
}.

(** A database in which no character outside ASCII is a digit or
    alphanumeric. *)
Definition ascii_tables : unicode_tables :=
  {| isdecimal := fun _ => false; isalnum := fun _ => false |}.

(** ** Effects *)

Inductive log_site := LogToken (attempt : nat) | LogBalance (attempt : nat)
                    | LogNumber | LogOtp.

(** What the chat layer is asked to show. *)
Inductive report :=
| AuthFailed                                   (* "[ERROR] Failed to authenticate with the API." *)
| RequestFailed (e : request_exception)        (* "[ERROR] Verification request failed: {e}" *)
| BadResponse (data : json)                    (* "... failed. Response: {data}" *)
| NumberNotReceived                            (* "[ERROR] Number not received. Try again." *)
| Pending (service : string) (number balance_before balance_after : json)
| Completed (service : string) (number balance : json) (otp : string).

Inductive event :=
| EvRequest (r : request)      (* requests.get / requests.post *)
| EvSleep (d : N)              (* await asyncio.sleep(...) *)
| EvWarn (s : log_site)        (* logging.warning(...) *)
| EvSend (r : report)          (* await ctx.send(...) *)
| EvEdit (r : report).         (* await message.edit(embed=...) *)

(** The clock counts microseconds, the resolution of [datetime]. The
    [trace] lists the effects newest first. [unicode] is the Unicode
    database of the interpreter the program runs on. *)
Record world := {
  now : N;
  exchanges : nat;
  CACHE : gmap string json;
  trace : list event;
  unicode : unicode_tables
}.

Definition second : N := 1000000.

Inductive result (A : Type) :=
| Ok (a : A)
| Raise (e : exn)
| NoFuel.
Arguments Ok {A} a.
Arguments Raise {A} e.
Arguments NoFuel {A}.

(** Pure steps that may raise run in [result]; steps that touch the world
    run in [M]. *)
Definition rbind {A B} (r : result A) (k : A -> result B) : result B :=
  match r with
  | Ok a => k a
  | Raise e => Raise e
  | NoFuel => NoFuel
  end.

Notation "'let+' x ':=' r 'in' k" := (rbind r (fun x => k))
  (at level 10, x name, r at level 100, k at level 200).

Definition M (A : Type) : Type := world -> result A * world.

Definition lift {A} (r : result A) : M A := fun w => (r, w).

Definition ret {A} (a : A) : M A := fun w => (Ok a, w).
Definition raise {A} (e : exn) : M A := fun w => (Raise e, w).
Definition bind {A B} (m : M A) (k : A -> M B) : M B :=
  fun w => match m w with
           | (Ok a, w') => k a w'
           | (Raise e, w') => (Raise e, w')
           | (NoFuel, w') => (NoFuel, w')
           end.

Notation "'let*' x ':=' m 'in' k" := (bind m (fun x => k))
  (at level 10, x name, m at level 100, k at level 200).

(** [try: m except requests.exceptions.RequestException as e: h e] *)
Definition try_except {A} (m : M A) (h : request_exception -> M A) : M A :=
  fun w => match m w with
           | (Raise (RequestException e), w') => h e w'
           | r => r
           end.

(** The world with one more event in its trace, with the clock [d]
    microseconds later, with [CACHE[k] = v]. *)
Definition record (e : event) (w : world) : world :=
  {| now := now w; exchanges := exchanges w; CACHE := CACHE w;
     trace := e :: trace w; unicode := unicode w |}.

Definition advance (d : N) (w : world) : world :=
  {| now := (now w + d)%N; exchanges := exchanges w; CACHE := CACHE w;
     trace := trace w; unicode := unicode w |}.

Definition remember (k : string) (v : json) (w : world) : world :=
  {| now := now w; exchanges := exchanges w; CACHE := <[k := v]> (CACHE w);
     trace := trace w; unicode := unicode w |}.

Definition emit (e : event) : M unit := fun w => (Ok tt, record e w).

Definition datetime_now : M N := fun w => (Ok (now w), w).

(** The Unicode database [re] consults. *)
Definition unicode_database : M unicode_tables :=
  fun w => (Ok (unicode w), w).

(** [await asyncio.sleep(d)], [d] in seconds: the clock moves on by [d]. *)
Definition slept (d : N) (w : world) : world :=
  record (EvSleep d) (advance (d * second) w).

Definition sleep (d : N) : M unit := fun w => (Ok tt, slept d w).

Definition cache_lookup (k : string) : M (option json) :=
  fun w => (Ok (CACHE w !! k), w).

Definition cache_store (k : string) (v : json) : M unit :=
  fun w => (Ok tt, remember k v w).

Definition is_error (status : Z) : bool :=
  ((400 <=? status) && (status <? 600))%Z.

(** [response.raise_for_status()]: 4xx and 5xx raise [HTTPError]. *)
Definition raise_for_status (status : Z) : result unit :=
  if is_error status then Raise (RequestException (HTTPError status))
  else Ok tt.

(** [response.json()]: a body that is not JSON raises
    [requests.exceptions.JSONDecodeError], a [RequestException]. *)
Definition response_json (b : body) : result json :=
  match b with
  | BodyJson j => Ok j
  | _ => Raise (RequestException JSONDecodeError)
  end.

(** [d.get(k, default)]; only dictionaries have a [get]. *)
Definition py_get (d : json) (k : string) (dflt : json) : result json :=
  match d with
  | JObj kvs => Ok (default dflt (dict_lookup k kvs))
  | _ => Raise AttributeError
  end.

(** [CACHE[k]] *)
Definition cache_read (k : string) : M json :=
  fun w => match CACHE w !! k with
           | Some v => (Ok v, w)
           | None => (Raise KeyError, w)
           end.

(** [d[k]] for a string key. *)
Definition py_item (d : json) (k : string) : result json :=
  match d with
  | JObj kvs => match dict_lookup k kvs with
                | Some v => Ok v
                | None => Raise KeyError
                end
  | _ => Raise TypeError
  end.

Fixpoint string_last (s : string) : option ascii :=
  match s with
  | EmptyString => None
  | String c rest => match string_last rest with
                     | Some d => Some d
                     | None => Some c
                     end
  end.

(** [v[-1]] *)
Definition py_last (v : json) : result json :=
  match v with
  | JList l => match last l with
               | Some x => Ok x
               | None => Raise IndexError
               end
  | JStr s => match string_last s with
              | Some c => Ok (JStr (String c EmptyString))
              | None => Raise IndexError
              end
  | JObj _ => Raise KeyError
  | _ => Raise TypeError
  end.

Fixpoint contains (needle hay : string) : bool :=
  match hay with
  | EmptyString => String.eqb needle ""
  | String _ rest => String.prefix needle hay || contains needle rest
  end.

Definition is_href (v : json) : bool :=
  match v with
  | JStr s => String.eqb s "href"
  | _ => false
  end.

(** ["href" in data]: key membership in a dictionary, element membership in
    a list, substring test in a string, [TypeError] elsewhere. *)
Definition has_href (data : json) : result bool :=
  match data with
  | JObj kvs => Ok (bool_decide (is_Some (dict_lookup "href" kvs)))
  | JList l => Ok (existsb is_href l)
  | JStr s => Ok (contains "href" s)
  | _ => Raise TypeError
  end.

(** [s.replace("Z", "+00:00")] *)
Fixpoint replace_Z (s : string) : string :=
  match s with
  | EmptyString => EmptyString
  | String c rest =>
      if Ascii.eqb c "Z"%char then String.append "+00:00" (replace_Z rest)
      else String c (replace_Z rest)
  end.

(** ** The pattern [\b\d{4,8}\b]

    The pattern is a [str] pattern, so [\d] and [\b] follow Unicode: a digit
    is a decimal digit, a word character is an alphanumeric character or the
    underscore. Inside ASCII these are [0-9] and [0-9A-Za-z_]. *)

Definition is_ascii (c : ascii) : bool := (nat_of_ascii c <? 128)%nat.

Definition ascii_digit (c : ascii) : bool :=
  let n := nat_of_ascii c in ((48 <=? n) && (n <=? 57))%nat.

Definition ascii_letter_or_underscore (c : ascii) : bool :=
  let n := nat_of_ascii c in
  (((65 <=? n) && (n <=? 90)) || ((97 <=? n) && (n <=? 122)) || (n =? 95))%nat.

(** [\d] on one character. *)
Definition is_digit (tables : unicode_tables) (ch : string) : bool :=
  match ch with
  | String c EmptyString =>
      if is_ascii c then ascii_digit c else isdecimal tables ch
  | _ => isdecimal tables ch
  end.

(** [\w] on one character; a decimal digit is alphanumeric. *)
Definition is_word (tables : unicode_tables) (ch : string) : bool :=
  is_digit tables ch
  || match ch with
     | String c EmptyString =>
         if is_ascii c then ascii_letter_or_underscore c
         else isalnum tables ch
     | _ => isalnum tables ch
     end.

Section Scan.

Context {A : Type}.
Variables digit word : A -> bool.

Definition is_word_at (c : option A) : bool :=
  match c with
  | Some c => word c
  | None => false
  end.

(** [\b] between two neighbouring positions ([None] past either end). *)
Definition boundary (before after : option A) : bool :=
  xorb (is_word_at before) (is_word_at after).

(** The greedy [\d{..8}]: how many of the first [n] characters are digits. *)
Fixpoint take_digits (n : nat) (s : list A) : nat :=
  match n, s with
  | S n', c :: rest => if digit c then S (take_digits n' rest) else 0
  | _, _ => 0
  end.

(** Backtracking: give digits back one at a time, down to four, until the
    closing [\b] holds. *)
Fixpoint backtrack (k : nat) (s : list A) : option nat :=
  match k with
  | O => None
  | S k' =>
      if (4 <=? k)%nat then
        if boundary (s !! k') (s !! k) then Some k
        else backtrack k' s
      else None
  end.

(** A match starting at the head of [s], [before] being the character in
    front of it: its length. *)
Definition match_at (before : option A) (s : list A) : option nat :=
  if boundary before (head s) then backtrack (take_digits 8 s) s
  else None.

(** [re.findall]: scan from the start to the end, matches do not overlap.
    [skip] counts the characters of the last match still to be passed
    over. *)
Fixpoint findall_from (before : option A) (skip : nat) (s : list A)
  : list (list A) :=
  match s with
  | [] => []
  | c :: rest =>
      match skip with
      | S n => findall_from (Some c) n rest
      | O =>
          match match_at before s with
          | Some k => take k s :: findall_from (Some c) (k - 1) rest
          | None => findall_from (Some c) 0 rest
          end
      end
  end.

End Scan.

(** The text that a list of characters spells. *)
Definition spell (chs : list string) : string := String.concat "" chs.

(** [re.findall(r"\b\d{4,8}\b", s)] *)
Definition re_findall (tables : unicode_tables) (s : string) : list string :=
  map spell
    (findall_from (is_digit tables) (is_word tables) None 0 (characters s)).

(** [otp_match[-1] if otp_match else "No OTP found"] *)
Definition extract_otp (tables : unicode_tables) (latest_sms : string)
  : string :=
  default "No OTP found" (last (re_findall tables latest_sms)).

(** ** The program *)

(** What [requests.get] / [requests.post] hand back for a reply. *)
Definition received (a : reply) : result (Z * body) :=
  match a with
  | Transport => Raise (RequestException ConnectionError)
  | Response status b => Ok (status, b)
  end.

Section Program.

(** The provider: what the [n]-th exchange of the run answers to a
    request, and after how long. Every call returns, as [timeout=15] asks. *)
Variable net : nat -> request -> exchange.

(** [datetime.fromisoformat] accepts the string or raises [ValueError]. *)
Variable fromisoformat_ok : string -> bool.

(** The world once the next exchange, for request [r], is over. *)
Definition landed (r : request) (w : world) : world :=
  {| now := (now w + latency (net (exchanges w) r))%N;
     exchanges := S (exchanges w);
     CACHE := CACHE w;
     trace := EvRequest r :: trace w;
     unicode := unicode w |}.

(** What the reply to the next exchange, for request [r], will be. *)
Definition next_reply (r : request) (w : world) : reply :=
  answer (net (exchanges w) r).

Definition http (r : request) : M (Z * body) :=
  fun w => (received (next_reply r w), landed r w).

Definition auth_request : request :=
  {| meth := POST; target := UrlAuth; bearer := None; payload := None |}.

Definition balance_request (bearer_token : json) : request :=
  {| meth := GET; target := UrlAccountMe; bearer := Some bearer_token;
     payload := None |}.

Definition creation_request (bearer_token : json) (service_name : string)
  : request :=
  {| meth := POST; target := UrlVerifications; bearer := Some bearer_token;
     payload := Some service_name |}.

Definition status_request (bearer_token href : json) : request :=
  {| meth := GET; target := UrlHref href; bearer := Some bearer_token;
     payload := None |}.

Definition sms_request (bearer_token verification_id : json) : request :=
  {| meth := GET; target := UrlSms verification_id;
     bearer := Some bearer_token; payload := None |}.

(** *** [generate_bearer_token] *)

(** Lines 36-38: [raise_for_status()], [json()], [data.get("token")]. *)
Definition token_of (response : Z * body) : result json :=
  let+ _ := raise_for_status (fst response) in
  let+ data := response_json (snd response) in
  py_get data "token" JNull.

(** The [for attempt in range(3)]. The [asyncio.sleep(3)] of the handler
    is never awaited in this plain function, so it delays nothing. *)
Fixpoint token_attempts (attempts : list nat) : M json :=
  match attempts with
  | [] => ret JNull
  | attempt :: rest =>
      try_except
        (let* response := http auth_request in
         let* token := lift (token_of response) in
         let* _ := cache_store "token" token in
         cache_read "token")
        (fun e =>
           let* _ := emit (EvWarn (LogToken (attempt + 1))) in
           token_attempts rest)
  end.

Definition generate_bearer_token : M json :=
  let* cached := cache_lookup "token" in
  match cached with
  | Some token => ret token
  | None => token_attempts (seq 0 3)
  end.

(** *** [get_balance] *)

(** Lines 56-57. *)
Definition balance_of (response : Z * body) : result json :=
  let+ _ := raise_for_status (fst response) in
  let+ data := response_json (snd response) in
  py_get data "currentBalance" (JStr "Error").

Fixpoint balance_attempts (bearer_token : json) (attempts : list nat)
  : M json :=
  match attempts with
  | [] => ret (JStr "Error")
  | attempt :: rest =>
      try_except
        (let* response := http (balance_request bearer_token) in
         lift (balance_of response))
        (fun e =>
           let* _ := emit (EvWarn (LogBalance (attempt + 1))) in
           balance_attempts bearer_token rest)
  end.

Definition get_balance : M json :=
  let* bearer_token := generate_bearer_token in
  if negb (truthy bearer_token) then ret (JStr "Error")
  else balance_attempts bearer_token (seq 0 3).

(** *** [check_otp] *)

(** Lines 141-146: the text of the newest message, if there is a message.
    [re.findall] wants a string. *)
Definition latest_sms_of (response : Z * body) : result (option string) :=
  let+ _ := raise_for_status (fst response) in
  let+ data := response_json (snd response) in
  let+ messages := py_get data "messages" JNull in
  if truthy messages then
    let+ newest := py_last messages in
    let+ latest_sms := py_item newest "message" in
    match latest_sms with
    | JStr text => Ok (Some text)
    | _ => Raise TypeError
    end
  else Ok None.

(** The [try] block of one iteration: [true] when it reached [return]. *)
Definition otp_try (bearer_token verification_id number balance : json)
  (service_name : string) : M bool :=
  let* response := http (sms_request bearer_token verification_id) in
  let* latest_sms := lift (latest_sms_of response) in
  match latest_sms with
  | Some text =>
      let* tables := unicode_database in
      let otp := extract_otp tables text in
      let* _ := emit (EvEdit (Completed service_name number balance otp)) in
      ret true
  | None => ret false
  end.

(** One iteration of the [while] of [check_otp], up to and including the
    sleep that ends it: [true] when the function returned. *)
Definition otp_iteration (bearer_token verification_id number balance : json)
  (service_name : string) : M bool :=
  let* returned :=
    try_except
      (otp_try bearer_token verification_id number balance service_name)
      (fun e =>
         let* _ := emit (EvWarn LogOtp) in
         let* _ := sleep 5 in
         ret false) in
  if returned then ret true
  else let* _ := sleep 5 in ret false.

Fixpoint otp_loop (fuel : nat) (timeout : N)
  (bearer_token verification_id number balance : json)
  (service_name : string) : M unit :=
  let* t := datetime_now in
  if (t <? timeout)%N then
    match fuel with
    | O => lift NoFuel
    | S fuel' =>
        let* returned :=
          otp_iteration bearer_token verification_id number balance
            service_name in
        if returned then ret tt
        else otp_loop fuel' timeout bearer_token verification_id number
               balance service_name
    end
  else ret tt.

(** [timedelta(minutes=5)] *)
Definition otp_window : N := 5 * 60 * second.

Definition check_otp (fuel : nat) (verification_id number balance : json)
  (service_name : string) : M unit :=
  let* bearer_token := generate_bearer_token in
  let* t := datetime_now in
  let timeout := (t + otp_window)%N in
  otp_loop fuel timeout bearer_token verification_id number balance
    service_name.

(** *** [verify] *)

Definition max_wait_time : N := 30.

(** Lines 101-104: the two fields of the status reply. *)
Definition number_of (response : Z * body) : result (json * json) :=
  let+ _ := raise_for_status (fst response) in
  let+ details := response_json (snd response) in
  let+ number := py_get details "number" JNull in
  let+ ends_at := py_get details "endsAt" JNull in
  Ok (number, ends_at).

(** One iteration of the number loop, from the values [number] and
    [ends_at] have on entry ([None]: not bound yet): whether it left by
    [break], and the values on exit. Without [break] it ends with the
    one-second sleep. *)
Definition number_iteration (bearer_token href number : json)
  (ends_at : option json) : M (bool * (json * option json)) :=
  let* outcome :=
    try_except
      (let* response := http (status_request bearer_token href) in
       let* fields := lift (number_of response) in
       ret (truthy (fst fields) && truthy (snd fields),
            (fst fields, Some (snd fields))))
      (fun e =>
         let* _ := emit (EvWarn LogNumber) in
         ret (false, (number, ends_at))) in
  if fst outcome then ret outcome
  else
    let* _ := sleep 1 in
    ret outcome.

(** The [while not number and elapsed < max_wait_time] loop. *)
Fixpoint number_loop (fuel : nat) (start_time : N)
  (bearer_token href number : json) (ends_at : option json)
  : M (json * option json) :=
  let* t := datetime_now in
  if negb (truthy number) && (t - start_time <? max_wait_time * second)%N
  then
    match fuel with
    | O => lift NoFuel
    | S fuel' =>
        let* outcome :=
          number_iteration bearer_token href number ends_at in
        if fst outcome then ret (snd outcome)
        else number_loop fuel' start_time bearer_token href
               (fst (snd outcome)) (snd (snd outcome))
    end
  else ret (number, ends_at).

(** [datetime.fromisoformat(ends_at.replace("Z", "+00:00"))] *)
Definition parse_expiry (ends_at : json) : result unit :=
  match ends_at with
  | JStr s => if fromisoformat_ok (replace_Z s) then Ok tt
              else Raise ValueError
  | _ => Raise AttributeError
  end.

(** Lines 112-116: what the loop found is a number with its expiry, or
    the failure is reported. [Some number] when [verify] goes on. *)
Definition number_verdict (found : json * option json) : M (option json) :=
  let number := fst found in
  if negb (truthy number) then
    let* _ := emit (EvSend NumberNotReceived) in ret None
  else
    match snd found with
    | None => raise NameError
    | Some ends_at =>
        if negb (truthy ends_at) then
          let* _ := emit (EvSend NumberNotReceived) in ret None
        else
          let* _ := lift (parse_expiry ends_at) in
          ret (Some number)
    end.

(** Lines 93-116: wait for the number. *)
Definition await_number (fuel : nat) (bearer_token verification_href : json)
  : M (option json) :=
  let* start_time := datetime_now in
  let* found :=
    number_loop fuel start_time bearer_token verification_href JNull None in
  number_verdict found.

(** Lines 79-80: the parsed body, [None] for an empty one. *)
Definition created_of (response : Z * body) : result json :=
  let+ _ := raise_for_status (fst response) in
  match snd response with
  | BodyEmpty => Ok JNull
  | b => response_json b
  end.

(** The creation call: [Some data] when the [try] block completed, [None]
    when the handler reported and returned. *)
Definition create_verification (bearer_token : json) (service_name : string)
  : M (option json) :=
  try_except
    (let* response := http (creation_request bearer_token service_name) in
     let* data := lift (created_of response) in
     ret (Some data))
    (fun e =>
       let* _ := emit (EvSend (RequestFailed e)) in
       ret None).

(** [not data or "href" not in data] *)
Definition lacks_href (data : json) : result bool :=
  if negb (truthy data) then Ok true
  else let+ present := has_href data in Ok (negb present).

Definition verify (fuel : nat) (service_name : string) : M unit :=
  let* bearer_token := generate_bearer_token in
  if negb (truthy bearer_token) then emit (EvSend AuthFailed)
  else
    let* balance_before := get_balance in
    let* created := create_verification bearer_token service_name in
    match created with
    | None => ret tt
    | Some data =>
        let* rejected := lift (lacks_href data) in
        if rejected then emit (EvSend (BadResponse data))
        else
          let* verification_href := lift (py_item data "href") in
          let* verification_id := lift (py_get data "id" JNull) in
          let* balance_after := get_balance in
          let* assigned :=
            await_number fuel bearer_token verification_href in
          match assigned with
          | None => ret tt
          | Some number =>
              let* _ := emit (EvSend (Pending service_name number
                                        balance_before balance_after)) in
              check_otp fuel verification_id number balance_after
                service_name
          end
    end.

End Program.

(** ** Reading the pattern as words

    A maximal run of characters satisfying [p], taken off the front of a
    text, and the text without it. *)

Fixpoint run_length {A} (p : A -> bool) (s : list A) : nat :=
  match s with
  | [] => 0
  | c :: rest => if p c then S (run_length p rest) else 0
  end.

Fixpoint drop_run {A} (p : A -> bool) (s : list A) : list A :=
  match s with
  | [] => []
  | c :: rest => if p c then drop_run p rest else s
  end.

(** The maximal runs of characters satisfying [p], first to last. *)
Fixpoint tokens {A} (p : A -> bool) (s : list A) : list (list A) :=
  match s with
  | [] => []
  | c :: rest =>
      if p c then
        match rest with
        | [] => [[c]]
        | d :: _ =>
            if p d then
              match tokens p rest with
              | w :: ws => (c :: w) :: ws
              | [] => [[c]]
              end
            else [c] :: tokens p rest
        end
      else tokens p rest
  end.

Definition otp_length {A} (w : list A) : bool :=
  ((4 <=? length w) && (length w <=? 8))%nat.

(** A word that the pattern accepts: four to eight digits and nothing else. *)
Definition digit_word {A} (digit : A -> bool) (w : list A) : bool :=
  forallb digit w && otp_length w.

Definition otp_word (tables : unicode_tables) (w : list string) : bool :=
  digit_word (is_digit tables) w.

(** The words of a text: its maximal runs of word characters. *)
Definition words (tables : unicode_tables) (text : string)
  : list (list string) :=
  tokens (is_word tables) (characters text).

(** The extraction as the specification words it: the last run of four to
    eight consecutive digits of the text. *)
Definition last_digit_run (tables : unicode_tables) (text : string) : string :=
  default "No OTP found"
    (last (map spell
             (List.filter otp_length
                (tokens (is_digit tables) (characters text))))).

(** A text that does not begin inside a character. *)
Definition starts_character (s : string) : bool :=
  match s with
  | EmptyString => true
  | String c _ => negb (is_continuation c)
  end.

Fixpoint all_continuation (s : string) : bool :=
  match s with
  | EmptyString => true
  | String c rest => is_continuation c && all_continuation rest
  end.

(** One character: a byte that does not continue another, with its
    continuation bytes. *)
Definition is_character (ch : string) : bool :=
  match ch with
  | EmptyString => false
  | String c rest => negb (is_continuation c) && all_continuation rest
  end.

Fixpoint all_ascii_digits (s : string) : bool :=
  match s with
  | EmptyString => true
  | String c rest => ascii_digit c && all_ascii_digits rest
  end.

(** A code of four to eight of the digits [0-9]. *)
Definition ascii_code (code : string) : bool :=
  all_ascii_digits code
  && ((4 <=? String.length code) && (String.length code <=? 8))%nat.

(** An ASCII character that is not a word character. *)
Definition ascii_separator (c : ascii) : bool :=
  is_ascii c && negb (ascii_digit c) && negb (ascii_letter_or_underscore c).

(** ** Observing a run *)

(** The exception the sequence [requests...], [raise_for_status()],
    [json()] raises on a reply, if it raises one. *)
Definition failure_of (a : reply) : option request_exception :=
  match a with
  | Transport => Some ConnectionError
  | Response status b =>
      if is_error status then Some (HTTPError status)
      else match b with
           | BodyJson _ => None
           | _ => Some JSONDecodeError
           end
  end.

(** The events a run from [w] to [w'] added, newest first. *)
Definition emitted (w w' : world) : list event :=
  take (length (trace w') - length (trace w)) (trace w').

Definition sleeps (t : list event) : list N :=
  omap (fun e => match e with EvSleep d => Some d | _ => None end) t.

Definition reports (t : list event) : list report :=
  omap (fun e => match e with
                 | EvSend r | EvEdit r => Some r
                 | _ => None
                 end) t.


(** ** Sample worlds and providers *)

Definition world0 : world :=
  {| now := 0; exchanges := 0; CACHE := ∅; trace := [];
     unicode := ascii_tables |}.

Definition signed_in (token : json) : world :=
  {| now := 0; exchanges := 0; CACHE := {["token" := token]}; trace := [];
     unicode := ascii_tables |}.

Definition quick (a : reply) : exchange := {| latency := 0; answer := a |}.

Definition json_reply (j : json) : reply := Response 200 (BodyJson j).

(** A provider that answers the same to everything. *)
Definition always (a : reply) : nat -> request -> exchange :=
  fun _ _ => quick a.

(** A provider that plays a list of replies in order, then is unreachable. *)
Definition script (l : list reply) : nat -> request -> exchange :=
  fun n _ => quick (nth n l Transport).

(** ** Relations between the world before and after a run *)

(** [m] takes every world to one related to it by [R]. *)
Definition respects {A} (R : world -> world -> Prop) (m : M A) : Prop :=
  forall w, R w (snd (m w)).

(** [m] never runs out of fuel. *)
Definition halts {A} (m : M A) : Prop := forall w, fst (m w) <> NoFuel.

(** A cached token stays, and the cache with it. *)
Definition keeps_token (w w' : world) : Prop :=
  forall v, CACHE w !! "token" = Some v -> CACHE w' = CACHE w.

(** ** Statements of the specification, as written *)

(** Two calls of [generate_bearer_token] in a row make at most one request. *)
Definition at_most_one_request (net : nat -> request -> exchange) (w : world)
  : Prop :=
  let w1 := snd (generate_bearer_token net w) in
  let w2 := snd (generate_bearer_token net w1) in
  (exchanges w2 <= exchanges w + 1)%nat.

(** The number loop is still polling when the window closes. *)
Definition waits_out_window (net : nat -> request -> exchange) (fuel : nat)
  (bearer_token href : json) (w : world) : Prop :=
  let w' := snd (number_loop net fuel (now w) bearer_token href JNull None w) in
  (now w + max_wait_time * second <= now w')%N.

(** An iteration of the OTP loop sleeps once, for five seconds. *)
Definition one_cooldown (net : nat -> request -> exchange)
  (bearer_token verification_id number balance : json) (service_name : string)
  (w : world) : Prop :=
  let w' := snd (otp_iteration net bearer_token verification_id number balance
                   service_name w) in
  sleeps (emitted w w') = [5%N].


(** The extracted OTP is the last run of four to eight digits. *)
Definition extracts_last_digit_run (tables : unicode_tables) (text : string)
  : Prop :=
  extract_otp tables text = last_digit_run tables text.

(** ** Reading a status reply *)

(** The two fields of a status reply that came back well and as an
    object. *)
Definition status_fields (a : reply) : option (json * json) :=
  match a with
  | Response status (BodyJson (JObj kvs)) =>
      if is_error status then None
      else Some (default JNull (dict_lookup "number" kvs),
                 default JNull (dict_lookup "endsAt" kvs))
  | _ => None
  end.

(** A reply that came back well but whose JSON is not an object. *)
Definition not_an_object (a : reply) : bool :=
  match a with
  | Response status (BodyJson j) =>
      negb (is_error status)
      && match j with JObj _ => false | _ => true end
  | _ => false
  end.

(** A status poll without both fields: it failed, or its object lacks the
    number or the expiry. *)
Definition incomplete (a : reply) : bool :=
  negb (not_an_object a)
  && match status_fields a with
     | Some (number, ends_at) => negb (truthy number && truthy ends_at)
     | None => true
     end.

(** A status poll without a number. *)
Definition numberless (a : reply) : bool :=
  negb (not_an_object a)
  && match status_fields a with
     | Some (number, _) => negb (truthy number)
     | None => true
     end.

(** ** Reading a messages reply and a creation reply *)

(** A messages poll that came back well with an empty list of messages. *)
Definition empty_messages (a : reply) : bool :=
  match a with
  | Response status (BodyJson (JObj kvs)) =>
      negb (is_error status)
      && match dict_lookup "messages" kvs with
         | Some (JList []) => true
         | _ => false
         end
  | _ => false
  end.



(** What the number loop holds in [number] and [ends_at]: their initial
    values, or the two fields of one and the same status reply, received in
    an exchange numbered from [from] up to, not including, [upto]. *)
Definition seen (net : nat -> request -> exchange) (r : request)
  (from upto : nat) (number : json) (ends_at : option json) : Prop :=
  (number = JNull /\ ends_at = None)
  \/ exists n e,
       (from <= n < upto)%nat
       /\ status_fields (answer (net n r)) = Some (number, e)
       /\ ends_at = Some e.

(** ** Further observations on a run *)

(** The requests of a trace, newest first. *)
Definition requests (t : list event) : list request :=
  omap (fun e => match e with EvRequest r => Some r | _ => None end) t.

(** No report is added from [w] to [w']. *)
Definition same_reports (w w' : world) : Prop :=
  reports (trace w') = reports (trace w).

(** Started in a world that satisfies [P], [m] ends with a result and in a
    world that satisfy [Q]. *)
Definition hoare {A} (P : world -> Prop) (m : M A)
  (Q : result A -> world -> Prop) : Prop :=
  forall w, P w -> Q (fst (m w)) (snd (m w)).

(** The clock at the start of the [k]-th iteration of a polling loop, when
    the loop starts at time [t] with exchange [n] and each of the
    iterations before it made one exchange for request [r] and then slept
    [d] seconds. *)
Fixpoint clock_after (net : nat -> request -> exchange) (r : request) (d : N)
  (n : nat) (t : N) (k : nat) : N :=
  match k with
  | O => t
  | S k' =>
      clock_after net r d (S n) (t + latency (net n r) + d * second)%N k'
  end.

(** The reports one [verify] session may add, newest first: none, one
    failure, the pending report, or the pending report followed by the
    completed one for the same number and balance. *)
Definition session_reports (service_name : string) (l : list report) : Prop :=
  l = []
  \/ l = [AuthFailed]
  \/ (exists e, l = [RequestFailed e])
  \/ (exists data, l = [BadResponse data])
  \/ l = [NumberNotReceived]
  \/ exists number before after,
       l = [Pending service_name number before after]
       \/ exists otp,
            l = [Completed service_name number after otp;
                 Pending service_name number before after].

(** The cache holds a token that counts as true, and no more than [n]
    exchanges have been made. *)
Definition signed_in_within (n : nat) (w : world) : Prop :=
  (exists token, CACHE w !! "token" = Some token /\ truthy token = true)
  /\ (exchanges w <= n)%nat.

(** A provider that makes a session as long as it can be: the token comes
    with the third auth attempt, the balance endpoint is unreachable, the
    number comes with the thirtieth status poll and no message ever. *)
Definition busy_provider : nat -> request -> exchange :=
  fun n r =>
    quick
      match target r with
      | UrlAuth =>
          if (n <? 2)%nat then Transport
          else json_reply (JObj [("token", JStr "abc")])
      | UrlAccountMe => Transport
      | UrlVerifications =>
          json_reply (JObj [("href", JStr "/v/1"); ("id", JStr "R1")])
      | UrlHref _ =>
          if (n <? 39)%nat then Transport
          else json_reply (JObj [("number", JStr "+15551234567");
                                 ("endsAt", JStr "2024-01-01T00:00:10Z")])
      | UrlSms _ => json_reply (JObj [("messages", JList [])])
      end.

(** ** The pattern, word by word *)

Section Pattern.

Context {A : Type}.
Variables digit word : A -> bool.
Hypothesis digit_is_word : forall c, digit c = true -> word c = true.

Implicit Types (s rest : list A) (c : A) (k n : nat).

Lemma tokens_two (p : A -> bool) c d rest :
  tokens p (c :: d :: rest)
  = if p c then
      if p d then
        match tokens p (d :: rest) with
        | w :: ws => (c :: w) :: ws
        | [] => [[c]]
        end
      else [c] :: tokens p (d :: rest)
    else tokens p (d :: rest).
Proof. reflexivity. Qed.

Lemma tokens_cons (p : A -> bool) c rest :
  p c = true ->
  tokens p (c :: rest)
  = (c :: take (run_length p rest) rest) :: tokens p (drop_run p rest).
Proof.
  revert c. induction rest as [|d r IH]; intros c Hc.
  - simpl. rewrite Hc. reflexivity.
  - rewrite tokens_two, Hc. cbn [run_length drop_run].
    destruct (p d) eqn:Hd.
    + rewrite (IH d Hd). reflexivity.
    + reflexivity.
Qed.

Lemma tokens_skip (p : A -> bool) c rest :
  p c = false -> tokens p (c :: rest) = tokens p rest.
Proof. intros Hc. cbn [tokens]. rewrite Hc. reflexivity. Qed.

Lemma word_inside s k :
  (k < run_length word s)%nat -> is_word_at word (s !! k) = true.
Proof.
  revert k. induction s as [|c r IH]; intros k Hk; simpl in Hk; [lia|].
  destruct (word c) eqn:Hc; [|lia].
  destruct k as [|k]; simpl; [exact Hc|]. apply IH. lia.
Qed.

Lemma word_ends s : is_word_at word (s !! run_length word s) = false.
Proof.
  induction s as [|c r IH]; simpl; [reflexivity|].
  destruct (word c) eqn:Hc; simpl; [exact IH | exact Hc].
Qed.

Lemma digits_within_word s : (run_length digit s <= run_length word s)%nat.
Proof.
  induction s as [|c r IH]; simpl; [lia|].
  destruct (digit c) eqn:Hd; [|lia].
  rewrite (digit_is_word c Hd). lia.
Qed.

Lemma take_digits_min n s :
  take_digits digit n s = Nat.min n (run_length digit s).
Proof.
  revert s. induction n as [|n IH]; intros [|c r]; simpl; try reflexivity.
  destruct (digit c); [rewrite IH; reflexivity | reflexivity].
Qed.

Lemma word_length s :
  length (take (run_length word s) s) = run_length word s.
Proof.
  induction s as [|c r IH]; simpl; [reflexivity|].
  destruct (word c); simpl; [rewrite IH; reflexivity | reflexivity].
Qed.

Lemma word_all_digits s :
  forallb digit (take (run_length word s) s)
  = (run_length word s <=? run_length digit s)%nat.
Proof.
  induction s as [|c r IH]; simpl; [reflexivity|].
  destruct (word c) eqn:Hw; simpl.
  - destruct (digit c) eqn:Hd; simpl; [exact IH | reflexivity].
  - destruct (digit c) eqn:Hd; [|reflexivity].
    rewrite (digit_is_word c Hd) in Hw. discriminate.
Qed.

(** Backtracking from [k] digits stops exactly at the end of the word. *)
Lemma backtrack_word s k :
  (k <= run_length digit s)%nat ->
  backtrack word k s
  = if ((4 <=? run_length word s) && (run_length word s <=? k))%nat
    then Some (run_length word s) else None.
Proof.
  pose proof (digits_within_word s) as Hdw.
  induction k as [|k IH]; intros Hk.
  - simpl. destruct (run_length word s) as [|[|[|[|?]]]]; reflexivity.
  - cbn [backtrack]. destruct (4 <=? S k)%nat eqn:H4.
    + apply Nat.leb_le in H4.
      unfold boundary. rewrite (word_inside s k) by lia. cbn [xorb].
      destruct (decide (S k = run_length word s)) as [He|Hne].
      * rewrite He at 1. rewrite word_ends. cbn [negb].
        rewrite <- He.
        replace (4 <=? S k)%nat with true by (symmetry; apply Nat.leb_le; lia).
        rewrite Nat.leb_refl. reflexivity.
      * rewrite (word_inside s (S k)) by lia. cbn [negb].
        rewrite IH by lia.
        replace (run_length word s <=? k)%nat with false
          by (symmetry; apply Nat.leb_gt; lia).
        replace (run_length word s <=? S k)%nat with false
          by (symmetry; apply Nat.leb_gt; lia).
        rewrite !andb_false_r. reflexivity.
    + apply Nat.leb_gt in H4.
      destruct (4 <=? run_length word s)%nat eqn:H4w; [|reflexivity].
      apply Nat.leb_le in H4w.
      replace (run_length word s <=? S k)%nat with false
        by (symmetry; apply Nat.leb_gt; lia).
      reflexivity.
Qed.

(** At the start of a word the pattern matches the whole word or nothing. *)
Lemma match_at_word_start before c rest :
  is_word_at word before = false -> word c = true ->
  match_at digit word before (c :: rest)
  = let w := c :: take (run_length word rest) rest in
    if digit_word digit w then Some (length w) else None.
Proof.
  intros Hb Hc. set (s := c :: rest).
  assert (Hw : c :: take (run_length word rest) rest
               = take (run_length word s) s).
  { subst s. simpl. rewrite Hc. reflexivity. }
  cbn zeta. rewrite Hw. unfold match_at, boundary.
  replace (head s) with (Some c) by reflexivity.
  rewrite Hb. cbn [is_word_at]. rewrite Hc. cbn [xorb].
  rewrite take_digits_min, backtrack_word by lia.
  unfold digit_word, otp_length. rewrite word_all_digits, word_length.
  pose proof (digits_within_word s).
  destruct (4 <=? run_length word s)%nat eqn:E4; cbn [andb];
    [|rewrite andb_false_r; reflexivity].
  destruct (run_length word s <=? run_length digit s)%nat eqn:Ed;
    destruct (run_length word s <=? 8)%nat eqn:E8; cbn [andb];
    destruct (run_length word s <=? Nat.min 8 (run_length digit s))%nat
      eqn:Em; try reflexivity; exfalso;
    repeat match goal with
           | H : (_ <=? _)%nat = true |- _ => apply Nat.leb_le in H
           | H : (_ <=? _)%nat = false |- _ => apply Nat.leb_gt in H
           end; lia.
Qed.

(** Elsewhere it does not match: inside or right after a word, or on a
    character that is not a word character. *)
Lemma match_at_inside before c rest :
  is_word_at word before = true ->
  match_at digit word before (c :: rest) = None.
Proof.
  intros Hb. unfold match_at, boundary.
  replace (head (c :: rest)) with (Some c) by reflexivity.
  rewrite Hb. cbn [is_word_at xorb].
  destruct (word c) eqn:Hc; [reflexivity|]. cbn [negb].
  destruct (digit c) eqn:Hd.
  - rewrite (digit_is_word c Hd) in Hc. discriminate.
  - cbn [take_digits]. rewrite Hd. reflexivity.
Qed.

Lemma match_at_outside before c rest :
  is_word_at word before = false -> word c = false ->
  match_at digit word before (c :: rest) = None.
Proof.
  intros Hb Hc. unfold match_at, boundary.
  replace (head (c :: rest)) with (Some c) by reflexivity.
  rewrite Hb. cbn [is_word_at]. rewrite Hc. reflexivity.
Qed.

(** Passing over the rest of a word finds nothing, match or no match. *)
Lemma skip_within_word n s before :
  is_word_at word before = true -> (n <= run_length word s)%nat ->
  findall_from digit word before n s = findall_from digit word before 0 s.
Proof.
  revert s before. induction n as [|n IH]; intros s before Hb Hn;
    [reflexivity|].
  destruct s as [|c r]; [reflexivity|].
  simpl in Hn. destruct (word c) eqn:Hc; [|lia].
  cbn [findall_from]. rewrite (match_at_inside before c r Hb).
  apply IH; [exact Hc | lia].
Qed.

Lemma findall_words s :
  (forall before, is_word_at word before = false ->
     findall_from digit word before 0 s
     = List.filter (digit_word digit) (tokens word s))
  /\ (forall before, is_word_at word before = true ->
        findall_from digit word before 0 s
        = List.filter (digit_word digit) (tokens word (drop_run word s))).
Proof.
  induction s as [|c r [IHout IHin]]; [split; reflexivity|].
  split; intros before Hb.
  - destruct (word c) eqn:Hc.
    + cbn [findall_from].
      rewrite (match_at_word_start before c r Hb Hc), (tokens_cons _ c r Hc).
      cbn zeta. cbn [List.filter].
      set (w := c :: take (run_length word r) r).
      destruct (digit_word digit w) eqn:Hw.
      * f_equal.
        -- subst w. cbn [length take]. rewrite word_length. reflexivity.
        -- rewrite skip_within_word.
           ++ apply IHin. exact Hc.
           ++ exact Hc.
           ++ subst w. cbn [length]. rewrite word_length. lia.
      * apply IHin. exact Hc.
    + cbn [findall_from].
      rewrite (match_at_outside before c r Hb Hc), (tokens_skip _ c r Hc).
      apply IHout. exact Hc.
  - cbn [findall_from]. rewrite (match_at_inside before c r Hb).
    cbn [drop_run]. destruct (word c) eqn:Hc.
    + apply IHin. exact Hc.
    + rewrite (tokens_skip _ c r Hc). apply IHout. exact Hc.
Qed.

End Pattern.

Lemma unicode_digit_is_word tables ch :
  is_digit tables ch = true -> is_word tables ch = true.
Proof. unfold is_word. intros ->. reflexivity. Qed.

(** [re.findall] returns the words of the text that are four to eight
    digits, in order. *)
Lemma re_findall_words tables s :
  re_findall tables s
  = map spell (List.filter (otp_word tables) (words tables s)).
Proof.
  unfold re_findall, words. f_equal.
  apply (proj1 (findall_words (is_digit tables) (is_word tables)
                  (unicode_digit_is_word tables) (characters s))).
  reflexivity.
Qed.

(** ** Properties every step of a run respects *)

Section Respects.

Context (R : world -> world -> Prop) `{!PreOrder R}.

Lemma respects_ret {A} (a : A) : respects R (ret a).
Proof. intros w. reflexivity. Qed.

Lemma respects_lift {A} (r : result A) : respects R (lift r).
Proof. intros w. reflexivity. Qed.

Lemma respects_raise {A} e : respects R (@raise A e).
Proof. intros w. reflexivity. Qed.

Lemma respects_now : respects R datetime_now.
Proof. intros w. reflexivity. Qed.

Lemma respects_unicode : respects R unicode_database.
Proof. intros w. reflexivity. Qed.

Lemma respects_lookup k : respects R (cache_lookup k).
Proof. intros w. reflexivity. Qed.

Lemma respects_read k : respects R (cache_read k).
Proof. intros w. unfold cache_read. destruct (CACHE w !! k); reflexivity. Qed.

Lemma respects_bind {A B} (m : M A) (k : A -> M B) :
  respects R m -> (forall a, respects R (k a)) -> respects R (bind m k).
Proof.
  intros Hm Hk w. unfold bind. specialize (Hm w).
  destruct (m w) as [[a|e|] w1]; cbn [snd] in *; try exact Hm.
  etransitivity; [exact Hm | apply Hk].
Qed.

Lemma respects_try {A} (m : M A) h :
  respects R m -> (forall e, respects R (h e)) -> respects R (try_except m h).
Proof.
  intros Hm Hh w. unfold try_except. specialize (Hm w).
  destruct (m w) as [[a|e|] w1]; cbn [snd] in *; try exact Hm.
  destruct e; try exact Hm.
  etransitivity; [exact Hm | apply Hh].
Qed.

End Respects.

Lemma keeps_token_preorder : PreOrder keeps_token.
Proof.
  split; [intros w v; reflexivity | intros w1 w2 w3 H12 H23 v Hv].
  pose proof (H12 v Hv) as E. rewrite <- E. apply (H23 v). rewrite E. exact Hv.
Qed.

#[local] Existing Instance keeps_token_preorder.

(** ** Stepping through the program *)

Lemma failure_raises a e :
  failure_of a = Some e ->
  forall A (f : json -> result A),
    rbind (received a)
      (fun response =>
         let+ _ := raise_for_status (fst response) in
         let+ data := response_json (snd response) in
         f data)
    = Raise (RequestException e).
Proof.
  intros H A f. destruct a as [|status b]; simpl in *.
  - congruence.
  - unfold raise_for_status. destruct (is_error status); simpl.
    + congruence.
    + destruct b; simpl in *; congruence.
Qed.

Lemma success_continues status j :
  is_error status = false ->
  forall A (f : json -> result A),
    rbind (received (Response status (BodyJson j)))
      (fun response =>
         let+ _ := raise_for_status (fst response) in
         let+ data := response_json (snd response) in
         f data)
    = f j.
Proof.
  intros H A f. simpl. unfold raise_for_status. rewrite H. reflexivity.
Qed.

Section Steps.

Variable net : nat -> request -> exchange.

Lemma token_attempts_step attempt rest w :
  token_attempts net (attempt :: rest) w
  = match rbind (received (next_reply net auth_request w)) token_of with
    | Ok token =>
        (Ok token, remember "token" token (landed net auth_request w))
    | Raise (RequestException e) =>
        token_attempts net rest
          (record (EvWarn (LogToken (attempt + 1)))
             (landed net auth_request w))
    | Raise e => (Raise e, landed net auth_request w)
    | NoFuel => (NoFuel, landed net auth_request w)
    end.
Proof.
  cbn [token_attempts]. unfold try_except, bind, http, lift.
  destruct (received (next_reply net auth_request w)) as [response|e|];
    cbn [rbind]; [|destruct e; reflexivity|reflexivity].
  destruct (token_of response) as [token|e|];
    [|destruct e; reflexivity|reflexivity].
  unfold cache_store, cache_read. cbn [remember CACHE].
  rewrite lookup_insert_eq. reflexivity.
Qed.

Lemma generate_bearer_token_cached w token :
  CACHE w !! "token" = Some token ->
  generate_bearer_token net w = (Ok token, w).
Proof.
  intros H. unfold generate_bearer_token, bind, cache_lookup.
  rewrite H. reflexivity.
Qed.

Lemma generate_bearer_token_fresh w :
  CACHE w !! "token" = None ->
  generate_bearer_token net w = token_attempts net (seq 0 3) w.
Proof.
  intros H. unfold generate_bearer_token, bind, cache_lookup.
  rewrite H. reflexivity.
Qed.

Lemma balance_attempts_step bearer_token attempt rest w :
  balance_attempts net bearer_token (attempt :: rest) w
  = let r := balance_request bearer_token in
    match rbind (received (next_reply net r w)) balance_of with
    | Raise (RequestException e) =>
        balance_attempts net bearer_token rest
          (record (EvWarn (LogBalance (attempt + 1))) (landed net r w))
    | other => (other, landed net r w)
    end.
Proof.
  cbn [balance_attempts]. unfold try_except, bind, http, lift. cbn zeta.
  destruct (received (next_reply net (balance_request bearer_token) w))
    as [response|e|]; cbn [rbind]; [|destruct e; reflexivity|reflexivity].
  destruct (balance_of response) as [b|e|];
    [reflexivity|destruct e; reflexivity|reflexivity].
Qed.

Lemma get_balance_signed_in w token :
  CACHE w !! "token" = Some token -> truthy token = true ->
  get_balance net w = balance_attempts net token (seq 0 3) w.
Proof.
  intros H Ht. unfold get_balance, bind.
  rewrite (generate_bearer_token_cached w token H), Ht. reflexivity.
Qed.

End Steps.

(** ** The retry budgets *)

Section Retry.

Variable net : nat -> request -> exchange.

Lemma token_third_attempt w status kvs :
  CACHE w !! "token" = None ->
  is_Some (failure_of (answer (net (exchanges w) auth_request))) ->
  is_Some (failure_of (answer (net (S (exchanges w)) auth_request))) ->
  answer (net (S (S (exchanges w))) auth_request)
  = Response status (BodyJson (JObj kvs)) ->
  is_error status = false ->
  let token := default JNull (dict_lookup "token" kvs) in
  let w' := snd (generate_bearer_token net w) in
  fst (generate_bearer_token net w) = Ok token
  /\ exchanges w' = (exchanges w + 3)%nat
  /\ CACHE w' !! "token" = Some token.
Proof.
  intros Hc [e1 H1] [e2 H2] H3 Hs. cbn zeta.
  rewrite (generate_bearer_token_fresh net w Hc). cbn [seq].
  rewrite token_attempts_step. unfold next_reply, token_of.
  rewrite (failure_raises _ _ H1).
  rewrite token_attempts_step. unfold next_reply, token_of.
  cbn [record landed exchanges].
  rewrite (failure_raises _ _ H2).
  rewrite token_attempts_step. unfold next_reply, token_of.
  cbn [record landed exchanges].
  rewrite H3, (success_continues _ _ Hs). cbn [py_get fst snd].
  repeat split.
  - cbn. lia.
  - cbn [remember CACHE]. apply lookup_insert_eq.
Qed.

Lemma token_exhausted w :
  CACHE w !! "token" = None ->
  is_Some (failure_of (answer (net (exchanges w) auth_request))) ->
  is_Some (failure_of (answer (net (S (exchanges w)) auth_request))) ->
  is_Some (failure_of (answer (net (S (S (exchanges w))) auth_request))) ->
  let w' := snd (generate_bearer_token net w) in
  fst (generate_bearer_token net w) = Ok JNull
  /\ exchanges w' = (exchanges w + 3)%nat
  /\ CACHE w' !! "token" = None.
Proof.
  intros Hc [e1 H1] [e2 H2] [e3 H3]. cbn zeta.
  rewrite (generate_bearer_token_fresh net w Hc). cbn [seq].
  rewrite token_attempts_step. unfold next_reply, token_of.
  rewrite (failure_raises _ _ H1).
  rewrite token_attempts_step. unfold next_reply, token_of.
  cbn [record landed exchanges].
  rewrite (failure_raises _ _ H2).
  rewrite token_attempts_step. unfold next_reply, token_of.
  cbn [record landed exchanges].
  rewrite (failure_raises _ _ H3).
  cbn. repeat split; [lia | exact Hc].
Qed.

Lemma balance_third_attempt w token status kvs :
  CACHE w !! "token" = Some token -> truthy token = true ->
  let r := balance_request token in
  is_Some (failure_of (answer (net (exchanges w) r))) ->
  is_Some (failure_of (answer (net (S (exchanges w)) r))) ->
  answer (net (S (S (exchanges w))) r)
  = Response status (BodyJson (JObj kvs)) ->
  is_error status = false ->
  fst (get_balance net w)
  = Ok (default (JStr "Error") (dict_lookup "currentBalance" kvs))
  /\ exchanges (snd (get_balance net w)) = (exchanges w + 3)%nat.
Proof.
  intros Hc Ht r [e1 H1] [e2 H2] H3 Hs. subst r.
  rewrite (get_balance_signed_in net w token Hc Ht). cbn [seq].
  rewrite balance_attempts_step. cbn zeta. unfold next_reply, balance_of.
  rewrite (failure_raises _ _ H1).
  rewrite balance_attempts_step. cbn zeta. unfold next_reply, balance_of.
  cbn [record landed exchanges].
  rewrite (failure_raises _ _ H2).
  rewrite balance_attempts_step. cbn zeta. unfold next_reply, balance_of.
  cbn [record landed exchanges].
  rewrite H3, (success_continues _ _ Hs). cbn [py_get fst snd].
  split; [reflexivity | cbn; lia].
Qed.

Lemma balance_exhausted w token :
  CACHE w !! "token" = Some token -> truthy token = true ->
  let r := balance_request token in
  is_Some (failure_of (answer (net (exchanges w) r))) ->
  is_Some (failure_of (answer (net (S (exchanges w)) r))) ->
  is_Some (failure_of (answer (net (S (S (exchanges w))) r))) ->
  fst (get_balance net w) = Ok (JStr "Error")
  /\ exchanges (snd (get_balance net w)) = (exchanges w + 3)%nat.
Proof.
  intros Hc Ht r [e1 H1] [e2 H2] [e3 H3]. subst r.
  rewrite (get_balance_signed_in net w token Hc Ht). cbn [seq].
  rewrite balance_attempts_step. cbn zeta. unfold next_reply, balance_of.
  rewrite (failure_raises _ _ H1).
  rewrite balance_attempts_step. cbn zeta. unfold next_reply, balance_of.
  cbn [record landed exchanges].
  rewrite (failure_raises _ _ H2).
  rewrite balance_attempts_step. cbn zeta. unfold next_reply, balance_of.
  cbn [record landed exchanges].
  rewrite (failure_raises _ _ H3).
  cbn. split; [reflexivity | lia].
Qed.

(** Attempts that fail are passed over: each makes its request and logs
    its warning, and the next attempt follows with the cache as it was. *)
Lemma token_attempts_after_failures j :
  forall attempts w,
    (j <= length attempts)%nat ->
    (forall i, (i < j)%nat ->
       is_Some (failure_of (answer (net (exchanges w + i) auth_request)))) ->
    exists w',
      token_attempts net attempts w = token_attempts net (drop j attempts) w'
      /\ exchanges w' = (exchanges w + j)%nat
      /\ CACHE w' = CACHE w.
Proof.
  induction j as [|j IH]; intros attempts w Hlen Hfail.
  - exists w. rewrite drop_0. repeat split. lia.
  - destruct attempts as [|attempt rest]; [cbn in Hlen; lia|].
    destruct (Hfail 0%nat ltac:(lia)) as [e He]. rewrite Nat.add_0_r in He.
    rewrite token_attempts_step. unfold next_reply, token_of.
    rewrite (failure_raises _ _ He).
    destruct (IH rest (record (EvWarn (LogToken (attempt + 1)))
                         (landed net auth_request w)))
      as (w' & Hrun & Hx & Hcache).
    + cbn in Hlen. lia.
    + intros i Hi. cbn [record landed exchanges].
      replace (S (exchanges w) + i)%nat with (exchanges w + S i)%nat by lia.
      apply Hfail. lia.
    + exists w'. split; [exact Hrun|]. split; [|exact Hcache].
      rewrite Hx. cbn [record landed exchanges]. lia.
Qed.

Lemma balance_attempts_after_failures token j :
  forall attempts w,
    (j <= length attempts)%nat ->
    (forall i, (i < j)%nat ->
       is_Some (failure_of
                  (answer (net (exchanges w + i) (balance_request token))))) ->
    exists w',
      balance_attempts net token attempts w
      = balance_attempts net token (drop j attempts) w'
      /\ exchanges w' = (exchanges w + j)%nat
      /\ CACHE w' = CACHE w.
Proof.
  induction j as [|j IH]; intros attempts w Hlen Hfail.
  - exists w. rewrite drop_0. repeat split. lia.
  - destruct attempts as [|attempt rest]; [cbn in Hlen; lia|].
    destruct (Hfail 0%nat ltac:(lia)) as [e He]. rewrite Nat.add_0_r in He.
    rewrite balance_attempts_step. cbn zeta. unfold next_reply, balance_of.
    rewrite (failure_raises _ _ He).
    destruct (IH rest (record (EvWarn (LogBalance (attempt + 1)))
                         (landed net (balance_request token) w)))
      as (w' & Hrun & Hx & Hcache).
    + cbn in Hlen. lia.
    + intros i Hi. cbn [record landed exchanges].
      replace (S (exchanges w) + i)%nat with (exchanges w + S i)%nat by lia.
      apply Hfail. lia.
    + exists w'. split; [exact Hrun|]. split; [|exact Hcache].
      rewrite Hx. cbn [record landed exchanges]. lia.
Qed.

End Retry.

Ltac respects_step :=
  lazymatch goal with
  | |- respects ?R (bind _ _) => apply (@respects_bind R _); [|intros ?]
  | |- respects ?R (try_except _ _) => apply (@respects_try R _); [|intros ?]
  | |- respects ?R (ret _) => apply (@respects_ret R _)
  | |- respects ?R (lift _) => apply (@respects_lift R _)
  | |- respects ?R (raise _) => apply (@respects_raise R _)
  | |- respects ?R datetime_now => apply (@respects_now R _)
  | |- respects ?R unicode_database => apply (@respects_unicode R _)
  | |- respects _ (if ?b then _ else _) => destruct b
  | |- respects _ (match ?x with _ => _ end) => destruct x
  end.

(** Whatever the primitives and the token cache respect, the rest of the
    program respects. *)
Section Stable.

Context (R : world -> world -> Prop) `{!PreOrder R}.
Variable net : nat -> request -> exchange.
Variable fromisoformat_ok : string -> bool.

Hypothesis R_record : forall e w, R w (record e w).
Hypothesis R_advance : forall d w, R w (advance d w).
Hypothesis R_landed : forall r w, R w (landed net r w).
Hypothesis R_token : respects R (generate_bearer_token net).

Lemma respects_emit e : respects R (emit e).
Proof. intros w. apply R_record. Qed.

Lemma respects_sleep d : respects R (sleep d).
Proof.
  intros w. unfold sleep, slept. cbn [snd].
  etransitivity; [apply R_advance | apply R_record].
Qed.

Lemma respects_http r : respects R (http net r).
Proof. intros w. apply R_landed. Qed.

Ltac stable :=
  repeat first
    [ respects_step
    | apply respects_emit | apply respects_sleep | apply respects_http
    | apply R_token ].

Lemma respects_balance_attempts token attempts :
  respects R (balance_attempts net token attempts).
Proof.
  induction attempts as [|attempt rest IH]; cbn [balance_attempts]; stable.
  exact IH.
Qed.

Lemma respects_get_balance : respects R (get_balance net).
Proof. unfold get_balance. stable. apply respects_balance_attempts. Qed.

Lemma respects_otp_iteration token id number balance service :
  respects R (otp_iteration net token id number balance service).
Proof. unfold otp_iteration, otp_try. cbn zeta. stable. Qed.

Lemma respects_otp_loop fuel timeout token id number balance service :
  respects R (otp_loop net fuel timeout token id number balance service).
Proof.
  induction fuel as [|fuel IH]; cbn [otp_loop]; stable.
  - apply respects_otp_iteration.
  - exact IH.
Qed.

Lemma respects_check_otp fuel id number balance service :
  respects R (check_otp net fuel id number balance service).
Proof. unfold check_otp. cbn zeta. stable. apply respects_otp_loop. Qed.

Lemma respects_number_iteration token href number ends_at :
  respects R (number_iteration net token href number ends_at).
Proof. unfold number_iteration. stable. Qed.

Lemma respects_number_loop fuel start token href number ends_at :
  respects R (number_loop net fuel start token href number ends_at).
Proof.
  revert number ends_at.
  induction fuel as [|fuel IH]; intros number ends_at; cbn [number_loop];
    stable.
  - apply respects_number_iteration.
  - apply IH.
Qed.

Lemma respects_number_verdict found :
  respects R (number_verdict fromisoformat_ok found).
Proof. unfold number_verdict. cbn zeta. stable. Qed.

Lemma respects_await_number fuel token href :
  respects R (await_number net fromisoformat_ok fuel token href).
Proof.
  unfold await_number. stable.
  - apply respects_number_loop.
  - apply respects_number_verdict.
Qed.

Lemma respects_create_verification token service :
  respects R (create_verification net token service).
Proof. unfold create_verification. stable. Qed.

Lemma respects_verify fuel service :
  respects R (verify net fromisoformat_ok fuel service).
Proof.
  unfold verify. stable.
  - apply respects_get_balance.
  - apply respects_create_verification.
  - apply respects_get_balance.
  - apply respects_await_number.
  - apply respects_check_otp.
Qed.

End Stable.

(** ** The pure steps never run out of fuel *)

Lemma rbind_total {A B} (r : result A) (k : A -> result B) :
  r <> NoFuel -> (forall a, k a <> NoFuel) -> rbind r k <> NoFuel.
Proof.
  intros Hr Hk. destruct r; simpl; [apply Hk | discriminate | contradiction].
Qed.

Lemma received_total a : received a <> NoFuel.
Proof. destruct a; discriminate. Qed.

Lemma raise_for_status_total status : raise_for_status status <> NoFuel.
Proof. unfold raise_for_status. destruct (is_error status); discriminate. Qed.

Lemma response_json_total b : response_json b <> NoFuel.
Proof. destruct b; discriminate. Qed.

Lemma py_get_total d k dflt : py_get d k dflt <> NoFuel.
Proof. destruct d; discriminate. Qed.

Lemma py_item_total d k : py_item d k <> NoFuel.
Proof.
  destruct d; try discriminate. simpl. destruct (dict_lookup k kvs); discriminate.
Qed.

Lemma py_last_total v : py_last v <> NoFuel.
Proof.
  destruct v; try discriminate; simpl.
  - destruct (string_last s); discriminate.
  - destruct (last l); discriminate.
Qed.

Lemma has_href_total data : has_href data <> NoFuel.
Proof. destruct data; discriminate. Qed.

Lemma lacks_href_total data : lacks_href data <> NoFuel.
Proof.
  unfold lacks_href. destruct (negb (truthy data)); [discriminate|].
  apply rbind_total; [apply has_href_total | discriminate].
Qed.

Ltac pure_total :=
  repeat first
    [ apply rbind_total; [|intros ?]
    | apply received_total | apply raise_for_status_total
    | apply response_json_total | apply py_get_total | apply py_item_total
    | apply py_last_total | apply has_href_total | apply lacks_href_total
    | discriminate
    | match goal with
      | |- (if ?b then _ else _) <> NoFuel => destruct b
      | |- (match ?x with _ => _ end) <> NoFuel => destruct x
      end ].

Lemma token_of_total response : token_of response <> NoFuel.
Proof. unfold token_of. pure_total. Qed.

Lemma balance_of_total response : balance_of response <> NoFuel.
Proof. unfold balance_of. pure_total. Qed.

Lemma latest_sms_of_total response : latest_sms_of response <> NoFuel.
Proof. unfold latest_sms_of. pure_total. Qed.

Lemma number_of_total response : number_of response <> NoFuel.
Proof. unfold number_of. pure_total. Qed.

Lemma created_of_total response : created_of response <> NoFuel.
Proof. unfold created_of. pure_total. Qed.

Lemma parse_expiry_total ok ends_at : parse_expiry ok ends_at <> NoFuel.
Proof. unfold parse_expiry. pure_total. Qed.

(** ** One iteration of each loop *)

Section Iterations.

Variable net : nat -> request -> exchange.

Lemma otp_iteration_step token id number balance service w :
  otp_iteration net token id number balance service w
  = let r := sms_request token id in
    match rbind (received (next_reply net r w)) latest_sms_of with
    | Ok (Some text) =>
        (Ok true,
         record (EvEdit (Completed service number balance
                          (extract_otp (unicode w) text)))
           (landed net r w))
    | Ok None => (Ok false, slept 5 (landed net r w))
    | Raise (RequestException e) =>
        (Ok false,
         slept 5 (slept 5 (record (EvWarn LogOtp) (landed net r w))))
    | Raise e => (Raise e, landed net r w)
    | NoFuel => (NoFuel, landed net r w)
    end.
Proof.
  unfold otp_iteration, otp_try, try_except, bind, http, lift,
    unicode_database. cbn zeta.
  destruct (received (next_reply net (sms_request token id) w))
    as [response|e|]; cbn [rbind]; [|destruct e; reflexivity|reflexivity].
  destruct (latest_sms_of response) as [[text|]|e|];
    [reflexivity|reflexivity|destruct e; reflexivity|reflexivity].
Qed.

Lemma number_iteration_step token href number ends_at w :
  number_iteration net token href number ends_at w
  = let r := status_request token href in
    match rbind (received (next_reply net r w)) number_of with
    | Ok (n, e) =>
        if truthy n && truthy e
        then (Ok (true, (n, Some e)), landed net r w)
        else (Ok (false, (n, Some e)), slept 1 (landed net r w))
    | Raise (RequestException x) =>
        (Ok (false, (number, ends_at)),
         slept 1 (record (EvWarn LogNumber) (landed net r w)))
    | Raise x => (Raise x, landed net r w)
    | NoFuel => (NoFuel, landed net r w)
    end.
Proof.
  unfold number_iteration, try_except, bind, http, lift. cbn zeta.
  destruct (received (next_reply net (status_request token href) w))
    as [response|e|]; cbn [rbind]; [|destruct e; reflexivity|reflexivity].
  destruct (number_of response) as [[n e]|e|];
    [|destruct e; reflexivity|reflexivity].
  cbn [fst snd]. destruct (truthy n && truthy e); reflexivity.
Qed.

(** An iteration makes one exchange; one that does not end the loop
    takes at least its sleep. *)
Lemma otp_iteration_progress token id number balance service w :
  let run := otp_iteration net token id number balance service w in
  fst run <> NoFuel
  /\ exchanges (snd run) = S (exchanges w)
  /\ (fst run = Ok false -> (now w + 5 * second <= now (snd run))%N).
Proof.
  cbn zeta. rewrite otp_iteration_step. cbn zeta.
  pose proof (rbind_total (received (next_reply net (sms_request token id) w))
                latest_sms_of (received_total _) latest_sms_of_total) as Ht.
  destruct (rbind _ _) as [[text|]|e|]; [| |destruct e|contradiction];
    cbn; (split; [discriminate|split; [reflexivity|]]); intros; try discriminate;
    lia.
Qed.

Lemma number_iteration_progress token href number ends_at w :
  let run := number_iteration net token href number ends_at w in
  fst run <> NoFuel
  /\ exchanges (snd run) = S (exchanges w)
  /\ (forall st, fst run = Ok (false, st) ->
        (now w + 1 * second <= now (snd run))%N).
Proof.
  cbn zeta. rewrite number_iteration_step. cbn zeta.
  pose proof (rbind_total (received (next_reply net (status_request token href) w))
                number_of (received_total _) number_of_total) as Ht.
  destruct (rbind _ _) as [[n e]|e|]; [|destruct e|contradiction];
    [destruct (truthy n && truthy e)|..];
    cbn; (split; [discriminate|split; [reflexivity|]]); intros; try discriminate;
    lia.
Qed.

End Iterations.

(** ** The loops end *)

Section Termination.

Variable net : nat -> request -> exchange.

Lemma otp_loop_unfold fuel timeout token id number balance service w :
  otp_loop net fuel timeout token id number balance service w
  = if (now w <? timeout)%N then
      match fuel with
      | O => (NoFuel, w)
      | S fuel' =>
          match otp_iteration net token id number balance service w with
          | (Ok true, w1) => (Ok tt, w1)
          | (Ok false, w1) =>
              otp_loop net fuel' timeout token id number balance service w1
          | (Raise e, w1) => (Raise e, w1)
          | (NoFuel, w1) => (NoFuel, w1)
          end
      end
    else (Ok tt, w).
Proof.
  destruct fuel; cbn [otp_loop]; unfold bind, datetime_now;
    destruct (now w <? timeout)%N; try reflexivity.
  destruct (otp_iteration net token id number balance service w)
    as [[[|]|e|] w1]; reflexivity.
Qed.

Lemma number_loop_unfold fuel start token href number ends_at w :
  number_loop net fuel start token href number ends_at w
  = if negb (truthy number) && (now w - start <? max_wait_time * second)%N
    then
      match fuel with
      | O => (NoFuel, w)
      | S fuel' =>
          match number_iteration net token href number ends_at w with
          | (Ok (true, st), w1) => (Ok st, w1)
          | (Ok (false, st), w1) =>
              number_loop net fuel' start token href (fst st) (snd st) w1
          | (Raise e, w1) => (Raise e, w1)
          | (NoFuel, w1) => (NoFuel, w1)
          end
      end
    else (Ok (number, ends_at), w).
Proof.
  destruct fuel; cbn [number_loop]; unfold bind, datetime_now;
    destruct (negb (truthy number)
              && (now w - start <? max_wait_time * second)%N);
    try reflexivity.
  destruct (number_iteration net token href number ends_at w)
    as [[[[|] st]|e|] w1]; reflexivity.
Qed.

(** With five seconds of fuel per remaining five seconds of window the
    OTP loop ends, after at most [fuel] polls. *)
Lemma otp_loop_ends fuel timeout token id number balance service w :
  (timeout <= now w + N.of_nat fuel * (5 * second))%N ->
  let run := otp_loop net fuel timeout token id number balance service w in
  fst run <> NoFuel /\ (exchanges (snd run) <= exchanges w + fuel)%nat.
Proof.
  revert w. induction fuel as [|fuel IH]; intros w Hw; cbn zeta;
    rewrite otp_loop_unfold;
    destruct (now w <? timeout)%N eqn:Hlt;
    try (cbn; split; [discriminate | lia]).
  - apply N.ltb_lt in Hlt. lia.
  - destruct (otp_iteration_progress net token id number balance service w)
      as (Ht & Hx & Hn).
    destruct (otp_iteration net token id number balance service w)
      as [[[|]|e|] w1]; cbn [fst snd] in *.
    + split; [discriminate | lia].
    + specialize (Hn eq_refl).
      destruct (IH w1) as [IH1 IH2]; [lia|]. split; [exact IH1 | lia].
    + split; [discriminate | lia].
    + contradiction.
Qed.

Lemma number_loop_ends fuel start token href number ends_at w :
  (start + max_wait_time * second <= now w + N.of_nat fuel * second)%N ->
  let run := number_loop net fuel start token href number ends_at w in
  fst run <> NoFuel /\ (exchanges (snd run) <= exchanges w + fuel)%nat.
Proof.
  revert number ends_at w.
  induction fuel as [|fuel IH]; intros number ends_at w Hw; cbn zeta;
    rewrite number_loop_unfold;
    destruct (negb (truthy number)
              && (now w - start <? max_wait_time * second)%N) eqn:Hc;
    try (cbn; split; [discriminate | lia]).
  - apply andb_true_iff in Hc as [_ Hlt]. apply N.ltb_lt in Hlt. lia.
  - destruct (number_iteration_progress net token href number ends_at w)
      as (Ht & Hx & Hn).
    destruct (number_iteration net token href number ends_at w)
      as [[[[|] st]|e|] w1]; cbn [fst snd] in *.
    + split; [discriminate | lia].
    + specialize (Hn st eq_refl).
      destruct (IH (fst st) (snd st) w1) as [IH1 IH2]; [lia|].
      split; [exact IH1 | lia].
    + split; [discriminate | lia].
    + contradiction.
Qed.

(** Fuel beyond what a loop needs changes nothing. *)
Lemma otp_loop_more_fuel fuel fuel' timeout token id number balance service w :
  (fuel <= fuel')%nat ->
  fst (otp_loop net fuel timeout token id number balance service w) <> NoFuel ->
  otp_loop net fuel' timeout token id number balance service w
  = otp_loop net fuel timeout token id number balance service w.
Proof.
  revert fuel' w. induction fuel as [|fuel IH]; intros fuel' w Hle;
    (destruct fuel' as [|fuel']; [try lia|]);
    rewrite !(otp_loop_unfold _ timeout token id number balance service w);
    destruct (now w <? timeout)%N; try reflexivity.
  - intros H. exfalso. apply H. reflexivity.
  - destruct (otp_iteration net token id number balance service w)
      as [[[|]|e|] w1]; try reflexivity.
    apply IH. lia.
Qed.

Lemma number_loop_more_fuel fuel fuel' start token href number ends_at w :
  (fuel <= fuel')%nat ->
  fst (number_loop net fuel start token href number ends_at w) <> NoFuel ->
  number_loop net fuel' start token href number ends_at w
  = number_loop net fuel start token href number ends_at w.
Proof.
  revert fuel' number ends_at w.
  induction fuel as [|fuel IH]; intros fuel' number ends_at w Hle;
    (destruct fuel' as [|fuel']; [try lia|]);
    rewrite !(number_loop_unfold _ start token href number ends_at w);
    destruct (negb (truthy number)
              && (now w - start <? max_wait_time * second)%N);
    try reflexivity.
  - intros H. exfalso. apply H. reflexivity.
  - destruct (number_iteration net token href number ends_at w)
      as [[[[|] st]|e|] w1]; try reflexivity.
    apply IH. lia.
Qed.

End Termination.

(** ** No step of the program hangs *)

Lemma halts_ret {A} (a : A) : halts (ret a).
Proof. intros w. discriminate. Qed.

Lemma halts_raise {A} e : halts (@raise A e).
Proof. intros w. discriminate. Qed.

Lemma halts_lift {A} (r : result A) : r <> NoFuel -> halts (lift r).
Proof. intros H w. exact H. Qed.

Lemma halts_emit e : halts (emit e).
Proof. intros w. discriminate. Qed.

Lemma halts_sleep d : halts (sleep d).
Proof. intros w. discriminate. Qed.

Lemma halts_now : halts datetime_now.
Proof. intros w. discriminate. Qed.

Lemma halts_unicode : halts unicode_database.
Proof. intros w. discriminate. Qed.

Lemma halts_store k v : halts (cache_store k v).
Proof. intros w. discriminate. Qed.

Lemma halts_lookup k : halts (cache_lookup k).
Proof. intros w. discriminate. Qed.

Lemma halts_read k : halts (cache_read k).
Proof. intros w. unfold cache_read. destruct (CACHE w !! k); discriminate. Qed.

Lemma halts_http net r : halts (http net r).
Proof. intros w. apply received_total. Qed.

Lemma halts_bind {A B} (m : M A) (k : A -> M B) :
  halts m -> (forall a, halts (k a)) -> halts (bind m k).
Proof.
  intros Hm Hk w. unfold bind. specialize (Hm w).
  destruct (m w) as [[a|e|] w1]; cbn [fst] in *;
    [apply Hk | discriminate | contradiction].
Qed.

Lemma halts_try {A} (m : M A) h :
  halts m -> (forall e, halts (h e)) -> halts (try_except m h).
Proof.
  intros Hm Hh w. unfold try_except. specialize (Hm w).
  destruct (m w) as [[a|e|] w1]; cbn [fst] in *;
    [discriminate | | contradiction].
  destruct e; try discriminate. apply Hh.
Qed.

Lemma bind_ext {A B} (m m' : M A) (k k' : A -> M B) w :
  m w = m' w -> (forall a w1, k a w1 = k' a w1) ->
  bind m k w = bind m' k' w.
Proof.
  intros Hm Hk. unfold bind. rewrite Hm.
  destruct (m' w) as [[a|e|] w1]; [apply Hk | reflexivity | reflexivity].
Qed.

Ltac halts_step :=
  lazymatch goal with
  | |- halts (bind _ _) => apply halts_bind; [|intros ?]
  | |- halts (try_except _ _) => apply halts_try; [|intros ?]
  | |- halts (ret _) => apply halts_ret
  | |- halts (raise _) => apply halts_raise
  | |- halts (emit _) => apply halts_emit
  | |- halts (sleep _) => apply halts_sleep
  | |- halts datetime_now => apply halts_now
  | |- halts unicode_database => apply halts_unicode
  | |- halts (cache_store _ _) => apply halts_store
  | |- halts (cache_lookup _) => apply halts_lookup
  | |- halts (cache_read _) => apply halts_read
  | |- halts (http _ _) => apply halts_http
  | |- halts (lift _) => apply halts_lift
  | |- halts (if ?b then _ else _) => destruct b
  | |- halts (match ?x with _ => _ end) => destruct x
  end.

Section Halting.

Variable net : nat -> request -> exchange.
Variable fromisoformat_ok : string -> bool.

Lemma halts_token_attempts attempts : halts (token_attempts net attempts).
Proof.
  induction attempts as [|attempt rest IH]; cbn [token_attempts];
    repeat halts_step; [apply token_of_total | exact IH].
Qed.

Lemma halts_generate_bearer_token : halts (generate_bearer_token net).
Proof.
  unfold generate_bearer_token. repeat halts_step.
  apply halts_token_attempts.
Qed.

Lemma halts_balance_attempts token attempts :
  halts (balance_attempts net token attempts).
Proof.
  induction attempts as [|attempt rest IH]; cbn [balance_attempts];
    repeat halts_step; [apply balance_of_total | exact IH].
Qed.

Lemma halts_get_balance : halts (get_balance net).
Proof.
  unfold get_balance. repeat halts_step.
  - apply halts_generate_bearer_token.
  - apply halts_balance_attempts.
Qed.

Lemma halts_create_verification token service :
  halts (create_verification net token service).
Proof.
  unfold create_verification. repeat halts_step. apply created_of_total.
Qed.

Lemma token_attempts_exchanges attempts w :
  (exchanges (snd (token_attempts net attempts w))
   <= exchanges w + length attempts)%nat.
Proof.
  revert w. induction attempts as [|attempt rest IH]; intros w;
    [cbn; lia|].
  rewrite token_attempts_step.
  destruct (rbind _ _) as [token|[]|]; cbn [snd length]; try (cbn; lia).
  etransitivity; [apply IH | cbn; lia].
Qed.

Lemma token_attempts_exchanges_from attempts w :
  (exchanges w <= exchanges (snd (token_attempts net attempts w)))%nat.
Proof.
  revert w. induction attempts as [|attempt rest IH]; intros w;
    [cbn; lia|].
  rewrite token_attempts_step.
  destruct (rbind _ _) as [token|[]|]; cbn [snd]; try (cbn; lia).
  etransitivity; [|apply IH]. cbn. lia.
Qed.

Lemma generate_bearer_token_exchanges w :
  (exchanges (snd (generate_bearer_token net w)) <= exchanges w + 3)%nat.
Proof.
  unfold generate_bearer_token, bind, cache_lookup.
  destruct (CACHE w !! "token"); [cbn; lia|].
  apply (token_attempts_exchanges (seq 0 3)).
Qed.

Lemma check_otp_unfold fuel id number balance service w :
  check_otp net fuel id number balance service w
  = bind (generate_bearer_token net)
      (fun token w1 =>
         otp_loop net fuel (now w1 + otp_window) token id number balance
           service w1) w.
Proof. reflexivity. Qed.

Lemma await_number_unfold fuel token href w :
  await_number net fromisoformat_ok fuel token href w
  = bind (number_loop net fuel (now w) token href JNull None)
      (number_verdict fromisoformat_ok) w.
Proof. reflexivity. Qed.

Lemma number_verdict_quiet found w :
  let run := number_verdict fromisoformat_ok found w in
  fst run <> NoFuel /\ exchanges (snd run) = exchanges w.
Proof.
  cbn zeta. unfold number_verdict. cbn zeta.
  destruct (negb (truthy (fst found))); [split; [discriminate|reflexivity]|].
  destruct (snd found) as [ends_at|]; [|split; [discriminate|reflexivity]].
  destruct (negb (truthy ends_at)); [split; [discriminate|reflexivity]|].
  unfold bind, lift. pose proof (parse_expiry_total fromisoformat_ok ends_at).
  destruct (parse_expiry fromisoformat_ok ends_at);
    (split; [first [discriminate | contradiction] | reflexivity]).
Qed.

(** [check_otp] ends, whatever the provider does, after at most sixty
    polls, and fuel beyond sixty is not used. *)
Lemma check_otp_ends fuel id number balance service w :
  (60 <= fuel)%nat ->
  let run := check_otp net fuel id number balance service w in
  fst run <> NoFuel
  /\ run = check_otp net 60 id number balance service w
  /\ (exchanges (snd run) <= exchanges w + 3 + 60)%nat.
Proof.
  intros Hf. cbn zeta. rewrite !check_otp_unfold. unfold bind.
  pose proof (halts_generate_bearer_token w) as Ht.
  pose proof (generate_bearer_token_exchanges w) as Hx.
  destruct (generate_bearer_token net w) as [[token|e|] w1]; cbn [fst snd] in *;
    [|split; [discriminate|split; [reflexivity|lia]]|contradiction].
  destruct (otp_loop_ends net 60 (now w1 + otp_window) token id number
              balance service w1) as [H1 H2].
  { unfold otp_window. lia. }
  rewrite (otp_loop_more_fuel net 60 fuel _ _ _ _ _ _ w1 Hf H1).
  split; [exact H1 | split; [reflexivity | lia]].
Qed.

(** The number phase ends after at most thirty polls. *)
Lemma await_number_ends fuel token href w :
  (30 <= fuel)%nat ->
  let run := await_number net fromisoformat_ok fuel token href w in
  fst run <> NoFuel
  /\ run = await_number net fromisoformat_ok 30 token href w
  /\ (exchanges (snd run) <= exchanges w + 30)%nat.
Proof.
  intros Hf. cbn zeta. rewrite !await_number_unfold. unfold bind.
  destruct (number_loop_ends net 30 (now w) token href JNull None w)
    as [H1 H2].
  { unfold max_wait_time. lia. }
  rewrite (number_loop_more_fuel net 30 fuel _ _ _ _ _ w Hf H1).
  destruct (number_loop net 30 (now w) token href JNull None w)
    as [[found|e|] w1]; cbn [fst snd] in *;
    [|split; [discriminate|split; [reflexivity|lia]]|contradiction].
  destruct (number_verdict_quiet found w1) as [V1 V2]. cbn zeta in V1, V2.
  split; [exact V1 | split; [reflexivity | lia]].
Qed.

Lemma halts_await_number fuel token href :
  (30 <= fuel)%nat -> halts (await_number net fromisoformat_ok fuel token href).
Proof. intros Hf w. apply (await_number_ends fuel token href w Hf). Qed.

Lemma halts_check_otp fuel id number balance service :
  (60 <= fuel)%nat -> halts (check_otp net fuel id number balance service).
Proof. intros Hf w. apply (check_otp_ends fuel id number balance service w Hf). Qed.

Lemma halts_verify fuel service :
  (60 <= fuel)%nat -> halts (verify net fromisoformat_ok fuel service).
Proof.
  intros Hf. unfold verify. repeat halts_step;
    try apply halts_generate_bearer_token; try apply halts_get_balance;
    try apply halts_create_verification; try apply lacks_href_total;
    try apply py_item_total; try apply py_get_total.
  - apply halts_await_number. lia.
  - apply halts_check_otp. exact Hf.
Qed.

Lemma verify_fuel fuel service w :
  (60 <= fuel)%nat ->
  verify net fromisoformat_ok fuel service w
  = verify net fromisoformat_ok 60 service w.
Proof.
  intros Hf. unfold verify.
  repeat first
    [ reflexivity
    | lazymatch goal with
      | |- await_number _ _ _ ?t ?h ?w1 = _ =>
          destruct (await_number_ends fuel t h w1) as (_ & -> & _); [lia|];
          destruct (await_number_ends 60 t h w1) as (_ & -> & _); [lia|]
      | |- check_otp _ _ ?i ?n ?b ?s ?w1 = _ =>
          apply (check_otp_ends fuel i n b s w1 Hf)
      | |- bind _ _ _ = _ => apply bind_ext; [|intros ? ?]
      | |- (if ?b then _ else _) _ = _ => destruct b
      | |- (match ?x with _ => _ end) _ = _ => destruct x
      end ].
Qed.

End Halting.

(** ** The token cache *)

Section TokenCache.

Variable net : nat -> request -> exchange.

Lemma token_attempts_cache attempts w :
  let run := token_attempts net attempts w in
  match fst run with
  | Ok token =>
      CACHE (snd run) !! "token" = Some token
      \/ (token = JNull /\ CACHE (snd run) = CACHE w)
  | _ => CACHE (snd run) = CACHE w
  end.
Proof.
  cbn zeta. revert w. induction attempts as [|attempt rest IH]; intros w.
  - cbn. right. split; reflexivity.
  - rewrite token_attempts_step.
    destruct (rbind _ _) as [token|[]|]; cbn [fst snd]; try reflexivity.
    + left. apply lookup_insert_eq.
    + exact (IH (record (EvWarn (LogToken (attempt + 1)))
                   (landed net auth_request w))).
Qed.

Lemma token_attempts_asks attempt rest w :
  (exchanges w < exchanges (snd (token_attempts net (attempt :: rest) w)))%nat.
Proof.
  rewrite token_attempts_step.
  pose proof (token_attempts_exchanges_from net rest) as Hge.
  destruct (rbind _ _) as [token|[]|]; cbn [snd]; try (cbn; lia).
  eapply Nat.lt_le_trans; [|apply Hge]. cbn. lia.
Qed.

(** C3, as the code has it: a cached credential is returned without any
    request, so a call that follows one that obtained a token makes none;
    a call on an empty cache makes one request per attempt, at least one
    and at most three, and caches only what an attempt obtained; when its
    three attempts fail nothing is cached, and the next call makes requests
    again. *)
Theorem cached_token_skips_network w :
  let first := generate_bearer_token net w in
  (exchanges (snd first) <= exchanges w + 3)%nat
  /\ (CACHE w !! "token" = None ->
      (exchanges w < exchanges (snd first))%nat)
  /\ (forall token,
        CACHE (snd first) !! "token" = Some token ->
        generate_bearer_token net (snd first) = (Ok token, snd first))
  /\ (forall token,
        fst first = Ok token -> truthy token = true ->
        CACHE (snd first) !! "token" = Some token)
  /\ (CACHE w !! "token" = None ->
      is_Some (failure_of (answer (net (exchanges w) auth_request))) ->
      is_Some (failure_of (answer (net (S (exchanges w)) auth_request))) ->
      is_Some (failure_of (answer (net (S (S (exchanges w))) auth_request))) ->
      let second := generate_bearer_token net (snd first) in
      fst first = Ok JNull
      /\ exchanges (snd first) = (exchanges w + 3)%nat
      /\ CACHE (snd first) !! "token" = None
      /\ (exchanges (snd first) < exchanges (snd second))%nat).
Proof.
  cbn zeta. split; [apply generate_bearer_token_exchanges|].
  split; [|split; [|split]].
  - intros Hc. rewrite (generate_bearer_token_fresh net w Hc).
    apply token_attempts_asks.
  - intros token Hc. apply generate_bearer_token_cached. exact Hc.
  - intros token Hr Ht.
    destruct (CACHE w !! "token") as [cached|] eqn:Hc.
    + rewrite (generate_bearer_token_cached net w cached Hc) in *.
      cbn [fst snd] in *. congruence.
    + rewrite (generate_bearer_token_fresh net w Hc) in *.
      pose proof (token_attempts_cache (seq 0 3) w) as H. cbn zeta in H.
      rewrite Hr in H. destruct H as [H|[-> _]]; [exact H | discriminate].
  - intros Hc H1 H2 H3.
    destruct (token_exhausted net w Hc H1 H2 H3) as (R1 & R2 & R3).
    split; [exact R1|]. split; [exact R2|]. split; [exact R3|].
    rewrite (generate_bearer_token_fresh net _ R3). apply token_attempts_asks.
Qed.

End TokenCache.

(** Two calls on an unreachable provider make six requests. *)
Lemma unreachable_provider_six_requests :
  ~ at_most_one_request (always Transport) world0.
Proof. unfold at_most_one_request. vm_compute. lia. Qed.

Lemma cached_token_skips_network_witness :
  let net := script [Transport; json_reply (JObj [("token", JStr "abc")])] in
  let w1 := snd (generate_bearer_token net world0) in
  let down := always Transport in
  let w2 := snd (generate_bearer_token down world0) in
  (exchanges w1 = 2%nat
   /\ generate_bearer_token net w1 = (Ok (JStr "abc"), w1))
  /\ (CACHE w2 !! "token" = None
      /\ (exchanges w2 < exchanges (snd (generate_bearer_token down w2)))%nat).
Proof.
  cbn zeta. split.
  - pose proof (cached_token_skips_network
                  (script [Transport; json_reply (JObj [("token", JStr "abc")])])
                  world0) as (_ & _ & Hsecond & Hcached & _).
    split; [reflexivity|].
    apply Hsecond, Hcached; reflexivity.
  - pose proof (cached_token_skips_network (always Transport) world0)
      as (_ & _ & _ & _ & Hfail).
    destruct Hfail as (_ & _ & Hnone & Hagain);
      try reflexivity; try (eexists; reflexivity).
    split; [exact Hnone | exact Hagain].
Defined.

(** C4: an auth or balance call whose first two attempts fail and whose
    third succeeds returns the third attempt's value; after three failed
    attempts the auth call returns [None] and the balance call ["Error"]. *)
Theorem retry_budgets :
  (forall net w status kvs,
     CACHE w !! "token" = None ->
     is_Some (failure_of (answer (net (exchanges w) auth_request))) ->
     is_Some (failure_of (answer (net (S (exchanges w)) auth_request))) ->
     answer (net (S (S (exchanges w))) auth_request)
     = Response status (BodyJson (JObj kvs)) ->
     is_error status = false ->
     fst (generate_bearer_token net w)
     = Ok (default JNull (dict_lookup "token" kvs))
     /\ exchanges (snd (generate_bearer_token net w)) = (exchanges w + 3)%nat)
  /\ (forall net w,
        CACHE w !! "token" = None ->
        is_Some (failure_of (answer (net (exchanges w) auth_request))) ->
        is_Some (failure_of (answer (net (S (exchanges w)) auth_request))) ->
        is_Some (failure_of (answer (net (S (S (exchanges w))) auth_request))) ->
        fst (generate_bearer_token net w) = Ok JNull
        /\ exchanges (snd (generate_bearer_token net w)) = (exchanges w + 3)%nat)
  /\ (forall net w token status kvs,
        CACHE w !! "token" = Some token -> truthy token = true ->
        is_Some (failure_of (answer (net (exchanges w) (balance_request token)))) ->
        is_Some (failure_of (answer (net (S (exchanges w)) (balance_request token)))) ->
        answer (net (S (S (exchanges w))) (balance_request token))
        = Response status (BodyJson (JObj kvs)) ->
        is_error status = false ->
        fst (get_balance net w)
        = Ok (default (JStr "Error") (dict_lookup "currentBalance" kvs))
        /\ exchanges (snd (get_balance net w)) = (exchanges w + 3)%nat)
  /\ (forall net w token,
        CACHE w !! "token" = Some token -> truthy token = true ->
        is_Some (failure_of (answer (net (exchanges w) (balance_request token)))) ->
        is_Some (failure_of (answer (net (S (exchanges w)) (balance_request token)))) ->
        is_Some (failure_of (answer (net (S (S (exchanges w))) (balance_request token)))) ->
        fst (get_balance net w) = Ok (JStr "Error")
        /\ exchanges (snd (get_balance net w)) = (exchanges w + 3)%nat).
Proof.
  repeat split.
  - apply (token_third_attempt net w status kvs); assumption.
  - apply (token_third_attempt net w status kvs); assumption.
  - apply (token_exhausted net w); assumption.
  - apply (token_exhausted net w); assumption.
  - apply (balance_third_attempt net w token status kvs); assumption.
  - apply (balance_third_attempt net w token status kvs); assumption.
  - apply (balance_exhausted net w token); assumption.
  - apply (balance_exhausted net w token); assumption.
Qed.

Lemma retry_budgets_witness :
  fst (generate_bearer_token
         (script [Transport; Response 503 BodyEmpty;
                  json_reply (JObj [("token", JStr "abc")])]) world0)
  = Ok (JStr "abc")
  /\ fst (generate_bearer_token
            (script [Transport; Response 503 BodyEmpty; Response 200 BodyGarbage])
            world0)
     = Ok JNull
  /\ fst (get_balance
            (script [Response 500 BodyEmpty; Transport;
                     json_reply (JObj [("currentBalance", JInt 42)])])
            (signed_in (JStr "abc")))
     = Ok (JInt 42)
  /\ fst (get_balance (always Transport) (signed_in (JStr "abc")))
     = Ok (JStr "Error").
Proof.
  destruct retry_budgets as (H1 & H2 & H3 & H4).
  split; [|split; [|split]].
  - refine (proj1 (H1 _ world0 200%Z [("token", JStr "abc")] _ _ _ _ _));
      first [reflexivity | eexists; reflexivity].
  - refine (proj1 (H2 _ world0 _ _ _ _));
      first [reflexivity | eexists; reflexivity].
  - refine (proj1 (H3 _ (signed_in (JStr "abc")) (JStr "abc") 200%Z
                     [("currentBalance", JInt 42)] _ _ _ _ _ _));
      first [reflexivity | eexists; reflexivity].
  - refine (proj1 (H4 _ (signed_in (JStr "abc")) (JStr "abc") _ _ _ _ _));
      first [reflexivity | eexists; reflexivity].
Defined.

(** ** A cached token is never dropped *)

Section KeepsToken.

Variable net : nat -> request -> exchange.
Variable fromisoformat_ok : string -> bool.

Lemma generate_bearer_token_keeps :
  respects keeps_token (generate_bearer_token net).
Proof.
  intros w v Hv. rewrite (generate_bearer_token_cached net w v Hv).
  reflexivity.
Qed.

Lemma get_balance_keeps : respects keeps_token (get_balance net).
Proof.
  apply respects_get_balance; try exact _; try (intros; intros v Hv; reflexivity).
  apply generate_bearer_token_keeps.
Qed.

Lemma check_otp_keeps fuel id number balance service :
  respects keeps_token (check_otp net fuel id number balance service).
Proof.
  apply respects_check_otp; try exact _; try (intros; intros v Hv; reflexivity).
  apply generate_bearer_token_keeps.
Qed.

Lemma verify_keeps fuel service :
  respects keeps_token (verify net fromisoformat_ok fuel service).
Proof.
  apply respects_verify; try exact _; try (intros; intros v Hv; reflexivity).
  apply generate_bearer_token_keeps.
Qed.

End KeepsToken.

(** C9: a successful auth reply whose object has no token, on whichever of
    the three attempts it comes after failed ones, makes the cache hold
    [None] under ["token"] and ends the call with that attempt; from then
    on [generate_bearer_token] returns [None] without a request, [verify]
    reports the authentication failure, [get_balance] returns ["Error"],
    and nothing the program does takes the entry out of the cache again. *)
Theorem tokenless_reply_is_cached net w j status kvs :
  CACHE w !! "token" = None ->
  (j < 3)%nat ->
  (forall i, (i < j)%nat ->
     is_Some (failure_of (answer (net (exchanges w + i) auth_request)))) ->
  answer (net (exchanges w + j) auth_request)
  = Response status (BodyJson (JObj kvs)) ->
  is_error status = false ->
  dict_lookup "token" kvs = None ->
  let w1 := snd (generate_bearer_token net w) in
  fst (generate_bearer_token net w) = Ok JNull
  /\ CACHE w1 !! "token" = Some JNull
  /\ exchanges w1 = (exchanges w + j + 1)%nat
  /\ (forall net' w', CACHE w' !! "token" = Some JNull ->
        generate_bearer_token net' w' = (Ok JNull, w')
        /\ get_balance net' w' = (Ok (JStr "Error"), w')
        /\ forall ok fuel service,
             verify net' ok fuel service w'
             = (Ok tt, record (EvSend AuthFailed) w'))
  /\ (forall net' ok fuel service id number balance,
        respects keeps_token (generate_bearer_token net')
        /\ respects keeps_token (get_balance net')
        /\ respects keeps_token (verify net' ok fuel service)
        /\ respects keeps_token (check_otp net' fuel id number balance service)).
Proof.
  intros Hc Hj Hfail Hr Hs Hk. cbn zeta.
  rewrite (generate_bearer_token_fresh net w Hc).
  destruct (token_attempts_after_failures net j (seq 0 3) w) as (w' & -> & Hx & _);
    [cbn; lia | exact Hfail |].
  assert (Hrest : exists attempt rest, drop j (seq 0 3) = attempt :: rest).
  { destruct j as [|[|[|j]]]; [eauto | eauto | eauto | lia]. }
  destruct Hrest as (attempt & rest & ->).
  rewrite token_attempts_step. unfold next_reply, token_of.
  rewrite Hx, Hr, (success_continues _ _ Hs). cbn [py_get]. rewrite Hk.
  cbn [default from_option Datatypes.id fst snd].
  split; [reflexivity|]. split; [apply lookup_insert_eq|]. split.
  { cbn [remember landed exchanges]. lia. }
  split.
  - intros net' w'' Hc'.
    pose proof (generate_bearer_token_cached net' w'' JNull Hc') as Hg.
    split; [exact Hg|]. split.
    + unfold get_balance, bind. rewrite Hg. reflexivity.
    + intros ok fuel service. unfold verify, bind. rewrite Hg. reflexivity.
  - intros net' ok fuel service id number balance.
    split; [apply generate_bearer_token_keeps|].
    split; [apply get_balance_keeps|].
    split; [apply verify_keeps | apply check_otp_keeps].
Qed.

Lemma tokenless_reply_is_cached_witness :
  let net := script [Transport; json_reply (JObj [("status", JStr "ok")])] in
  let w1 := snd (generate_bearer_token net world0) in
  fst (generate_bearer_token net world0) = Ok JNull
  /\ CACHE w1 !! "token" = Some JNull
  /\ exchanges w1 = 2%nat.
Proof.
  cbn zeta.
  destruct (tokenless_reply_is_cached
              (script [Transport; json_reply (JObj [("status", JStr "ok")])])
              world0 1 200%Z [("status", JStr "ok")])
    as (H1 & H2 & H3 & _); try reflexivity; try lia.
  - intros [|i] Hi; [eexists; reflexivity | lia].
  - split; [exact H1|]. split; [exact H2 | exact H3].
Defined.

(** C10: a successful balance reply whose object has no [currentBalance],
    on whichever of the three attempts it comes after failed ones, makes
    [get_balance] return ["Error"] from that attempt, without a further
    request: the value three failed attempts give. *)
Theorem balance_without_field_is_error net w token j status kvs :
  CACHE w !! "token" = Some token -> truthy token = true ->
  let r := balance_request token in
  (j < 3)%nat ->
  (forall i, (i < j)%nat ->
     is_Some (failure_of (answer (net (exchanges w + i) r)))) ->
  answer (net (exchanges w + j) r) = Response status (BodyJson (JObj kvs)) ->
  is_error status = false ->
  dict_lookup "currentBalance" kvs = None ->
  fst (get_balance net w) = Ok (JStr "Error")
  /\ exchanges (snd (get_balance net w)) = (exchanges w + j + 1)%nat
  /\ (forall net',
        is_Some (failure_of (answer (net' (exchanges w) r))) ->
        is_Some (failure_of (answer (net' (S (exchanges w)) r))) ->
        is_Some (failure_of (answer (net' (S (S (exchanges w))) r))) ->
        fst (get_balance net' w) = fst (get_balance net w)
        /\ exchanges (snd (get_balance net' w)) = (exchanges w + 3)%nat).
Proof.
  intros Hc Ht r Hj Hfail Hr Hs Hk. subst r.
  assert (E : fst (get_balance net w) = Ok (JStr "Error")
              /\ exchanges (snd (get_balance net w)) = (exchanges w + j + 1)%nat).
  { rewrite (get_balance_signed_in net w token Hc Ht).
    destruct (balance_attempts_after_failures net token j (seq 0 3) w)
      as (w' & -> & Hx & _); [cbn; lia | exact Hfail |].
    assert (Hrest : exists attempt rest, drop j (seq 0 3) = attempt :: rest).
    { destruct j as [|[|[|j]]]; [eauto | eauto | eauto | lia]. }
    destruct Hrest as (attempt & rest & ->).
    rewrite balance_attempts_step. cbn zeta. unfold next_reply, balance_of.
    rewrite Hx, Hr, (success_continues _ _ Hs). cbn [py_get]. rewrite Hk.
    cbn [default from_option Datatypes.id fst snd landed exchanges].
    split; [reflexivity | lia]. }
  destruct E as [E1 E2]. split; [exact E1|]. split; [exact E2|].
  intros net' H1 H2 H3. rewrite E1.
  apply (balance_exhausted net' w token Hc Ht H1 H2 H3).
Qed.

Lemma balance_without_field_is_error_witness :
  let net := script [Transport; json_reply (JObj [("currency", JStr "USD")])] in
  fst (get_balance net (signed_in (JStr "abc"))) = Ok (JStr "Error")
  /\ exchanges (snd (get_balance net (signed_in (JStr "abc")))) = 2%nat.
Proof.
  cbn zeta.
  destruct (balance_without_field_is_error
              (script [Transport; json_reply (JObj [("currency", JStr "USD")])])
              (signed_in (JStr "abc")) (JStr "abc") 1 200%Z
              [("currency", JStr "USD")])
    as (H1 & H2 & _); try reflexivity; try lia.
  - intros [|i] Hi; [eexists; reflexivity | lia].
  - split; [exact H1 | exact H2].
Defined.

(** ** Extraction *)

(** The text ["PIN 1234 ref A5678"] ends with the digit run ["5678"], which
    the pattern rejects for the letter in front of it. *)
Lemma digit_run_after_letter_is_skipped :
  ~ extracts_last_digit_run ascii_tables "PIN 1234 ref A5678".
Proof. unfold extracts_last_digit_run. vm_compute. discriminate. Qed.

(** C2, as the code has it: the OTP is the last word of the most recently
    received message, the last of the list, that consists of four to eight
    digits, a word being a maximal run of word characters (alphanumeric
    characters and underscores, as the Unicode database has them);
    ["Your code is 482913, expires soon"] gives ["482913"]; a text without
    such a word gives ["No OTP found"], and the completed report is made
    all the same. *)
Theorem otp_is_last_digit_word :
  (forall tables text,
     extract_otp tables text
     = default "No OTP found"
         (last (map spell (List.filter (otp_word tables) (words tables text)))))
  /\ (forall tables,
        extract_otp tables "Your code is 482913, expires soon" = "482913")
  /\ (forall tables, extract_otp tables "no digits here" = "No OTP found")
  /\ (forall net token id number balance service w status kvs older fields text,
        next_reply net (sms_request token id) w
        = Response status (BodyJson (JObj kvs)) ->
        is_error status = false ->
        dict_lookup "messages" kvs = Some (JList (older ++ [JObj fields])) ->
        dict_lookup "message" fields = Some (JStr text) ->
        otp_iteration net token id number balance service w
        = (Ok true,
           record (EvEdit (Completed service number balance
                             (extract_otp (unicode w) text)))
             (landed net (sms_request token id) w))).
Proof.
  split; [|split; [|split]].
  - intros tables text. unfold extract_otp. rewrite re_findall_words.
    reflexivity.
  - intros tables. reflexivity.
  - intros tables. reflexivity.
  - intros net token id number balance service w status kvs older fields text
      Hr Hs Hm Ht.
    rewrite otp_iteration_step. cbn zeta. rewrite Hr. unfold latest_sms_of.
    rewrite (success_continues _ _ Hs). cbn [py_get]. rewrite Hm.
    cbn [default from_option Datatypes.id rbind].
    replace (truthy (JList (older ++ [JObj fields]))) with true
      by (destruct older; reflexivity).
    cbn [py_last]. rewrite last_snoc. cbn [rbind py_item]. rewrite Ht.
    reflexivity.
Qed.

Lemma otp_is_last_digit_word_witness :
  let kvs := [("messages",
               JList [JObj [("message", JStr "old 1111")];
                      JObj [("message", JStr "no digits here")]])] in
  let net := always (json_reply (JObj kvs)) in
  otp_iteration net (JStr "abc") (JStr "R1") (JStr "+15551234567") (JInt 7)
    "svc" (signed_in (JStr "abc"))
  = (Ok true,
     record (EvEdit (Completed "svc" (JStr "+15551234567") (JInt 7)
                       "No OTP found"))
       (landed net (sms_request (JStr "abc") (JStr "R1"))
          (signed_in (JStr "abc")))).
Proof.
  intros kvs net.
  pose proof (proj2 (proj2 (proj2 otp_is_last_digit_word))) as H.
  exact (H net (JStr "abc") (JStr "R1") (JStr "+15551234567") (JInt 7) "svc"
           (signed_in (JStr "abc")) 200%Z kvs
           [JObj [("message", JStr "old 1111")]]
           [("message", JStr "no digits here")] "no digits here"
           eq_refl eq_refl eq_refl eq_refl).
Defined.

(** ** The cooldown of the OTP loop *)

Lemma emitted_new w w' new :
  trace w' = (new ++ trace w)%list -> emitted w w' = new.
Proof.
  intros H. unfold emitted. rewrite H, length_app.
  replace (length new + length (trace w) - length (trace w))%nat
    with (length new) by lia.
  rewrite take_app_le by lia. apply firstn_all.
Qed.

(** An iteration whose request fails sleeps twice. *)
Lemma failed_poll_sleeps_twice :
  ~ one_cooldown (always Transport) (JStr "abc") (JStr "R1")
      (JStr "+15551234567") (JInt 7) "svc" (signed_in (JStr "abc")).
Proof. unfold one_cooldown. vm_compute. discriminate. Qed.

(** C5, as the code has it: an iteration of the OTP loop whose request
    succeeds without messages ends with one sleep of five seconds; one whose
    request fails sleeps five seconds in the handler and five more at the end
    of the iteration; the iteration that finds a message returns without
    sleeping. *)
Theorem cooldown_after_poll net token id number balance service w :
  let r := sms_request token id in
  let run := otp_iteration net token id number balance service w in
  (forall e,
     failure_of (next_reply net r w) = Some e ->
     run = (Ok false,
            slept 5 (slept 5 (record (EvWarn LogOtp) (landed net r w))))
     /\ sleeps (emitted w (snd run)) = [5; 5]%N
     /\ now (snd run) = (now (landed net r w) + 10 * second)%N)
  /\ (forall status kvs,
        next_reply net r w = Response status (BodyJson (JObj kvs)) ->
        is_error status = false ->
        truthy (default JNull (dict_lookup "messages" kvs)) = false ->
        run = (Ok false, slept 5 (landed net r w))
        /\ sleeps (emitted w (snd run)) = [5%N]
        /\ now (snd run) = (now (landed net r w) + 5 * second)%N)
  /\ (fst run = Ok true ->
      sleeps (emitted w (snd run)) = []
      /\ now (snd run) = now (landed net r w)).
Proof.
  cbn zeta. split; [|split].
  - intros e He. rewrite otp_iteration_step. cbn zeta. unfold latest_sms_of.
    rewrite (failure_raises _ _ He). cbn [snd].
    split; [reflexivity|]. split; [|cbn; lia].
    erewrite emitted_new; [|cbn; instantiate (1 := [_; _; _; _]); reflexivity].
    reflexivity.
  - intros status kvs Hr Hs Hm. rewrite otp_iteration_step. cbn zeta.
    rewrite Hr. unfold latest_sms_of. rewrite (success_continues _ _ Hs).
    cbn [py_get rbind]. rewrite Hm. cbn [snd].
    split; [reflexivity|]. split; [|cbn; lia].
    erewrite emitted_new; [|cbn; instantiate (1 := [_; _]); reflexivity].
    reflexivity.
  - rewrite otp_iteration_step. cbn zeta.
    destruct (rbind _ _) as [[text|]|[]|]; cbn [fst snd]; try discriminate.
    intros _. split; [|reflexivity].
    erewrite emitted_new; [|cbn; instantiate (1 := [_; _]); reflexivity].
    reflexivity.
Qed.

Lemma cooldown_after_poll_witness :
  let quiet := json_reply (JObj [("messages", JList [])]) in
  let w := signed_in (JStr "abc") in
  now (snd (otp_iteration (always (Response 503 BodyEmpty)) (JStr "abc")
              (JStr "R1") (JStr "+15551234567") (JInt 7) "svc" w))
  = (10 * second)%N
  /\ now (snd (otp_iteration (always quiet) (JStr "abc") (JStr "R1")
                 (JStr "+15551234567") (JInt 7) "svc" w))
     = (5 * second)%N.
Proof.
  cbn zeta. split.
  - pose proof (proj1 (cooldown_after_poll (always (Response 503 BodyEmpty))
                         (JStr "abc") (JStr "R1") (JStr "+15551234567")
                         (JInt 7) "svc" (signed_in (JStr "abc")))
                  (HTTPError 503) eq_refl) as (_ & _ & H).
    rewrite H. reflexivity.
  - pose proof (proj1 (proj2 (cooldown_after_poll
                         (always (json_reply (JObj [("messages", JList [])])))
                         (JStr "abc") (JStr "R1") (JStr "+15551234567")
                         (JInt 7) "svc" (signed_in (JStr "abc"))))
                  200%Z [("messages", JList [])] eq_refl eq_refl eq_refl)
      as (_ & _ & H).
    rewrite H. reflexivity.
Defined.

(** ** An OTP window without messages *)

Lemma empty_reading a :
  empty_messages a = true -> rbind (received a) latest_sms_of = Ok None.
Proof.
  destruct a as [|status [| |[]]]; try discriminate. cbn [empty_messages].
  intros [Hs Hm]%andb_true_iff. apply negb_true_iff in Hs.
  unfold latest_sms_of. rewrite (success_continues _ _ Hs). cbn [py_get rbind].
  destruct (dict_lookup "messages" kvs) as [[| | | | |[|]|]|]; try discriminate.
  reflexivity.
Qed.

Section Quiet.

Variable net : nat -> request -> exchange.
Variables (token id number balance : json) (service : string).

Hypothesis quiet :
  forall n, empty_messages (answer (net n (sms_request token id))) = true.

Lemma quiet_otp_loop fuel timeout w :
  let run := otp_loop net fuel timeout token id number balance service w in
  reports (trace (snd run)) = reports (trace w)
  /\ (fst run = Ok tt -> (timeout <= now (snd run))%N)
  /\ (fst run = Ok tt \/ fst run = NoFuel).
Proof.
  cbn zeta. revert w. induction fuel as [|fuel IH]; intros w;
    rewrite otp_loop_unfold; destruct (now w <? timeout)%N eqn:Hlt;
    cbn [fst snd];
    try (split; [reflexivity|split; [|auto]]; intros; try discriminate;
         apply N.ltb_ge in Hlt; exact Hlt).
  rewrite otp_iteration_step. cbn zeta. unfold next_reply.
  rewrite (empty_reading _ (quiet (exchanges w))).
  apply (IH (slept 5 (landed net (sms_request token id) w))).
Qed.

End Quiet.

(** C6: when every messages poll of the window returns an empty list,
    [check_otp] ends, once the five minutes are over, without having sent or
    edited any report; no completed report exists, and what the user sees is
    still the pending report [verify] sent before. *)
Theorem empty_polls_never_complete net fuel id number balance service token w :
  (60 <= fuel)%nat ->
  CACHE w !! "token" = Some token ->
  (forall n, empty_messages (answer (net n (sms_request token id))) = true) ->
  let run := check_otp net fuel id number balance service w in
  fst run = Ok tt
  /\ reports (trace (snd run)) = reports (trace w)
  /\ (now w + otp_window <= now (snd run))%N
  /\ forall balance_before,
       head (reports (trace (snd (bind
               (emit (EvSend (Pending service number balance_before balance)))
               (fun _ => check_otp net fuel id number balance service) w))))
       = Some (Pending service number balance_before balance).
Proof.
  intros Hf Hc Hq.
  assert (H : forall w', CACHE w' !! "token" = Some token ->
            let run := check_otp net fuel id number balance service w' in
            fst run = Ok tt
            /\ reports (trace (snd run)) = reports (trace w')
            /\ (now w' + otp_window <= now (snd run))%N).
  { intros w' Hc'. cbn zeta.
    destruct (check_otp_ends net fuel id number balance service w' Hf)
      as (Hn & _ & _). revert Hn.
    rewrite check_otp_unfold. unfold bind.
    rewrite (generate_bearer_token_cached net w' token Hc').
    destruct (quiet_otp_loop net token id number balance service Hq fuel
                (now w' + otp_window) w') as (Hr & Ht & [Ho|Ho]).
    - intros _. split; [exact Ho|]. split; [exact Hr | exact (Ht Ho)].
    - intros Hn. contradiction. }
  cbn zeta. destruct (H w Hc) as (H1 & H2 & H3).
  split; [exact H1|]. split; [exact H2|]. split; [exact H3|].
  intros balance_before. unfold bind, emit.
  destruct (H (record (EvSend (Pending service number balance_before balance)) w) Hc)
    as (_ & H2' & _).
  rewrite H2'. reflexivity.
Qed.

Lemma empty_polls_never_complete_witness :
  let net := always (json_reply (JObj [("messages", JList [])])) in
  let run := check_otp net 60 (JStr "R1") (JStr "+15551234567") (JInt 7) "svc"
               (signed_in (JStr "abc")) in
  fst run = Ok tt /\ reports (trace (snd run)) = [].
Proof.
  cbn zeta.
  pose proof (empty_polls_never_complete
                (always (json_reply (JObj [("messages", JList [])])))
                60 (JStr "R1") (JStr "+15551234567") (JInt 7) "svc" (JStr "abc")
                (signed_in (JStr "abc")) (le_n 60) eq_refl
                (fun n => eq_refl)) as (H1 & H2 & _).
  split; [exact H1 | exact H2].
Defined.

(** ** A creation call that is refused *)



Lemma create_verification_step net token service w :
  create_verification net token service w
  = let r := creation_request token service in
    match rbind (received (next_reply net r w)) created_of with
    | Ok data => (Ok (Some data), landed net r w)
    | Raise (RequestException e) =>
        (Ok None, record (EvSend (RequestFailed e)) (landed net r w))
    | Raise e => (Raise e, landed net r w)
    | NoFuel => (NoFuel, landed net r w)
    end.
Proof.
  unfold create_verification, try_except, bind, http, lift. cbn zeta.
  destruct (received (next_reply net (creation_request token service) w))
    as [response|e|]; cbn [rbind]; [|destruct e; reflexivity|reflexivity].
  destruct (created_of response) as [data|e|];
    [reflexivity|destruct e; reflexivity|reflexivity].
Qed.




(** ** Both loops end *)

(** C8: whatever the provider answers, the number phase ends after at most
    thirty polls and the OTP phase after at most sixty, so [verify] returns;
    fuel beyond these bounds is never used. *)
Theorem polling_loops_end net ok fuel :
  (forall token href w,
     (30 <= fuel)%nat ->
     let run := await_number net ok fuel token href w in
     fst run <> NoFuel
     /\ run = await_number net ok 30 token href w
     /\ (exchanges (snd run) <= exchanges w + 30)%nat)
  /\ (forall id number balance service w,
        (60 <= fuel)%nat ->
        let run := check_otp net fuel id number balance service w in
        fst run <> NoFuel
        /\ run = check_otp net 60 id number balance service w
        /\ (exchanges (snd run) <= exchanges w + 3 + 60)%nat)
  /\ (forall service w,
        (60 <= fuel)%nat ->
        fst (verify net ok fuel service w) <> NoFuel
        /\ verify net ok fuel service w = verify net ok 60 service w).
Proof.
  split; [|split].
  - intros token href w Hf. apply await_number_ends. exact Hf.
  - intros id number balance service w Hf. apply check_otp_ends. exact Hf.
  - intros service w Hf. split.
    + apply halts_verify. exact Hf.
    + apply verify_fuel. exact Hf.
Qed.

Lemma polling_loops_end_witness :
  let net := always (json_reply (JObj [("number", JStr "")])) in
  fst (await_number net (fun _ => true) 100 (JStr "abc") (JStr "/v/1")
         (signed_in (JStr "abc"))) <> NoFuel
  /\ fst (verify (always Transport) (fun _ => true) 100 "svc" world0) <> NoFuel.
Proof.
  cbn zeta. split.
  - refine (proj1 (proj1 (polling_loops_end _ _ 100) _ _ _ _)). lia.
  - refine (proj1 (proj2 (proj2 (polling_loops_end _ _ 100)) _ _ _)). lia.
Defined.

(** ** The number phase *)

Lemma status_reading_fields a n e :
  rbind (received a) number_of = Ok (n, e) <-> status_fields a = Some (n, e).
Proof.
  destruct a as [|status b]; cbn; [split; discriminate|].
  unfold number_of, raise_for_status. cbn [fst snd].
  destruct (is_error status); cbn.
  - destruct b as [| |[]]; split; discriminate.
  - destruct b as [| |[]]; cbn; split; intros H; try discriminate;
      injection H as <- <-; reflexivity.
Qed.

Lemma status_reading_failed a :
  status_fields a = None -> not_an_object a = false ->
  exists x, rbind (received a) number_of = Raise (RequestException x).
Proof.
  destruct a as [|status b]; cbn; [eauto|].
  unfold number_of, raise_for_status. cbn [fst snd].
  destruct (is_error status); cbn; [eauto|].
  destruct b as [| |[]]; cbn; intros; try discriminate; eauto.
Qed.

Section NumberPhase.

Variable net : nat -> request -> exchange.
Variable fromisoformat_ok : string -> bool.
Variables (token href : json) (start : N).

Local Abbreviation r := (status_request token href).

(** The loop only ever holds the fields of one reply. *)
Lemma number_loop_seen from fuel number ends_at w found w' :
  (from <= exchanges w)%nat ->
  seen net r from (exchanges w) number ends_at ->
  number_loop net fuel start token href number ends_at w = (Ok found, w') ->
  seen net r from (exchanges w') (fst found) (snd found)
  /\ (exchanges w <= exchanges w')%nat.
Proof.
  revert number ends_at w.
  induction fuel as [|fuel IH]; intros number ends_at w Hfrom Hseen;
    rewrite number_loop_unfold;
    destruct (negb (truthy number)
              && (now w - start <? max_wait_time * second)%N);
    try discriminate;
    try (intros [= <- <-]; split; [exact Hseen | lia]).
  rewrite number_iteration_step. cbn zeta. fold r.
  destruct (rbind (received (next_reply net r w)) number_of)
    as [[n e]|x|] eqn:Hread; [|destruct x as [x| | | | | |]|];
    try discriminate.
  - apply status_reading_fields in Hread.
    assert (Hnew : forall upto, (exchanges w < upto)%nat ->
              seen net r from upto n (Some e)).
    { intros upto Hu. right. exists (exchanges w), e.
      split; [lia|]. split; [exact Hread | reflexivity]. }
    destruct (truthy n && truthy e).
    + intros [= <- <-]. cbn [fst snd landed exchanges].
      split; [apply Hnew; lia | lia].
    + intros Hrun. apply IH in Hrun.
      * destruct Hrun as [H1 H2]. split; [exact H1|].
        cbn [slept record advance landed exchanges] in H2. lia.
      * cbn. lia.
      * apply Hnew. cbn. lia.
  - intros Hrun. apply IH in Hrun.
    + destruct Hrun as [H1 H2]. split; [exact H1|].
      cbn [slept record advance landed exchanges] in H2. lia.
    + cbn. lia.
    + destruct Hseen as [Hi|(n0 & e0 & Hn0 & Hf0 & He0)]; [left; exact Hi|].
      right. exists n0, e0. split; [cbn; lia|]. split; assumption.
Qed.

(** As long as no reply has both fields the loop neither fails nor
    reports, and what it holds is not a number with its expiry. *)
Lemma number_loop_incomplete fuel number ends_at w :
  (forall n, incomplete (answer (net n r)) = true) ->
  let run := number_loop net fuel start token href number ends_at w in
  reports (trace (snd run)) = reports (trace w)
  /\ ((exists found, fst run = Ok found) \/ fst run = NoFuel).
Proof.
  intros Hall. cbn zeta. revert number ends_at w.
  induction fuel as [|fuel IH]; intros number ends_at w;
    rewrite number_loop_unfold;
    destruct (negb (truthy number)
              && (now w - start <? max_wait_time * second)%N);
    try (cbn; split; [reflexivity | eauto]).
  rewrite number_iteration_step. cbn zeta. fold r.
  specialize (Hall (exchanges w)). unfold incomplete in Hall.
  apply andb_true_iff in Hall as [Hobj Hfields].
  apply negb_true_iff in Hobj. fold (next_reply net r w) in Hobj, Hfields.
  destruct (status_fields (next_reply net r w)) as [[n e]|] eqn:Hs.
  - apply status_reading_fields in Hs. rewrite Hs.
    apply negb_true_iff in Hfields. rewrite Hfields.
    apply (IH n (Some e) (slept 1 (landed net r w))).
  - destruct (status_reading_failed _ Hs Hobj) as [x ->].
    apply (IH number ends_at
             (slept 1 (record (EvWarn LogNumber) (landed net r w)))).
Qed.

(** As long as no reply has a number the loop runs to the end of the
    window. *)
Lemma number_loop_numberless fuel number ends_at w found w' :
  (forall n, numberless (answer (net n r)) = true) ->
  truthy number = false ->
  number_loop net fuel start token href number ends_at w = (Ok found, w') ->
  (start + max_wait_time * second <= now w')%N.
Proof.
  intros Hall. revert number ends_at w.
  induction fuel as [|fuel IH]; intros number ends_at w Hn;
    rewrite number_loop_unfold; rewrite Hn; cbn [negb andb];
    destruct (now w - start <? max_wait_time * second)%N eqn:Hlt;
    try discriminate;
    try (intros [= <- <-]; apply N.ltb_ge in Hlt;
         unfold max_wait_time, second in *; lia).
  rewrite number_iteration_step. cbn zeta. fold r.
  pose proof (Hall (exchanges w)) as Hw. unfold numberless in Hw.
  apply andb_true_iff in Hw as [Hobj Hfields].
  apply negb_true_iff in Hobj. fold (next_reply net r w) in Hobj, Hfields.
  destruct (status_fields (next_reply net r w)) as [[n e]|] eqn:Hs.
  - apply status_reading_fields in Hs. rewrite Hs.
    apply negb_true_iff in Hfields. rewrite Hfields. cbn [andb].
    apply IH. exact Hfields.
  - destruct (status_reading_failed _ Hs Hobj) as [x ->].
    apply IH. exact Hn.
Qed.

End NumberPhase.

(** ** Composing the phases of a run *)

Lemma hoare_bind {A B} P (m : M A) (k : A -> M B) Q R :
  hoare P m Q ->
  (forall a, hoare (Q (Ok a)) (k a) R) ->
  (forall e w, Q (Raise e) w -> R (Raise e) w) ->
  (forall w, Q NoFuel w -> R NoFuel w) ->
  hoare P (bind m k) R.
Proof.
  intros Hm Hk He Hn w Hw. unfold bind. specialize (Hm w Hw).
  destruct (m w) as [[a|e|] w1]; cbn [fst snd] in *.
  - apply Hk. exact Hm.
  - apply He. exact Hm.
  - apply Hn. exact Hm.
Qed.

Lemma hoare_weaken {A} P (m : M A) (Q Q' : result A -> world -> Prop) :
  hoare P m Q -> (forall r w, Q r w -> Q' r w) -> hoare P m Q'.
Proof. intros Hm Hq w Hw. apply Hq, Hm, Hw. Qed.

Lemma hoare_respects {A} (R : world -> world -> Prop) (m : M A)
  (I : world -> Prop) :
  respects R m -> (forall w w', I w -> R w w' -> I w') ->
  hoare I m (fun _ w' => I w').
Proof. intros Hm HI w Hw. exact (HI w _ Hw (Hm w)). Qed.

(** ** Steps that report nothing *)

Lemma same_reports_preorder : PreOrder same_reports.
Proof.
  split; [intros w; reflexivity | intros w1 w2 w3 H12 H23].
  unfold same_reports in *. congruence.
Qed.

#[local] Existing Instance same_reports_preorder.

Section Silent.

Variable net : nat -> request -> exchange.

Lemma silent_http r : respects same_reports (http net r).
Proof. intros w. reflexivity. Qed.

Lemma silent_sleep d : respects same_reports (sleep d).
Proof. intros w. reflexivity. Qed.

Lemma silent_warn s : respects same_reports (emit (EvWarn s)).
Proof. intros w. reflexivity. Qed.

Lemma silent_store k v : respects same_reports (cache_store k v).
Proof. intros w. reflexivity. Qed.

Ltac silent :=
  repeat first
    [ respects_step
    | apply silent_http | apply silent_sleep | apply silent_warn
    | apply silent_store
    | apply (@respects_lookup same_reports _)
    | apply (@respects_read same_reports _) ].

Lemma silent_token_attempts attempts :
  respects same_reports (token_attempts net attempts).
Proof.
  induction attempts as [|attempt rest IH]; cbn [token_attempts]; silent.
  exact IH.
Qed.

Lemma silent_generate_bearer_token :
  respects same_reports (generate_bearer_token net).
Proof. unfold generate_bearer_token. silent. apply silent_token_attempts. Qed.

Lemma silent_balance_attempts token attempts :
  respects same_reports (balance_attempts net token attempts).
Proof.
  induction attempts as [|attempt rest IH]; cbn [balance_attempts]; silent.
  exact IH.
Qed.

Lemma silent_get_balance : respects same_reports (get_balance net).
Proof.
  unfold get_balance. silent.
  - apply silent_generate_bearer_token.
  - apply silent_balance_attempts.
Qed.

Lemma silent_number_iteration token href number ends_at :
  respects same_reports (number_iteration net token href number ends_at).
Proof. unfold number_iteration. silent. Qed.

Lemma silent_number_loop fuel start token href number ends_at :
  respects same_reports (number_loop net fuel start token href number ends_at).
Proof.
  revert number ends_at.
  induction fuel as [|fuel IH]; intros number ends_at; cbn [number_loop];
    silent.
  - apply silent_number_iteration.
  - apply IH.
Qed.

End Silent.

(** ** A session without a token *)

Section NoToken.

Variable net : nat -> request -> exchange.

(** The world after three failed auth attempts. *)
Lemma token_exhausted_world w :
  CACHE w !! "token" = None ->
  is_Some (failure_of (answer (net (exchanges w) auth_request))) ->
  is_Some (failure_of (answer (net (S (exchanges w)) auth_request))) ->
  is_Some (failure_of (answer (net (S (S (exchanges w))) auth_request))) ->
  exists w',
    generate_bearer_token net w = (Ok JNull, w')
    /\ trace w'
       = ([EvWarn (LogToken 3); EvRequest auth_request;
           EvWarn (LogToken 2); EvRequest auth_request;
           EvWarn (LogToken 1); EvRequest auth_request] ++ trace w)%list
    /\ exchanges w' = (exchanges w + 3)%nat
    /\ CACHE w' = CACHE w.
Proof.
  intros Hc [e1 H1] [e2 H2] [e3 H3].
  rewrite (generate_bearer_token_fresh net w Hc). cbn [seq].
  rewrite token_attempts_step. unfold next_reply, token_of.
  rewrite (failure_raises _ _ H1).
  rewrite token_attempts_step. unfold next_reply, token_of.
  cbn [record landed exchanges].
  rewrite (failure_raises _ _ H2).
  rewrite token_attempts_step. unfold next_reply, token_of.
  cbn [record landed exchanges].
  rewrite (failure_raises _ _ H3).
  eexists. split; [reflexivity|]. cbn. repeat split. lia.
Qed.

(** X1: when the three auth attempts fail, [verify] makes those three
    requests and no other, reports the authentication failure and returns;
    nothing is cached, so the next session tries again. A cached token that
    counts as false gives the same report without any request. *)
Theorem verify_without_token ok fuel service w :
  (CACHE w !! "token" = None ->
   is_Some (failure_of (answer (net (exchanges w) auth_request))) ->
   is_Some (failure_of (answer (net (S (exchanges w)) auth_request))) ->
   is_Some (failure_of (answer (net (S (S (exchanges w))) auth_request))) ->
   let run := verify net ok fuel service w in
   fst run = Ok tt
   /\ trace (snd run)
      = ([EvSend AuthFailed;
          EvWarn (LogToken 3); EvRequest auth_request;
          EvWarn (LogToken 2); EvRequest auth_request;
          EvWarn (LogToken 1); EvRequest auth_request] ++ trace w)%list
   /\ exchanges (snd run) = (exchanges w + 3)%nat
   /\ CACHE (snd run) !! "token" = None)
  /\ (forall token,
        CACHE w !! "token" = Some token -> truthy token = false ->
        verify net ok fuel service w = (Ok tt, record (EvSend AuthFailed) w)).
Proof.
  split.
  - intros Hc H1 H2 H3. cbn zeta.
    destruct (token_exhausted_world w Hc H1 H2 H3) as (w' & Hg & Ht & Hx & Hk).
    unfold verify, bind. rewrite Hg. cbn [truthy negb emit fst snd record trace].
    split; [reflexivity|]. split; [rewrite Ht; reflexivity|].
    split; [exact Hx|]. change (CACHE w' !! "token" = None).
    rewrite Hk. exact Hc.
  - intros token Hc Ht. unfold verify, bind.
    rewrite (generate_bearer_token_cached net w token Hc), Ht. reflexivity.
Qed.

(** X2: without a usable token [get_balance] returns ["Error"] and never
    contacts the balance endpoint: after three failed auth attempts the only
    requests made are those three, and with a cached token that counts as
    false no request is made at all. *)
Theorem get_balance_without_token w :
  (CACHE w !! "token" = None ->
   is_Some (failure_of (answer (net (exchanges w) auth_request))) ->
   is_Some (failure_of (answer (net (S (exchanges w)) auth_request))) ->
   is_Some (failure_of (answer (net (S (S (exchanges w))) auth_request))) ->
   let run := get_balance net w in
   fst run = Ok (JStr "Error")
   /\ requests (emitted w (snd run))
      = [auth_request; auth_request; auth_request])
  /\ (forall token,
        CACHE w !! "token" = Some token -> truthy token = false ->
        get_balance net w = (Ok (JStr "Error"), w)).
Proof.
  split.
  - intros Hc H1 H2 H3. cbn zeta.
    destruct (token_exhausted_world w Hc H1 H2 H3) as (w' & Hg & Ht & _).
    unfold get_balance, bind. rewrite Hg. cbn [truthy negb ret fst snd].
    split; [reflexivity|].
    rewrite (emitted_new w w' _ Ht). reflexivity.
  - intros token Hc Ht. unfold get_balance, bind.
    rewrite (generate_bearer_token_cached net w token Hc), Ht. reflexivity.
Qed.

End NoToken.

Lemma verify_without_token_witness :
  let run := verify (always (Response 401 BodyEmpty)) (fun _ => true) 60 "svc"
               world0 in
  fst run = Ok tt
  /\ reports (trace (snd run)) = [AuthFailed]
  /\ exchanges (snd run) = 3%nat
  /\ verify (always Transport) (fun _ => true) 60 "svc" (signed_in (JStr ""))
     = (Ok tt, record (EvSend AuthFailed) (signed_in (JStr ""))).
Proof.
  cbn zeta.
  destruct (verify_without_token (always (Response 401 BodyEmpty))
              (fun _ => true) 60 "svc" world0) as [Hfresh _].
  destruct (verify_without_token (always Transport)
              (fun _ => true) 60 "svc" (signed_in (JStr ""))) as [_ Hfalse].
  destruct Hfresh as (H1 & H2 & H3 & _);
    [reflexivity | eexists; reflexivity | eexists; reflexivity
     | eexists; reflexivity |].
  split; [exact H1|]. split; [rewrite H2; reflexivity|]. split; [exact H3|].
  apply (Hfalse (JStr "")); reflexivity.
Defined.

Lemma get_balance_without_token_witness :
  fst (get_balance (always Transport) world0) = Ok (JStr "Error")
  /\ get_balance (always Transport) (signed_in (JInt 0))
     = (Ok (JStr "Error"), signed_in (JInt 0)).
Proof.
  destruct (get_balance_without_token (always Transport) world0) as [Hfresh _].
  destruct (get_balance_without_token (always Transport) (signed_in (JInt 0)))
    as [_ Hfalse].
  split.
  - apply Hfresh; first [reflexivity | eexists; reflexivity].
  - apply (Hfalse (JInt 0)); reflexivity.
Defined.

(** ** What the extraction returns *)

Lemma append_empty (s : string) : EmptyString ++ s = s.
Proof. reflexivity. Qed.

Lemma append_String c (a s : string) : String c a ++ s = String c (a ++ s).
Proof. reflexivity. Qed.

Lemma append_empty_r (s : string) : s ++ EmptyString = s.
Proof.
  induction s as [|c s IH]; [reflexivity|].
  rewrite append_String, IH. reflexivity.
Qed.

Section Words.

Context {A : Type}.
Variable p : A -> bool.

Lemma tokens_starts (c : A) rest : p c = true -> tokens p (c :: rest) <> [].
Proof. intros Hc. rewrite (tokens_cons p c rest Hc). discriminate. Qed.

(** A character that [p] rejects separates the tokens on its two sides. *)
Lemma tokens_app_sep (a : list A) sep b :
  p sep = false ->
  tokens p (a ++ sep :: b)%list = (tokens p a ++ tokens p b)%list.
Proof.
  intros Hsep. induction a as [|c a IH].
  - cbn [app]. rewrite (tokens_skip p sep b Hsep). reflexivity.
  - destruct (p c) eqn:Hc.
    + destruct a as [|d a].
      * cbn [app] in *. rewrite tokens_two, Hc, Hsep.
        rewrite (tokens_skip p sep b Hsep). cbn [tokens]. rewrite Hc.
        reflexivity.
      * change ((c :: d :: a) ++ sep :: b)%list
          with (c :: d :: (a ++ sep :: b))%list.
        change ((d :: a) ++ sep :: b)%list
          with (d :: (a ++ sep :: b))%list in IH.
        rewrite !tokens_two, Hc.
        destruct (p d) eqn:Hd; rewrite IH; [|reflexivity].
        pose proof (tokens_starts d a Hd) as Hne.
        destruct (tokens p (d :: a)) as [|x xs]; [contradiction|].
        reflexivity.
    + change ((c :: a) ++ sep :: b)%list with (c :: (a ++ sep :: b))%list.
      rewrite !(tokens_skip p c _ Hc). exact IH.
Qed.

Lemma run_length_whole (s : list A) :
  forallb p s = true -> run_length p s = length s /\ drop_run p s = [].
Proof.
  induction s as [|c s IH]; cbn; [split; reflexivity|].
  intros [Hc Hs]%andb_true_iff. rewrite Hc.
  destruct (IH Hs) as [-> ->]. split; reflexivity.
Qed.

(** A text made of accepted characters only is one token. *)
Lemma tokens_whole (s : list A) :
  s <> [] -> forallb p s = true -> tokens p s = [s].
Proof.
  destruct s as [|c s]; [contradiction|]. intros _. cbn [forallb].
  intros [Hc Hs]%andb_true_iff.
  destruct (run_length_whole s Hs) as [Hl Hd].
  rewrite (tokens_cons p c s Hc), Hl, Hd, firstn_all. reflexivity.
Qed.

End Words.

Lemma characters_cons c rest :
  starts_character rest = true ->
  characters (String c rest) = String c EmptyString :: characters rest.
Proof.
  destruct rest as [|d rest]; [reflexivity|]. cbn [starts_character].
  intros Hd%negb_true_iff. cbn [characters]. rewrite Hd. reflexivity.
Qed.

Lemma characters_nonempty c rest : characters (String c rest) <> [].
Proof.
  cbn [characters]. destruct rest as [|d rest]; [discriminate|].
  destruct (is_continuation d); [|discriminate].
  destruct (characters (String d rest)); discriminate.
Qed.

(** Appending a text that starts with a character appends its
    characters. *)
Lemma characters_app a b :
  starts_character b = true ->
  characters (a ++ b) = (characters a ++ characters b)%list.
Proof.
  intros Hb. induction a as [|c a IH]; [reflexivity|].
  rewrite append_String. destruct a as [|d a].
  - rewrite append_empty. rewrite (characters_cons c b Hb). reflexivity.
  - rewrite append_String in *.
    change (characters (String c (String d (a ++ b))))
      with (if is_continuation d then
              match characters (String d (a ++ b)) with
              | ch :: chs => String c ch :: chs
              | [] => [String c EmptyString]
              end
            else String c EmptyString :: characters (String d (a ++ b))).
    change (characters (String c (String d a)))
      with (if is_continuation d then
              match characters (String d a) with
              | ch :: chs => String c ch :: chs
              | [] => [String c EmptyString]
              end
            else String c EmptyString :: characters (String d a)).
    rewrite IH. pose proof (characters_nonempty d a) as Hne.
    destruct (is_continuation d); [|reflexivity].
    destruct (characters (String d a)) as [|ch chs]; [contradiction|].
    reflexivity.
Qed.

Lemma spell_cons ch chs : spell (ch :: chs) = ch ++ spell chs.
Proof.
  unfold spell. destruct chs as [|x xs]; cbn [String.concat].
  - rewrite append_empty_r. reflexivity.
  - rewrite append_empty. reflexivity.
Qed.

Lemma ascii_digit_is_ascii c : ascii_digit c = true -> is_ascii c = true.
Proof.
  unfold ascii_digit, is_ascii. cbv zeta.
  intros [_ H]%andb_true_iff. apply Nat.leb_le in H. apply Nat.ltb_lt. lia.
Qed.

Lemma ascii_starts_character c rest :
  is_ascii c = true -> starts_character (String c rest) = true.
Proof.
  unfold is_ascii, starts_character, is_continuation. cbv zeta.
  intros H%Nat.ltb_lt. apply negb_true_iff, andb_false_iff. left.
  apply Nat.leb_gt. lia.
Qed.

Lemma digits_start_character code :
  all_ascii_digits code = true -> starts_character code = true.
Proof.
  destruct code as [|c code]; [reflexivity|]. cbn [all_ascii_digits].
  intros [Hc _]%andb_true_iff.
  apply ascii_starts_character, ascii_digit_is_ascii, Hc.
Qed.

(** A text of the digits [0-9] has one character for each of them, a digit
    in every database. *)
Lemma characters_digits tables code :
  all_ascii_digits code = true ->
  forallb (is_digit tables) (characters code) = true
  /\ length (characters code) = String.length code
  /\ spell (characters code) = code.
Proof.
  induction code as [|c code IH]; [intros _; repeat split; reflexivity|].
  cbn [all_ascii_digits]. intros [Hc Hs]%andb_true_iff.
  rewrite (characters_cons c code (digits_start_character code Hs)).
  destruct (IH Hs) as (Hd & Hl & Hsp). split; [|split].
  - cbn [forallb is_digit]. rewrite (ascii_digit_is_ascii c Hc), Hc, Hd.
    reflexivity.
  - cbn [length String.length]. rewrite Hl. reflexivity.
  - rewrite spell_cons, Hsp. reflexivity.
Qed.

Lemma ascii_code_word tables code :
  ascii_code code = true ->
  otp_word tables (characters code) = true
  /\ words tables code = [characters code]
  /\ spell (characters code) = code
  /\ starts_character code = true.
Proof.
  unfold ascii_code. intros [Hd Hl]%andb_true_iff.
  destruct (characters_digits tables code Hd) as (Hall & Hlen & Hsp).
  split; [|split; [|split]].
  - unfold otp_word, digit_word, otp_length. rewrite Hall, Hlen. exact Hl.
  - unfold words. apply tokens_whole.
    + intros Hnil. rewrite Hnil in Hlen. cbn in Hlen. rewrite <- Hlen in Hl.
      discriminate.
    + apply forallb_forall. intros ch Hin. apply unicode_digit_is_word.
      exact (proj1 (forallb_forall _ _) Hall ch Hin).
  - exact Hsp.
  - apply digits_start_character, Hd.
Qed.

Lemma separator_splits tables sep :
  ascii_separator sep = true ->
  is_ascii sep = true /\ is_word tables (String sep EmptyString) = false.
Proof.
  unfold ascii_separator.
  intros [[Ha Hd%negb_true_iff]%andb_true_iff Hl%negb_true_iff]%andb_true_iff.
  split; [exact Ha|]. unfold is_word, is_digit. rewrite Ha, Hd, Hl.
  reflexivity.
Qed.

(** The words of a text around an ASCII separator. *)
Lemma words_app_sep tables a sep b :
  ascii_separator sep = true -> starts_character b = true ->
  words tables (a ++ String sep b)
  = (words tables a ++ words tables b)%list.
Proof.
  intros Hsep Hb. destruct (separator_splits tables sep Hsep) as [Ha Hw].
  unfold words.
  rewrite (characters_app a _ (ascii_starts_character sep b Ha)).
  rewrite (characters_cons sep b Hb). apply tokens_app_sep, Hw.
Qed.

Lemma last_In {A} (l : list A) x : last l = Some x -> In x l.
Proof.
  induction l as [|y [|z l] IH]; cbn; [discriminate| |].
  - intros [= ->]. left. reflexivity.
  - intros H. right. apply IH, H.
Qed.

(** X3: what the extraction returns is the marker or the spelling of one of
    the words of the text, a word of four to eight digits and nothing else:
    never a shorter or longer run of digits, never part of a word. *)
Theorem extracted_otp_is_digit_word tables text :
  extract_otp tables text = "No OTP found"
  \/ exists word,
       In word (words tables text)
       /\ extract_otp tables text = spell word
       /\ forallb (is_digit tables) word = true
       /\ (4 <= length word <= 8)%nat.
Proof.
  unfold extract_otp. rewrite re_findall_words.
  rewrite fmap_last.
  destruct (last (List.filter (otp_word tables) (words tables text)))
    as [word|] eqn:Hl; [right | left; reflexivity].
  apply last_In, filter_In in Hl. destruct Hl as [Hin Hw].
  unfold otp_word, digit_word, otp_length in Hw.
  apply andb_true_iff in Hw as [Hd [H4%Nat.leb_le H8%Nat.leb_le]%andb_true_iff].
  exists word. repeat split; first [assumption | reflexivity].
Qed.

(** X4: a code of four to eight of the digits 0-9 is extracted when it is
    the whole text, when it ends the text after an ASCII character that is
    not a letter, digit or underscore, and when what follows it, after such
    a character, holds no word of four to eight digits; what comes before it
    does not matter. *)
Theorem trailing_code_is_extracted tables code :
  ascii_code code = true ->
  extract_otp tables code = code
  /\ (forall before sep,
        ascii_separator sep = true ->
        extract_otp tables (before ++ String sep code) = code)
  /\ (forall before sep sep' after,
        ascii_separator sep = true -> ascii_separator sep' = true ->
        starts_character after = true ->
        List.filter (otp_word tables) (words tables after) = [] ->
        extract_otp tables (before ++ String sep (code ++ String sep' after))
        = code).
Proof.
  intros Hcode.
  destruct (ascii_code_word tables code Hcode) as (Hw & Htok & Hsp & Hst).
  unfold extract_otp. split; [|split].
  - rewrite re_findall_words, Htok. cbn [List.filter]. rewrite Hw.
    cbn. exact Hsp.
  - intros before sep Hsep.
    rewrite re_findall_words, (words_app_sep _ _ _ _ Hsep Hst), Htok.
    rewrite List.filter_app. cbn [List.filter]. rewrite Hw.
    rewrite map_app. cbn [map]. rewrite last_snoc. exact Hsp.
  - intros before sep sep' after Hsep Hsep' Hafter Hnone.
    assert (starts_character (code ++ String sep' after) = true) as Hst'.
    { destruct code as [|c code]; [discriminate Hcode|]. exact Hst. }
    rewrite re_findall_words, (words_app_sep _ _ _ _ Hsep Hst'),
      (words_app_sep _ _ _ _ Hsep' Hafter), Htok.
    rewrite !List.filter_app, Hnone. cbn [List.filter]. rewrite Hw.
    rewrite app_nil_r, map_app. cbn [map]. rewrite last_snoc. exact Hsp.
Qed.

Lemma trailing_code_is_extracted_witness :
  extract_otp ascii_tables "9021" = "9021"
  /\ extract_otp ascii_tables "ref A5678, code 9021" = "9021"
  /\ extract_otp ascii_tables "Your code is 482913, expires soon" = "482913".
Proof.
  destruct (trailing_code_is_extracted ascii_tables "9021" eq_refl)
    as (H1 & H2 & _).
  destruct (trailing_code_is_extracted ascii_tables "482913" eq_refl)
    as (_ & _ & H3).
  split; [exact H1|]. split.
  - exact (H2 "ref A5678, code" " "%char eq_refl).
  - exact (H3 "Your code is" " "%char ","%char " expires soon"
             eq_refl eq_refl eq_refl eq_refl).
Defined.

(** X12: digits that touch a word character which is not a digit, a
    letter outside ASCII included, are not extracted: a text made of such a
    character and the digits [0-9], in either order, gives the marker. *)
Theorem digits_beside_letter_are_skipped tables ch code :
  characters ch = [ch] -> starts_character ch = true ->
  is_word tables ch = true -> is_digit tables ch = false ->
  all_ascii_digits code = true ->
  extract_otp tables (ch ++ code) = "No OTP found"
  /\ extract_otp tables (code ++ ch) = "No OTP found".
Proof.
  intros Hch Hst Hw Hd Hcode.
  destruct (characters_digits tables code Hcode) as (Hall & _ & _).
  assert (Hwords : forallb (is_word tables) (characters code) = true).
  { apply forallb_forall. intros c Hin. apply unicode_digit_is_word.
    exact (proj1 (forallb_forall _ _) Hall c Hin). }
  unfold extract_otp. rewrite !re_findall_words. unfold words.
  rewrite (characters_app ch code (digits_start_character code Hcode)).
  rewrite (characters_app code ch Hst), Hch. split.
  - rewrite (tokens_whole (is_word tables) ([ch] ++ characters code)%list).
    + cbn [List.filter app]. unfold otp_word, digit_word. cbn [forallb].
      rewrite Hd. reflexivity.
    + discriminate.
    + cbn [app forallb]. rewrite Hw, Hwords. reflexivity.
  - rewrite (tokens_whole (is_word tables) (characters code ++ [ch])%list).
    + cbn [List.filter]. unfold otp_word, digit_word.
      rewrite forallb_app. cbn [forallb]. rewrite Hd, andb_false_r.
      reflexivity.
    + destruct (characters code); discriminate.
    + rewrite forallb_app. cbn [forallb]. rewrite Hw, Hwords. reflexivity.
Qed.

Lemma digits_beside_letter_are_skipped_witness :
  let tables := {| isdecimal := fun _ => false; isalnum := fun _ => true |} in
  let e_acute := String (ascii_of_nat 195) (String (ascii_of_nat 169) "") in
  extract_otp tables (e_acute ++ "1234") = "No OTP found"
  /\ extract_otp tables ("1234" ++ e_acute) = "No OTP found".
Proof.
  cbn zeta.
  apply (digits_beside_letter_are_skipped
           {| isdecimal := fun _ => false; isalnum := fun _ => true |}
           (String (ascii_of_nat 195) (String (ascii_of_nat 169) ""))
           "1234"); reflexivity.
Defined.

Lemma characters_one ch : is_character ch = true -> characters ch = [ch].
Proof.
  destruct ch as [|c rest]; [discriminate|]. cbn [is_character].
  intros [_ Hrest]%andb_true_iff. revert c.
  induction rest as [|d rest IH]; intros c; [reflexivity|].
  cbn [all_continuation] in Hrest.
  apply andb_true_iff in Hrest as [Hd Hrest].
  change (characters (String c (String d rest)))
    with (if is_continuation d then
            match characters (String d rest) with
            | ch :: chs => String c ch :: chs
            | [] => [String c EmptyString]
            end
          else String c EmptyString :: characters (String d rest)).
  rewrite Hd, (IH Hrest d). reflexivity.
Qed.

Lemma spell_starts_character chs :
  forallb is_character chs = true -> starts_character (spell chs) = true.
Proof.
  destruct chs as [|ch chs]; [reflexivity|]. cbn [forallb].
  intros [Hch _]%andb_true_iff. rewrite spell_cons.
  destruct ch as [|c rest]; [discriminate|]. rewrite append_String.
  cbn [is_character starts_character] in *.
  apply andb_true_iff in Hch as [Hc _]. exact Hc.
Qed.

(** The characters of what a list of characters spells are that list. *)
Lemma characters_spell chs :
  forallb is_character chs = true -> characters (spell chs) = chs.
Proof.
  induction chs as [|ch chs IH]; [reflexivity|]. cbn [forallb].
  intros [Hch Hchs]%andb_true_iff.
  rewrite spell_cons, (characters_app ch _ (spell_starts_character chs Hchs)).
  rewrite (characters_one ch Hch), (IH Hchs). reflexivity.
Qed.

(** X13: a text of four to eight characters that are decimal digits, of
    ASCII or of any other script the database knows, is extracted whole. *)
Theorem digits_of_any_script_are_extracted tables chs :
  forallb is_character chs = true ->
  forallb (is_digit tables) chs = true ->
  (4 <= length chs <= 8)%nat ->
  extract_otp tables (spell chs) = spell chs.
Proof.
  intros Hchs Hdigits [H4 H8].
  unfold extract_otp. rewrite re_findall_words. unfold words.
  rewrite (characters_spell chs Hchs).
  rewrite (tokens_whole (is_word tables) chs).
  - cbn [List.filter]. unfold otp_word, digit_word, otp_length.
    rewrite Hdigits. apply Nat.leb_le in H4, H8. rewrite H4, H8. reflexivity.
  - intros ->. cbn in H4. lia.
  - apply forallb_forall. intros c Hin. apply unicode_digit_is_word.
    exact (proj1 (forallb_forall _ _) Hdigits c Hin).
Qed.

Lemma digits_of_any_script_are_extracted_witness :
  let tables := {| isdecimal := fun _ => true; isalnum := fun _ => true |} in
  let arabic_three := String (ascii_of_nat 217) (String (ascii_of_nat 163) "") in
  extract_otp tables ("1234" ++ arabic_three) = "1234" ++ arabic_three.
Proof.
  cbn zeta.
  apply (digits_of_any_script_are_extracted
           {| isdecimal := fun _ => true; isalnum := fun _ => true |}
           ["1"; "2"; "3"; "4";
            String (ascii_of_nat 217) (String (ascii_of_nat 163) "")]);
    [reflexivity | reflexivity | cbn; lia].
Defined.

(** ** A number or a message that arrives in time *)

Lemma clock_after_ge net r d n t k : (t <= clock_after net r d n t k)%N.
Proof.
  revert n t. induction k as [|k IH]; intros n t; cbn [clock_after]; [lia|].
  etransitivity; [|apply IH]. lia.
Qed.

Lemma numberless_reading a :
  numberless a = true ->
  (exists n e, rbind (received a) number_of = Ok (n, e) /\ truthy n = false)
  \/ exists x, rbind (received a) number_of = Raise (RequestException x).
Proof.
  unfold numberless. intros [Hobj Hf]%andb_true_iff.
  apply negb_true_iff in Hobj.
  destruct (status_fields a) as [[n e]|] eqn:Hs.
  - left. exists n, e. split; [apply status_reading_fields, Hs|].
    apply negb_true_iff, Hf.
  - right. apply status_reading_failed; assumption.
Qed.

(** An iteration of the OTP loop on a reply with messages. *)
Lemma otp_iteration_on_message net token id number balance service w status
  kvs older fields text :
  answer (net (exchanges w) (sms_request token id))
  = Response status (BodyJson (JObj kvs)) ->
  is_error status = false ->
  dict_lookup "messages" kvs = Some (JList (older ++ [JObj fields])) ->
  dict_lookup "message" fields = Some (JStr text) ->
  otp_iteration net token id number balance service w
  = (Ok true,
     record (EvEdit (Completed service number balance (extract_otp (unicode w) text)))
       (landed net (sms_request token id) w)).
Proof.
  intros Hr Hs Hm Ht.
  rewrite otp_iteration_step. cbn zeta. unfold next_reply. rewrite Hr.
  unfold latest_sms_of.
  rewrite (success_continues _ _ Hs). cbn [py_get]. rewrite Hm.
  cbn [default from_option Datatypes.id rbind].
  replace (truthy (JList (older ++ [JObj fields]))) with true
    by (destruct older; reflexivity).
  cbn [py_last]. rewrite last_snoc. cbn [rbind py_item]. rewrite Ht.
  reflexivity.
Qed.

Section Arrivals.

Variable net : nat -> request -> exchange.
Variable fromisoformat_ok : string -> bool.

Lemma number_loop_arrives token href start k :
  forall fuel w number0 ends0 number ends_at,
    truthy number0 = false ->
    (k < fuel)%nat ->
    (forall i, (i < k)%nat ->
       numberless (answer (net (exchanges w + i) (status_request token href)))
       = true) ->
    status_fields (answer (net (exchanges w + k) (status_request token href)))
    = Some (number, ends_at) ->
    truthy number = true -> truthy ends_at = true ->
    (clock_after net (status_request token href) 1 (exchanges w) (now w) k
       - start < max_wait_time * second)%N ->
    let run := number_loop net fuel start token href number0 ends0 w in
    fst run = Ok (number, Some ends_at)
    /\ exchanges (snd run) = (exchanges w + k + 1)%nat
    /\ now (snd run)
       = (clock_after net (status_request token href) 1 (exchanges w) (now w) k
          + latency (net (exchanges w + k) (status_request token href)))%N
    /\ same_reports w (snd run).
Proof.
  induction k as [|k IH];
    intros fuel w number0 ends0 number ends_at H0 Hfuel Hbefore Hk Hn He Hclock;
    (destruct fuel as [|fuel]; [lia|]); cbn zeta;
    rewrite number_loop_unfold, H0; cbn [negb andb].
  - cbn [clock_after] in *. apply N.ltb_lt in Hclock. rewrite Hclock.
    rewrite number_iteration_step. cbn zeta. unfold next_reply.
    rewrite Nat.add_0_r in Hk. apply status_reading_fields in Hk as Hread.
    rewrite Hread, Hn, He. cbn [andb fst snd landed exchanges now].
    rewrite Nat.add_0_r. repeat split. lia.
  - pose proof (clock_after_ge net (status_request token href) 1 (exchanges w)
                  (now w) (S k)) as Hge.
    replace (now w - start <? max_wait_time * second)%N with true
      by (symmetry; apply N.ltb_lt; lia).
    rewrite number_iteration_step. cbn zeta. unfold next_reply.
    pose proof (Hbefore 0%nat ltac:(lia)) as H0'. rewrite Nat.add_0_r in H0'.
    assert (Hnext : forall w1,
              exchanges w1 = S (exchanges w) ->
              now w1 = (now w + latency (net (exchanges w)
                                           (status_request token href))
                        + 1 * second)%N ->
              same_reports w w1 ->
              forall number1 ends1, truthy number1 = false ->
              let run := number_loop net fuel start token href number1 ends1 w1 in
              fst run = Ok (number, Some ends_at)
              /\ exchanges (snd run) = (exchanges w + S k + 1)%nat
              /\ now (snd run)
                 = (clock_after net (status_request token href) 1 (exchanges w)
                      (now w) (S k)
                    + latency (net (exchanges w + S k)
                                 (status_request token href)))%N
              /\ same_reports w (snd run)).
    { intros w1 Hx Ht Hr number1 ends1 H1. cbn zeta.
      destruct (IH fuel w1 number1 ends1 number ends_at H1 ltac:(lia))
        as (R1 & R2 & R3 & R4).
      - intros i Hi. rewrite Hx.
        replace (S (exchanges w) + i)%nat with (exchanges w + S i)%nat by lia.
        apply Hbefore. lia.
      - rewrite Hx.
        replace (S (exchanges w) + k)%nat with (exchanges w + S k)%nat by lia.
        exact Hk.
      - exact Hn.
      - exact He.
      - rewrite Hx, Ht. exact Hclock.
      - split; [exact R1|]. split; [rewrite R2, Hx; lia|].
        split.
        + rewrite R3, Hx, Ht.
          replace (S (exchanges w) + k)%nat with (exchanges w + S k)%nat by lia.
          reflexivity.
        + unfold same_reports in *. rewrite R4. exact Hr. }
    destruct (numberless_reading _ H0') as [(n & e & -> & Hfalse)|[x ->]].
    + rewrite Hfalse. cbn [andb].
      apply Hnext; [reflexivity | cbn; lia | reflexivity | exact Hfalse].
    + apply Hnext; [reflexivity | cbn; lia | reflexivity | exact H0].
Qed.

(** X5: when the status polls before the [k]-th carry no number and the
    [k]-th, started before the thirty seconds are over, carries both fields,
    the number phase ends with that poll: it returns the number if the
    expiry parses and raises what the parser raises otherwise, and in
    either case it has reported nothing. *)
Theorem number_arrives fuel token href w k number ends_at :
  let r := status_request token href in
  (k < fuel)%nat ->
  (forall i, (i < k)%nat -> numberless (answer (net (exchanges w + i) r)) = true) ->
  status_fields (answer (net (exchanges w + k) r)) = Some (number, ends_at) ->
  truthy number = true -> truthy ends_at = true ->
  (clock_after net r 1 (exchanges w) (now w) k
   < now w + max_wait_time * second)%N ->
  let run := await_number net fromisoformat_ok fuel token href w in
  fst run
  = rbind (parse_expiry fromisoformat_ok ends_at) (fun _ => Ok (Some number))
  /\ exchanges (snd run) = (exchanges w + k + 1)%nat
  /\ now (snd run)
     = (clock_after net r 1 (exchanges w) (now w) k
        + latency (net (exchanges w + k) r))%N
  /\ reports (trace (snd run)) = reports (trace w).
Proof.
  intros r Hfuel Hbefore Hk Hn He Hclock. cbn zeta.
  destruct (number_loop_arrives token href (now w) k fuel w JNull None number
              ends_at eq_refl Hfuel Hbefore Hk Hn He) as (R1 & R2 & R3 & R4).
  { pose proof (clock_after_ge net r 1 (exchanges w) (now w) k). fold r. lia. }
  rewrite await_number_unfold. unfold bind.
  destruct (number_loop net fuel (now w) token href JNull None w)
    as [res w1]. cbn [fst snd] in *. subst res.
  unfold number_verdict. cbn [fst snd]. rewrite Hn, He. cbn [negb].
  unfold bind, lift.
  destruct (parse_expiry fromisoformat_ok ends_at); cbn [rbind fst snd ret];
    (split; [reflexivity|]); (split; [exact R2|]); (split; [exact R3|]);
    exact R4.
Qed.

End Arrivals.

Section Messages.

Variable net : nat -> request -> exchange.
Variables (token id number balance : json) (service : string).

Lemma otp_loop_arrives timeout k :
  forall fuel w status kvs older fields text,
    (k < fuel)%nat ->
    (forall i, (i < k)%nat ->
       empty_messages (answer (net (exchanges w + i) (sms_request token id)))
       = true) ->
    answer (net (exchanges w + k) (sms_request token id))
    = Response status (BodyJson (JObj kvs)) ->
    is_error status = false ->
    dict_lookup "messages" kvs = Some (JList (older ++ [JObj fields])) ->
    dict_lookup "message" fields = Some (JStr text) ->
    (clock_after net (sms_request token id) 5 (exchanges w) (now w) k
     < timeout)%N ->
    let run := otp_loop net fuel timeout token id number balance service w in
    fst run = Ok tt
    /\ exchanges (snd run) = (exchanges w + k + 1)%nat
    /\ now (snd run)
       = (clock_after net (sms_request token id) 5 (exchanges w) (now w) k
          + latency (net (exchanges w + k) (sms_request token id)))%N
    /\ reports (trace (snd run))
       = Completed service number balance (extract_otp (unicode w) text)
           :: reports (trace w).
Proof.
  induction k as [|k IH];
    intros fuel w status kvs older fields text Hfuel Hbefore Hk Hs Hm Ht Hclock;
    (destruct fuel as [|fuel]; [lia|]); cbn zeta; rewrite otp_loop_unfold.
  - cbn [clock_after] in *. apply N.ltb_lt in Hclock as Hlt. rewrite Hlt.
    rewrite Nat.add_0_r in Hk.
    rewrite (otp_iteration_on_message net token id number balance service w
               status kvs older fields text Hk Hs Hm Ht).
    cbn [fst snd record landed exchanges now trace].
    rewrite Nat.add_0_r. repeat split. lia.
  - pose proof (clock_after_ge net (sms_request token id) 5 (exchanges w)
                  (now w) (S k)) as Hge.
    replace (now w <? timeout)%N with true by (symmetry; apply N.ltb_lt; lia).
    rewrite otp_iteration_step. cbn zeta. unfold next_reply.
    pose proof (Hbefore 0%nat ltac:(lia)) as H0. rewrite Nat.add_0_r in H0.
    rewrite (empty_reading _ H0).
    set (w1 := slept 5 (landed net (sms_request token id) w)).
    assert (Hb1 : forall i, (i < k)%nat ->
              empty_messages
                (answer (net (exchanges w1 + i) (sms_request token id))) = true).
    { intros i Hi. cbn [w1 slept record advance landed exchanges].
      replace (S (exchanges w) + i)%nat with (exchanges w + S i)%nat by lia.
      apply Hbefore. lia. }
    assert (Hk1 : answer (net (exchanges w1 + k) (sms_request token id))
                  = Response status (BodyJson (JObj kvs))).
    { cbn [w1 slept record advance landed exchanges].
      replace (S (exchanges w) + k)%nat with (exchanges w + S k)%nat by lia.
      exact Hk. }
    destruct (IH fuel w1 status kvs older fields text ltac:(lia) Hb1 Hk1 Hs Hm
                Ht Hclock) as (R1 & R2 & R3 & R4).
    split; [exact R1|]. split; [rewrite R2; cbn; lia|]. split.
    + rewrite R3. cbn [w1 slept record advance landed exchanges now].
      replace (S (exchanges w) + k)%nat with (exchanges w + S k)%nat by lia.
      reflexivity.
    + rewrite R4. reflexivity.
Qed.

(** X6: when the messages polls before the [k]-th return empty lists and
    the [k]-th, started before the five minutes are over, returns messages,
    [check_otp] ends with that poll and its one report is the completed one,
    with what the extraction finds in the text of the last message. *)
Theorem otp_arrives fuel w k status kvs older fields text :
  let r := sms_request token id in
  CACHE w !! "token" = Some token ->
  (k < fuel)%nat ->
  (forall i, (i < k)%nat -> empty_messages (answer (net (exchanges w + i) r)) = true) ->
  answer (net (exchanges w + k) r) = Response status (BodyJson (JObj kvs)) ->
  is_error status = false ->
  dict_lookup "messages" kvs = Some (JList (older ++ [JObj fields])) ->
  dict_lookup "message" fields = Some (JStr text) ->
  (clock_after net r 5 (exchanges w) (now w) k < now w + otp_window)%N ->
  let run := check_otp net fuel id number balance service w in
  fst run = Ok tt
  /\ exchanges (snd run) = (exchanges w + k + 1)%nat
  /\ reports (trace (snd run))
     = Completed service number balance (extract_otp (unicode w) text) :: reports (trace w).
Proof.
  intros r Hc Hfuel Hbefore Hk Hs Hm Ht Hclock. cbn zeta.
  rewrite check_otp_unfold. unfold bind.
  rewrite (generate_bearer_token_cached net w token Hc).
  destruct (otp_loop_arrives (now w + otp_window) k fuel w status kvs older
              fields text Hfuel Hbefore Hk Hs Hm Ht Hclock)
    as (R1 & R2 & _ & R4).
  split; [exact R1|]. split; [exact R2 | exact R4].
Qed.

End Messages.

Lemma number_arrives_witness :
  let net := script [json_reply (JObj [("endsAt", JStr "2024-01-01T00:00:10Z")]);
                     Transport;
                     json_reply (JObj [("number", JStr "+15551234567");
                                       ("endsAt", JStr "2024-01-01T00:00:10Z")])] in
  let run := await_number net (fun _ => true) 30 (JStr "abc") (JStr "/v/1")
               (signed_in (JStr "abc")) in
  fst run = Ok (Some (JStr "+15551234567"))
  /\ exchanges (snd run) = 3%nat
  /\ now (snd run) = (2 * second)%N.
Proof.
  cbn zeta.
  destruct (number_arrives
              (script [json_reply (JObj [("endsAt", JStr "2024-01-01T00:00:10Z")]);
                       Transport;
                       json_reply (JObj [("number", JStr "+15551234567");
                                         ("endsAt", JStr "2024-01-01T00:00:10Z")])])
              (fun _ => true) 30 (JStr "abc") (JStr "/v/1")
              (signed_in (JStr "abc")) 2 (JStr "+15551234567")
              (JStr "2024-01-01T00:00:10Z")) as (H1 & H2 & H3 & _);
    try reflexivity; try lia.
  - intros [|[|i]] Hi; [reflexivity | reflexivity | lia].
  - split; [exact H1|]. split; [exact H2|]. rewrite H3. reflexivity.
Defined.

Lemma otp_arrives_witness :
  let quiet := json_reply (JObj [("messages", JList [])]) in
  let sms := json_reply (JObj [("messages",
               JList [JObj [("message", JStr "code 9021")]])]) in
  let run := check_otp (script [quiet; quiet; sms]) 60 (JStr "R1")
               (JStr "+15551234567") (JInt 7) "svc" (signed_in (JStr "abc")) in
  fst run = Ok tt
  /\ exchanges (snd run) = 3%nat
  /\ reports (trace (snd run))
     = [Completed "svc" (JStr "+15551234567") (JInt 7) "9021"].
Proof.
  cbn zeta.
  apply (otp_arrives
           (script [json_reply (JObj [("messages", JList [])]);
                    json_reply (JObj [("messages", JList [])]);
                    json_reply (JObj [("messages",
                      JList [JObj [("message", JStr "code 9021")]])])])
           (JStr "abc") (JStr "R1") (JStr "+15551234567") (JInt 7) "svc" 60
           (signed_in (JStr "abc")) 2 200%Z
           [("messages", JList [JObj [("message", JStr "code 9021")]])]
           [] [("message", JStr "code 9021")] "code 9021");
    try reflexivity; try lia.
  intros [|[|i]] Hi; [reflexivity | reflexivity | lia].
Defined.

(** ** A number without its expiry *)

Lemma clock_after_lower net r d n t k :
  (t + N.of_nat k * (d * second) <= clock_after net r d n t k)%N.
Proof.
  revert n t. induction k as [|k IH]; intros n t; cbn [clock_after]; [lia|].
  etransitivity; [|apply IH]. lia.
Qed.

(** When the polls before the [k]-th carry no number and the [k]-th
    carries a number without its expiry, the loop sleeps once more and
    ends: it holds the number, and no further poll is made. *)
Lemma number_loop_partial net token href start k :
  forall fuel w number0 ends0 number ends_at,
    truthy number0 = false ->
    (k < fuel)%nat ->
    (forall i, (i < k)%nat ->
       numberless (answer (net (exchanges w + i) (status_request token href)))
       = true) ->
    status_fields (answer (net (exchanges w + k) (status_request token href)))
    = Some (number, ends_at) ->
    truthy number = true -> truthy ends_at = false ->
    (clock_after net (status_request token href) 1 (exchanges w) (now w) k
       - start < max_wait_time * second)%N ->
    let run := number_loop net fuel start token href number0 ends0 w in
    fst run = Ok (number, Some ends_at)
    /\ exchanges (snd run) = (exchanges w + k + 1)%nat
    /\ now (snd run)
       = (clock_after net (status_request token href) 1 (exchanges w) (now w) k
          + latency (net (exchanges w + k)%nat (status_request token href))
          + 1 * second)%N
    /\ same_reports w (snd run).
Proof.
  induction k as [|k IH];
    intros fuel w number0 ends0 number ends_at H0 Hfuel Hbefore Hk Hn He Hclock;
    (destruct fuel as [|fuel]; [lia|]); cbn zeta;
    rewrite number_loop_unfold, H0; cbn [negb andb].
  - cbn [clock_after] in *. apply N.ltb_lt in Hclock. rewrite Hclock.
    rewrite number_iteration_step. cbn zeta. unfold next_reply.
    rewrite Nat.add_0_r in Hk. apply status_reading_fields in Hk as Hread.
    rewrite Hread, Hn, He. cbn [andb fst snd].
    rewrite number_loop_unfold, Hn. cbn [negb andb fst snd].
    cbn [slept record advance landed exchanges now].
    rewrite Nat.add_0_r. repeat split. lia.
  - pose proof (clock_after_ge net (status_request token href) 1 (exchanges w)
                  (now w) (S k)) as Hge.
    replace (now w - start <? max_wait_time * second)%N with true
      by (symmetry; apply N.ltb_lt; lia).
    rewrite number_iteration_step. cbn zeta. unfold next_reply.
    pose proof (Hbefore 0%nat ltac:(lia)) as H0'. rewrite Nat.add_0_r in H0'.
    assert (Hnext : forall w1,
              exchanges w1 = S (exchanges w) ->
              now w1 = (now w + latency (net (exchanges w)
                                           (status_request token href))
                        + 1 * second)%N ->
              same_reports w w1 ->
              forall number1 ends1, truthy number1 = false ->
              let run := number_loop net fuel start token href number1 ends1 w1 in
              fst run = Ok (number, Some ends_at)
              /\ exchanges (snd run) = (exchanges w + S k + 1)%nat
              /\ now (snd run)
                 = (clock_after net (status_request token href) 1 (exchanges w)
                      (now w) (S k)
                    + latency (net (exchanges w + S k)%nat
                                 (status_request token href))
                    + 1 * second)%N
              /\ same_reports w (snd run)).
    { intros w1 Hx Ht Hr number1 ends1 H1. cbn zeta.
      destruct (IH fuel w1 number1 ends1 number ends_at H1 ltac:(lia))
        as (R1 & R2 & R3 & R4).
      - intros i Hi. rewrite Hx.
        replace (S (exchanges w) + i)%nat with (exchanges w + S i)%nat by lia.
        apply Hbefore. lia.
      - rewrite Hx.
        replace (S (exchanges w) + k)%nat with (exchanges w + S k)%nat by lia.
        exact Hk.
      - exact Hn.
      - exact He.
      - rewrite Hx, Ht. exact Hclock.
      - split; [exact R1|]. split; [rewrite R2, Hx; lia|].
        split.
        + rewrite R3, Hx, Ht.
          replace (S (exchanges w) + k)%nat with (exchanges w + S k)%nat by lia.
          reflexivity.
        + unfold same_reports in *. rewrite R4. exact Hr. }
    destruct (numberless_reading _ H0') as [(n & e & -> & Hfalse)|[x ->]].
    + rewrite Hfalse. cbn [andb].
      apply Hnext; [reflexivity | cbn; lia | reflexivity | exact Hfalse].
    + apply Hnext; [reflexivity | cbn; lia | reflexivity | exact H0].
Qed.

(** A reply with a number and no expiry ends the polling at once. *)
Lemma number_without_expiry_stops_polling :
  ~ waits_out_window
      (always (json_reply (JObj [("number", JStr "+15551234567")])))
      30 (JStr "abc")
      (JStr "https://www.textverified.com/api/pub/v2/verifications/1")
      (signed_in (JStr "abc")).
Proof. unfold waits_out_window. vm_compute. intros H. apply H. reflexivity. Qed.

(** C1, as the code has it: the number phase succeeds only on a reply that
    carries both the number and the expiry. While replies carry no number,
    with or without an expiry, the phase polls until the thirty seconds are
    over; a reply with a number and no expiry ends the polling after that
    iteration: one more second of sleep and no further poll. Whenever every
    poll fails or returns an object without both fields, the session ends
    with the report that the number was not received, and no number is
    shown. *)
Theorem number_needs_both_fields net ok fuel token href w :
  (30 <= fuel)%nat ->
  let r := status_request token href in
  let run := await_number net ok fuel token href w in
  (forall number,
     fst run = Ok (Some number) ->
     exists n ends_at,
       (exchanges w <= n < exchanges (snd run))%nat
       /\ status_fields (answer (net n r)) = Some (number, ends_at)
       /\ truthy number = true /\ truthy ends_at = true)
  /\ ((forall n, incomplete (answer (net n r)) = true) ->
      fst run = Ok None
      /\ reports (trace (snd run)) = NumberNotReceived :: reports (trace w))
  /\ ((forall n, numberless (answer (net n r)) = true) ->
      (now w + max_wait_time * second <= now (snd run))%N)
  /\ (forall k number ends_at,
        (forall i, (i < k)%nat ->
           numberless (answer (net (exchanges w + i) r)) = true) ->
        status_fields (answer (net (exchanges w + k) r))
        = Some (number, ends_at) ->
        truthy number = true -> truthy ends_at = false ->
        (clock_after net r 1 (exchanges w) (now w) k
         < now w + max_wait_time * second)%N ->
        fst run = Ok None
        /\ exchanges (snd run) = (exchanges w + k + 1)%nat
        /\ now (snd run)
           = (clock_after net r 1 (exchanges w) (now w) k
              + latency (net (exchanges w + k)%nat r) + 1 * second)%N
        /\ reports (trace (snd run))
           = NumberNotReceived :: reports (trace w)).
Proof.
  intros Hf. cbn zeta.
  destruct (await_number_ends net ok fuel token href w Hf) as (Hn & -> & _).
  clear Hn. rewrite await_number_unfold.
  assert (Hpartial : forall k number ends_at,
            (forall i, (i < k)%nat ->
               numberless
                 (answer (net (exchanges w + i) (status_request token href)))
               = true) ->
            status_fields
              (answer (net (exchanges w + k) (status_request token href)))
            = Some (number, ends_at) ->
            truthy number = true -> truthy ends_at = false ->
            (clock_after net (status_request token href) 1 (exchanges w)
               (now w) k
             < now w + max_wait_time * second)%N ->
            let run := bind (number_loop net 30 (now w) token href JNull None)
                         (number_verdict ok) w in
            fst run = Ok None
            /\ exchanges (snd run) = (exchanges w + k + 1)%nat
            /\ now (snd run)
               = (clock_after net (status_request token href) 1 (exchanges w)
                    (now w) k
                  + latency (net (exchanges w + k)%nat (status_request token href))
                  + 1 * second)%N
            /\ reports (trace (snd run))
               = NumberNotReceived :: reports (trace w)).
  { intros k number ends_at Hbefore Hk Hnum Hend Hclock. cbn zeta.
    pose proof (clock_after_lower net (status_request token href) 1
                  (exchanges w) (now w) k) as Hlow.
    pose proof (clock_after_ge net (status_request token href) 1
                  (exchanges w) (now w) k) as Hge.
    assert (Hk30 : (k < 30)%nat)
      by (unfold max_wait_time, second in *; lia).
    destruct (number_loop_partial net token href (now w) k 30 w JNull None
                number ends_at eq_refl Hk30 Hbefore Hk Hnum Hend)
      as (R1 & R2 & R3 & R4); [lia|].
    unfold bind.
    destruct (number_loop net 30 (now w) token href JNull None w)
      as [res w1]. cbn [fst snd] in *. subst res.
    unfold number_verdict. cbn [fst snd]. rewrite Hnum, Hend. cbn [negb].
    unfold bind, emit, ret. cbn [fst snd record exchanges now trace].
    split; [reflexivity|]. split; [exact R2|]. split; [exact R3|].
    unfold same_reports in R4. rewrite <- R4. reflexivity. }
  enough (Hthree :
    (forall number,
       fst (bind (number_loop net 30 (now w) token href JNull None)
              (number_verdict ok) w) = Ok (Some number) ->
       exists n ends_at,
         (exchanges w <= n
          < exchanges (snd (bind (number_loop net 30 (now w) token href JNull
                                    None) (number_verdict ok) w)))%nat
         /\ status_fields (answer (net n (status_request token href)))
            = Some (number, ends_at)
         /\ truthy number = true /\ truthy ends_at = true)
    /\ ((forall n,
           incomplete (answer (net n (status_request token href))) = true) ->
        fst (bind (number_loop net 30 (now w) token href JNull None)
               (number_verdict ok) w) = Ok None
        /\ reports (trace (snd (bind (number_loop net 30 (now w) token href
                                        JNull None) (number_verdict ok) w)))
           = NumberNotReceived :: reports (trace w))
    /\ ((forall n,
           numberless (answer (net n (status_request token href))) = true) ->
        (now w + max_wait_time * second
         <= now (snd (bind (number_loop net 30 (now w) token href JNull None)
                        (number_verdict ok) w)))%N)).
  { destruct Hthree as (A & B & C).
    split; [exact A|]. split; [exact B|]. split; [exact C | exact Hpartial]. }
  clear Hpartial. unfold bind.
  destruct (number_loop_ends net 30 (now w) token href JNull None w)
    as [Hends _]; [unfold max_wait_time; lia|].
  destruct (number_loop net 30 (now w) token href JNull None w)
    as [[found|e|] w1] eqn:Hloop; cbn [fst snd] in Hends.
  2:{ split; [intros ? [=]|]. split.
      - intros Hall.
        destruct (number_loop_incomplete net token href (now w) 30 JNull None w
                    Hall) as (_ & [[? H]|H]); rewrite Hloop in H; discriminate.
      - intros Hall. exfalso.
        assert (Hinc : forall n,
                  incomplete (answer (net n (status_request token href))) = true).
        { intros n. specialize (Hall n). unfold numberless, incomplete in *.
          apply andb_true_iff in Hall as [-> H]. cbn [andb].
          destruct (status_fields _) as [[x y]|]; [|reflexivity].
          apply negb_true_iff in H. rewrite H. reflexivity. }
        destruct (number_loop_incomplete net token href (now w) 30 JNull None w
                    Hinc) as (_ & [[? H]|H]); rewrite Hloop in H; discriminate. }
  2:{ contradiction. }
  destruct (number_loop_seen net token href (now w) (exchanges w) 30 JNull None
              w found w1) as [Hseen Hle];
    [lia | left; split; reflexivity | exact Hloop |].
  assert (Hinc : (forall n,
             incomplete (answer (net n (status_request token href))) = true) ->
           number_verdict ok found w1
           = (Ok None, record (EvSend NumberNotReceived) w1)).
  { intros Hall. unfold number_verdict. cbn zeta.
    destruct (truthy (fst found)) eqn:Ht; [|reflexivity]. cbn [negb].
    destruct Hseen as [[Hi _]|(n & e & _ & Hfields & ->)].
    - rewrite Hi in Ht. discriminate.
    - specialize (Hall n). unfold incomplete in Hall. rewrite Hfields in Hall.
      apply andb_true_iff in Hall as [_ Hall]. apply negb_true_iff in Hall.
      rewrite Ht in Hall. cbn [andb] in Hall. rewrite Hall. reflexivity. }
  split; [|split].
  - intros number. unfold number_verdict. cbn zeta.
    destruct (truthy (fst found)) eqn:Ht; [|discriminate]. cbn [negb].
    destruct Hseen as [[Hi _]|(n & e & Hn & Hfields & ->)].
    + rewrite Hi in Ht. discriminate.
    + destruct (truthy e) eqn:He; [|discriminate]. cbn [negb].
      unfold bind, lift. destruct (parse_expiry ok e); try discriminate.
      cbn [ret fst snd]. intros [= <-]. exists n, e.
      split; [exact Hn|]. split; [|split; assumption].
      destruct found; exact Hfields.
  - intros Hall. rewrite (Hinc Hall). cbn [fst snd record trace].
    split; [reflexivity|].
    destruct (number_loop_incomplete net token href (now w) 30 JNull None w
                Hall) as (Hr & _).
    rewrite Hloop in Hr. cbn [snd] in Hr. rewrite <- Hr. reflexivity.
  - intros Hall.
    assert (Hall' : forall n,
              incomplete (answer (net n (status_request token href))) = true).
    { intros n. specialize (Hall n). unfold numberless, incomplete in *.
      apply andb_true_iff in Hall as [-> H]. cbn [andb].
      destruct (status_fields _) as [[x y]|]; [|reflexivity].
      apply negb_true_iff in H. rewrite H. reflexivity. }
    rewrite (Hinc Hall'). cbn [snd record now].
    apply (number_loop_numberless net token href (now w) 30 JNull None w found
             w1 Hall eq_refl Hloop).
Qed.

Lemma number_needs_both_fields_witness :
  let href := JStr "https://www.textverified.com/api/pub/v2/verifications/1" in
  let late := always (json_reply (JObj [("endsAt", JStr "2024-01-01T00:00:10Z")])) in
  let bare := script [json_reply (JObj []);
                      json_reply (JObj [("number", JStr "+15551234567")])] in
  let run := await_number late (fun _ => true) 30 (JStr "abc") href
               (signed_in (JStr "abc")) in
  let run' := await_number bare (fun _ => true) 30 (JStr "abc") href
                (signed_in (JStr "abc")) in
  (fst run = Ok None
   /\ reports (trace (snd run)) = [NumberNotReceived]
   /\ (max_wait_time * second <= now (snd run))%N)
  /\ (fst run' = Ok None
      /\ exchanges (snd run') = 2%nat
      /\ now (snd run') = (2 * second)%N
      /\ reports (trace (snd run')) = [NumberNotReceived]).
Proof.
  cbn zeta. split.
  - pose proof (number_needs_both_fields
                  (always (json_reply
                             (JObj [("endsAt", JStr "2024-01-01T00:00:10Z")])))
                  (fun _ => true) 30 (JStr "abc")
                  (JStr "https://www.textverified.com/api/pub/v2/verifications/1")
                  (signed_in (JStr "abc")) (le_n 30)) as (_ & Hb & Hc & _).
    destruct (Hb (fun n => eq_refl)) as [H1 H2].
    split; [exact H1|]. split; [exact H2|].
    exact (Hc (fun n => eq_refl)).
  - pose proof (number_needs_both_fields
                  (script [json_reply (JObj []);
                           json_reply (JObj [("number", JStr "+15551234567")])])
                  (fun _ => true) 30 (JStr "abc")
                  (JStr "https://www.textverified.com/api/pub/v2/verifications/1")
                  (signed_in (JStr "abc")) (le_n 30)) as (_ & _ & _ & Hd).
    destruct (Hd 1%nat (JStr "+15551234567") JNull) as (H1 & H2 & H3 & H4);
      try reflexivity.
    + intros [|i] Hi; [reflexivity | lia].
    + split; [exact H1|]. split; [exact H2|]. split; [|exact H4].
      rewrite H3. reflexivity.
Defined.

(** ** The phases of an accepted session *)

Section Accepted.

Variable net : nat -> request -> exchange.
Variable fromisoformat_ok : string -> bool.

Lemma await_number_keeps fuel token href :
  respects keeps_token (await_number net fromisoformat_ok fuel token href).
Proof.
  apply respects_await_number;
    first [ exact _
          | apply generate_bearer_token_keeps
          | intros; intros v Hv; reflexivity ].
Qed.



End Accepted.


(** ** What a session shows *)

Ltac reported := unfold reports in *; cbn in *; congruence.

Section Shown.

Variable net : nat -> request -> exchange.
Variable fromisoformat_ok : string -> bool.
Variable service : string.
Variable base : list report.

Local Abbreviation shows l := (fun w : world => reports (trace w) = (l ++ base)%list).

Lemma silent_hoare {A} (m : M A) l :
  respects same_reports m -> hoare (shows l) m (fun _ => shows l).
Proof.
  intros Hm. apply (hoare_respects same_reports m _ Hm).
  intros w w' Hw Hr. unfold same_reports in Hr. congruence.
Qed.

Lemma lift_hoare {A} (r : result A) l :
  hoare (shows l) (lift r) (fun _ => shows l).
Proof. intros w Hw. exact Hw. Qed.

Lemma create_verification_shows token :
  hoare (shows []) (create_verification net token service)
    (fun r w =>
       match r with
       | Ok None => exists e, shows [RequestFailed e] w
       | _ => shows [] w
       end).
Proof.
  intros w Hw. rewrite create_verification_step. cbn zeta.
  destruct (rbind _ _) as [data|[e| | | | | |]|]; cbn [fst snd]; try exact Hw.
  exists e. reported.
Qed.

Lemma await_number_shows fuel token href :
  hoare (shows []) (await_number net fromisoformat_ok fuel token href)
    (fun r w =>
       match r with
       | Ok None => shows [NumberNotReceived] w
       | _ => shows [] w
       end).
Proof.
  intros w Hw. rewrite await_number_unfold. unfold bind.
  pose proof (silent_number_loop net fuel (now w) token href JNull None w) as Hs.
  unfold same_reports in Hs.
  destruct (number_loop net fuel (now w) token href JNull None w)
    as [[found|e|] w1]; cbn [fst snd] in *; try congruence.
  unfold number_verdict. cbn zeta.
  destruct (negb (truthy (fst found))).
  - reported.
  - destruct (snd found) as [ends_at|]; [|reported].
    destruct (negb (truthy ends_at)).
    + reported.
    + unfold bind, lift.
      destruct (parse_expiry fromisoformat_ok ends_at); reported.
Qed.

Lemma otp_loop_shows fuel timeout token id number balance l w :
  shows l w ->
  let run := otp_loop net fuel timeout token id number balance service w in
  shows l (snd run)
  \/ exists otp, shows (Completed service number balance otp :: l) (snd run).
Proof.
  cbn zeta. revert w. induction fuel as [|fuel IH]; intros w Hw;
    rewrite otp_loop_unfold; destruct (now w <? timeout)%N;
    try (left; exact Hw).
  rewrite otp_iteration_step. cbn zeta.
  destruct (rbind _ _) as [[text|]|[e| | | | | |]|]; cbn [fst snd];
    try (left; exact Hw).
  - right. exists (extract_otp (unicode w) text). reported.
  - apply IH. exact Hw.
  - apply IH. exact Hw.
Qed.

Lemma check_otp_shows fuel id number balance l w :
  shows l w ->
  let run := check_otp net fuel id number balance service w in
  shows l (snd run)
  \/ exists otp, shows (Completed service number balance otp :: l) (snd run).
Proof.
  intros Hw. cbn zeta. rewrite check_otp_unfold. unfold bind.
  pose proof (silent_generate_bearer_token net w) as Hs.
  unfold same_reports in Hs.
  destruct (generate_bearer_token net w) as [[token|e|] w1]; cbn [fst snd] in *;
    try (left; congruence).
  apply otp_loop_shows. congruence.
Qed.

Lemma verify_shows fuel :
  hoare (shows []) (verify net fromisoformat_ok fuel service)
    (fun r w =>
       exists l, shows l w /\ session_reports service l
                 /\ (r = Ok tt -> l <> [])).
Proof.
  assert (Hquit : forall (r : result unit) w,
            r <> Ok tt -> shows [] w ->
            exists l, shows l w /\ session_reports service l
                      /\ (r = Ok tt -> l <> [])).
  { intros r w Hr Hw. exists []. split; [exact Hw|]. split; [left; reflexivity|].
    intros E. contradiction. }
  assert (Hone : forall (r : result unit) w x,
            session_reports service [x] -> shows [x] w ->
            exists l, shows l w /\ session_reports service l
                      /\ (r = Ok tt -> l <> [])).
  { intros r w x Hx Hw. exists [x]. split; [exact Hw|]. split; [exact Hx|].
    discriminate. }
  unfold verify.
  eapply hoare_bind;
    [apply silent_hoare, silent_generate_bearer_token
    | intros token | intros; apply Hquit; [discriminate | assumption]
    | intros; apply Hquit; [discriminate | assumption]].
  destruct (negb (truthy token)).
  { intros w Hw. apply (Hone _ _ AuthFailed).
    - right. left. reflexivity.
    - reported. }
  eapply hoare_bind;
    [apply silent_hoare, silent_get_balance
    | intros before | intros; apply Hquit; [discriminate | assumption]
    | intros; apply Hquit; [discriminate | assumption]].
  eapply hoare_bind;
    [apply create_verification_shows
    | intros created | intros; apply Hquit; [discriminate | assumption]
    | intros; apply Hquit; [discriminate | assumption]].
  destruct created as [data|].
  2:{ intros w [e Hw]. apply (Hone _ _ (RequestFailed e)); [|exact Hw].
      right. right. left. exists e. reflexivity. }
  eapply hoare_bind;
    [apply lift_hoare
    | intros rejected | intros; apply Hquit; [discriminate | assumption]
    | intros; apply Hquit; [discriminate | assumption]].
  destruct rejected.
  { intros w Hw. apply (Hone _ _ (BadResponse data)).
    - right. right. right. left. exists data. reflexivity.
    - reported. }
  eapply hoare_bind;
    [apply lift_hoare
    | intros href | intros; apply Hquit; [discriminate | assumption]
    | intros; apply Hquit; [discriminate | assumption]].
  eapply hoare_bind;
    [apply lift_hoare
    | intros id | intros; apply Hquit; [discriminate | assumption]
    | intros; apply Hquit; [discriminate | assumption]].
  eapply hoare_bind;
    [apply silent_hoare, silent_get_balance
    | intros after | intros; apply Hquit; [discriminate | assumption]
    | intros; apply Hquit; [discriminate | assumption]].
  eapply hoare_bind;
    [apply await_number_shows
    | intros assigned | intros; apply Hquit; [discriminate | assumption]
    | intros; apply Hquit; [discriminate | assumption]].
  destruct assigned as [number|].
  2:{ intros w Hw. apply (Hone _ _ NumberNotReceived); [|exact Hw].
      right. right. right. right. left. reflexivity. }
  intros w Hw. unfold bind, emit. cbn [fst snd].
  destruct (check_otp_shows fuel id number after
              [Pending service number before after]
              (record (EvSend (Pending service number before after)) w))
    as [H|[otp H]].
  - reported.
  - eexists. split; [exact H|]. split; [|discriminate].
    do 5 right. exists number, before, after. left. reflexivity.
  - eexists. split; [exact H|]. split; [|discriminate].
    do 5 right. exists number, before, after. right. exists otp. reflexivity.
Qed.

End Shown.

(** X8: the reports a [verify] session adds are none at all, one failure
    report, the pending report alone, or the pending report followed by one
    completed report for the same number and the balance read after the
    creation call. A completed report never comes without the pending one,
    no report follows a failure, and a session that returns normally has
    reported something. *)
Theorem session_reports_shape net ok fuel service w :
  let run := verify net ok fuel service w in
  exists l,
    reports (trace (snd run)) = (l ++ reports (trace w))%list
    /\ session_reports service l
    /\ (fst run = Ok tt -> l <> []).
Proof.
  cbn zeta.
  apply (verify_shows net ok service (reports (trace w)) fuel w).
  reflexivity.
Qed.

(** ** The requests of a session *)

Ltac up H := intros; cbv beta in *; eapply H; [|eassumption]; lia.

Section Budget.

Variable net : nat -> request -> exchange.
Variable fromisoformat_ok : string -> bool.

Lemma balance_attempts_exchanges token attempts w :
  (exchanges (snd (balance_attempts net token attempts w))
   <= exchanges w + length attempts)%nat.
Proof.
  revert w. induction attempts as [|attempt rest IH]; intros w; [cbn; lia|].
  rewrite balance_attempts_step. cbn zeta.
  destruct (rbind _ _) as [b|[e| | | | | |]|]; cbn [snd length];
    try (cbn; lia).
  etransitivity; [apply IH | cbn; lia].
Qed.

(** A token that [generate_bearer_token] returns and that counts as true
    is in the cache. *)
Lemma returned_token_is_cached w token :
  fst (generate_bearer_token net w) = Ok token -> truthy token = true ->
  CACHE (snd (generate_bearer_token net w)) !! "token" = Some token.
Proof.
  intros Hr Ht. destruct (CACHE w !! "token") as [cached|] eqn:Hc.
  - rewrite (generate_bearer_token_cached net w cached Hc) in *.
    cbn [fst snd] in *. congruence.
  - rewrite (generate_bearer_token_fresh net w Hc) in *.
    pose proof (token_attempts_cache net (seq 0 3) w) as H. cbn zeta in H.
    rewrite Hr in H. destruct H as [H|[-> _]]; [exact H | discriminate].
Qed.

Lemma within_get_balance n :
  hoare (signed_in_within n) (get_balance net)
    (fun _ => signed_in_within (n + 3)).
Proof.
  intros w [(token & Hc & Ht) Hx].
  pose proof (get_balance_keeps net w token Hc) as Hk.
  rewrite (get_balance_signed_in net w token Hc Ht) in *.
  pose proof (balance_attempts_exchanges token (seq 0 3) w) as Hb.
  change (length (seq 0 3)) with 3%nat in Hb. split; [|lia].
  exists token. rewrite Hk. split; assumption.
Qed.

Lemma within_create_verification n token service :
  hoare (signed_in_within n) (create_verification net token service)
    (fun _ => signed_in_within (n + 1)).
Proof.
  intros w [Hc Hx]. rewrite create_verification_step. cbn zeta.
  destruct (rbind _ _) as [data|[e| | | | | |]|]; cbn [fst snd];
    (split; [exact Hc | cbn; lia]).
Qed.

Lemma within_await_number n fuel token href :
  (30 <= fuel)%nat ->
  hoare (signed_in_within n) (await_number net fromisoformat_ok fuel token href)
    (fun _ => signed_in_within (n + 30)).
Proof.
  intros Hf w [(cached & Hc & Ht) Hx].
  pose proof (await_number_keeps net fromisoformat_ok fuel token href w cached
                Hc) as Hk.
  destruct (await_number_ends net fromisoformat_ok fuel token href w Hf)
    as (_ & _ & Hb).
  split; [|lia]. exists cached. rewrite Hk. split; assumption.
Qed.

Lemma within_check_otp n fuel id number balance service :
  (60 <= fuel)%nat ->
  hoare (signed_in_within n) (check_otp net fuel id number balance service)
    (fun _ => signed_in_within (n + 60)).
Proof.
  intros Hf w [(cached & Hc & Ht) Hx].
  pose proof (check_otp_keeps net fuel id number balance service w cached Hc)
    as Hk.
  destruct (check_otp_ends net fuel id number balance service w Hf)
    as (_ & -> & _).
  assert (Hb : (exchanges (snd (check_otp net 60 id number balance service w))
                <= exchanges w + 60)%nat).
  { rewrite check_otp_unfold. unfold bind.
    rewrite (generate_bearer_token_cached net w cached Hc).
    apply (otp_loop_ends net 60 (now w + otp_window) cached id number balance
             service w).
    unfold otp_window. lia. }
  destruct (check_otp_ends net fuel id number balance service w Hf)
    as (_ & E & _). rewrite E in Hk.
  split; [|lia]. exists cached. rewrite Hk. split; assumption.
Qed.

Lemma within_quiet {A} n (m : M A) :
  (forall w, CACHE (snd (m w)) = CACHE w /\ exchanges (snd (m w)) = exchanges w) ->
  hoare (signed_in_within n) m (fun _ => signed_in_within n).
Proof.
  intros Hm w [(cached & Hc & Ht) Hx]. destruct (Hm w) as [Ek Ee].
  split; [|lia]. exists cached. rewrite Ek. split; assumption.
Qed.

(** From a world with a usable token on, [verify] makes at most 97
    requests. *)
Lemma within_verify_signed_in n fuel service token :
  (60 <= fuel)%nat ->
  hoare (signed_in_within n)
    (let* balance_before := get_balance net in
     let* created := create_verification net token service in
     match created with
     | None => ret tt
     | Some data =>
         let* rejected := lift (lacks_href data) in
         if rejected then emit (EvSend (BadResponse data))
         else
           let* verification_href := lift (py_item data "href") in
           let* verification_id := lift (py_get data "id" JNull) in
           let* balance_after := get_balance net in
           let* assigned :=
             await_number net fromisoformat_ok fuel token verification_href in
           match assigned with
           | None => ret tt
           | Some number =>
               let* _ := emit (EvSend (Pending service number balance_before
                                         balance_after)) in
               check_otp net fuel verification_id number balance_after service
           end
     end)
    (fun _ w => (exchanges w <= n + 97)%nat).
Proof.
  intros Hf.
  assert (Hup : forall m w,
            (m <= n + 97)%nat -> signed_in_within m w ->
            (exchanges w <= n + 97)%nat).
  { intros m w Hm [_ Hx]. lia. }
  eapply hoare_bind;
    [apply within_get_balance | intros before | up Hup | up Hup].
  eapply hoare_bind;
    [apply within_create_verification | intros created | up Hup | up Hup].
  destruct created as [data|]; [|intros w Hw; up Hup].
  eapply hoare_bind;
    [apply within_quiet; intros w; split; reflexivity | intros rejected
    | up Hup | up Hup].
  destruct rejected; [intros w Hw; up Hup|].
  eapply hoare_bind;
    [apply within_quiet; intros w; split; reflexivity | intros href
    | up Hup | up Hup].
  eapply hoare_bind;
    [apply within_quiet; intros w; split; reflexivity | intros id
    | up Hup | up Hup].
  eapply hoare_bind;
    [apply within_get_balance | intros after | up Hup | up Hup].
  eapply hoare_bind;
    [apply within_await_number; lia | intros assigned | up Hup | up Hup].
  destruct assigned as [number|]; [|intros w Hw; up Hup].
  eapply hoare_bind;
    [apply within_quiet; intros w; split; reflexivity | intros []
    | up Hup | up Hup].
  eapply hoare_weaken; [apply within_check_otp; exact Hf|].
  up Hup.
Qed.

(** X9: a [verify] session makes at most a hundred requests: three for the
    token, three for each of the two balance readings, one to create the
    verification, thirty status polls and sixty messages polls; three less
    when the token is already cached. *)
Theorem session_request_budget fuel service w :
  (60 <= fuel)%nat ->
  let run := verify net fromisoformat_ok fuel service w in
  (exchanges (snd run) <= exchanges w + 100)%nat
  /\ (forall token,
        CACHE w !! "token" = Some token -> truthy token = true ->
        (exchanges (snd run) <= exchanges w + 97)%nat).
Proof.
  intros Hf. cbn zeta.
  assert (Hrest : forall token w0,
            truthy token = true -> CACHE w0 !! "token" = Some token ->
            generate_bearer_token net w = (Ok token, w0) ->
            (exchanges (snd (verify net fromisoformat_ok fuel service w))
             <= exchanges w0 + 97)%nat).
  { intros token w0 Ht Hc Hg. unfold verify, bind at 1. rewrite Hg, Ht.
    cbn [negb].
    apply (within_verify_signed_in (exchanges w0) fuel service token Hf w0).
    split; [|lia]. exists token. split; assumption. }
  split.
  - pose proof (generate_bearer_token_exchanges net w) as Hx.
    destruct (generate_bearer_token net w) as [[token|e|] w0] eqn:Hg;
      cbn [snd] in Hx.
    + destruct (truthy token) eqn:Ht.
      * pose proof (returned_token_is_cached w token) as Hc.
        rewrite Hg in Hc. specialize (Hc eq_refl Ht).
        pose proof (Hrest token w0 Ht Hc eq_refl). lia.
      * unfold verify, bind. rewrite Hg, Ht. cbn. lia.
    + unfold verify, bind. rewrite Hg. cbn. lia.
    + unfold verify, bind. rewrite Hg. cbn. lia.
  - intros token Hc Ht.
    apply (Hrest token w Ht Hc).
    apply generate_bearer_token_cached. exact Hc.
Qed.

End Budget.

Lemma session_request_budget_witness :
  (exchanges (snd (verify busy_provider (fun _ => true) 60 "svc" world0))
   <= 100)%nat
  /\ exchanges (snd (verify busy_provider (fun _ => true) 60 "svc" world0))
     = 100%nat.
Proof.
  split.
  - exact (proj1 (session_request_budget busy_provider (fun _ => true) 60 "svc"
                    world0 (le_n 60))).
  - vm_compute. reflexivity.
Defined.

Lemma session_reports_shape_witness :
  exists l,
    reports (trace (snd (verify busy_provider (fun _ => true) 60 "svc" world0)))
    = l
    /\ l <> [].
Proof.
  destruct (session_reports_shape busy_provider (fun _ => true) 60 "svc" world0)
    as (l & Hl & _ & Hne).
  exists l. split.
  - rewrite Hl. apply app_nil_r.
  - apply Hne. vm_compute. reflexivity.
Defined.

(** ** What comes after the window is never asked for *)

Section Cutoff.

Variable net : nat -> request -> exchange.
Variable fromisoformat_ok : string -> bool.

Lemma number_loop_cutoff token href start fuel :
  forall w number ends_at,
    truthy number = false ->
    (forall i, (i < fuel)%nat ->
       numberless (answer (net (exchanges w + i) (status_request token href)))
       = true) ->
    let run := number_loop net fuel start token href number ends_at w in
    same_reports w (snd run)
    /\ ((exists found,
           fst run = Ok found /\ truthy (fst found) = false
           /\ (start + max_wait_time * second <= now (snd run))%N)
        \/ fst run = NoFuel).
Proof.
  induction fuel as [|fuel IH]; intros w number ends_at Hn Hall; cbn zeta;
    rewrite number_loop_unfold, Hn; cbn [negb andb];
    destruct (now w - start <? max_wait_time * second)%N eqn:Hlt;
    try (split; [reflexivity|]; cbn [fst snd]; left;
         exists (number, ends_at); split; [reflexivity|]; split; [exact Hn|];
         apply N.ltb_ge in Hlt; unfold max_wait_time, second in *; lia);
    try (split; [reflexivity | right; reflexivity]).
  rewrite number_iteration_step. cbn zeta. unfold next_reply.
  pose proof (Hall 0%nat ltac:(lia)) as H0. rewrite Nat.add_0_r in H0.
  assert (Hnext : forall w1 number1 ends1,
            exchanges w1 = S (exchanges w) -> same_reports w w1 ->
            truthy number1 = false ->
            let run := number_loop net fuel start token href number1 ends1 w1 in
            same_reports w (snd run)
            /\ ((exists found,
                   fst run = Ok found /\ truthy (fst found) = false
                   /\ (start + max_wait_time * second <= now (snd run))%N)
                \/ fst run = NoFuel)).
  { intros w1 number1 ends1 Hx Hr H1. cbn zeta.
    destruct (IH w1 number1 ends1 H1) as [R1 R2].
    - intros i Hi. rewrite Hx.
      replace (S (exchanges w) + i)%nat with (exchanges w + S i)%nat by lia.
      apply Hall. lia.
    - split; [|exact R2]. unfold same_reports in *. congruence. }
  destruct (numberless_reading _ H0) as [(n & e & -> & Hfalse)|[x ->]].
  - rewrite Hfalse. cbn [andb].
    apply Hnext; [reflexivity | reflexivity | exact Hfalse].
  - apply Hnext; [reflexivity | reflexivity | exact Hn].
Qed.

(** X10: when the first thirty status polls carry no number, the number
    phase ends with the report that the number was not received, no sooner
    than thirty seconds after it began, and makes no further poll: what the
    provider would have answered later does not matter. *)
Theorem number_window_closes fuel token href w :
  (30 <= fuel)%nat ->
  (forall i, (i < 30)%nat ->
     numberless (answer (net (exchanges w + i) (status_request token href)))
     = true) ->
  let run := await_number net fromisoformat_ok fuel token href w in
  fst run = Ok None
  /\ reports (trace (snd run)) = NumberNotReceived :: reports (trace w)
  /\ (exchanges (snd run) <= exchanges w + 30)%nat
  /\ (now w + max_wait_time * second <= now (snd run))%N.
Proof.
  intros Hf Hall. cbn zeta.
  destruct (await_number_ends net fromisoformat_ok fuel token href w Hf)
    as (_ & -> & Hx).
  destruct (await_number_ends net fromisoformat_ok 30 token href w (le_n 30))
    as (_ & _ & Hx30).
  split; [|split; [|split; [exact Hx30|]]];
    rewrite await_number_unfold; unfold bind;
    destruct (number_loop_ends net 30 (now w) token href JNull None w)
      as [Hends _]; try (unfold max_wait_time; lia);
    destruct (number_loop_cutoff token href (now w) 30 w JNull None eq_refl Hall)
      as [Hr [(found & Hfound & Hfalse & Htime)|Hno]];
    try contradiction;
    destruct (number_loop net 30 (now w) token href JNull None w)
      as [res w1]; cbn [fst snd] in *; subst res;
    unfold number_verdict; cbn zeta; rewrite Hfalse; cbn [negb].
  - reflexivity.
  - unfold same_reports in Hr. unfold reports in *. cbn in *. congruence.
  - exact Htime.
Qed.

Lemma otp_loop_cutoff token id number balance service timeout fuel :
  forall w,
    (forall i, (i < fuel)%nat ->
       empty_messages (answer (net (exchanges w + i) (sms_request token id)))
       = true) ->
    let run := otp_loop net fuel timeout token id number balance service w in
    same_reports w (snd run)
    /\ ((fst run = Ok tt /\ (timeout <= now (snd run))%N) \/ fst run = NoFuel).
Proof.
  induction fuel as [|fuel IH]; intros w Hall; cbn zeta;
    rewrite otp_loop_unfold; destruct (now w <? timeout)%N eqn:Hlt;
    try (split; [reflexivity|]; cbn [fst snd]; left;
         split; [reflexivity|]; apply N.ltb_ge in Hlt; exact Hlt);
    try (split; [reflexivity | right; reflexivity]).
  rewrite otp_iteration_step. cbn zeta. unfold next_reply.
  pose proof (Hall 0%nat ltac:(lia)) as H0. rewrite Nat.add_0_r in H0.
  rewrite (empty_reading _ H0).
  destruct (IH (slept 5 (landed net (sms_request token id) w))) as [R1 R2].
  - intros i Hi. cbn [slept record advance landed exchanges].
    replace (S (exchanges w) + i)%nat with (exchanges w + S i)%nat by lia.
    apply Hall. lia.
  - split; [|exact R2]. unfold same_reports in *. rewrite R1. reflexivity.
Qed.

(** X11: when the first sixty messages polls return empty lists,
    [check_otp] ends without a report once the five minutes are over, and
    makes no further poll: a message that arrives later is never fetched. *)
Theorem otp_window_closes fuel id number balance service token w :
  (60 <= fuel)%nat ->
  CACHE w !! "token" = Some token ->
  (forall i, (i < 60)%nat ->
     empty_messages (answer (net (exchanges w + i) (sms_request token id)))
     = true) ->
  let run := check_otp net fuel id number balance service w in
  fst run = Ok tt
  /\ reports (trace (snd run)) = reports (trace w)
  /\ (exchanges (snd run) <= exchanges w + 60)%nat
  /\ (now w + otp_window <= now (snd run))%N.
Proof.
  intros Hf Hc Hall. cbn zeta.
  destruct (check_otp_ends net fuel id number balance service w Hf)
    as (_ & -> & _).
  rewrite check_otp_unfold. unfold bind.
  rewrite (generate_bearer_token_cached net w token Hc).
  destruct (otp_loop_ends net 60 (now w + otp_window) token id number balance
              service w) as [Hends Hx]; [unfold otp_window; lia|].
  destruct (otp_loop_cutoff token id number balance service
              (now w + otp_window) 60 w Hall) as [Hr [[Hok Htime]|Hno]];
    [|contradiction].
  split; [exact Hok|]. split; [exact Hr|]. split; [exact Hx | exact Htime].
Qed.

End Cutoff.

(** A provider whose thirty-first answer would carry the number, and whose
    sixty-first would carry a message. *)
Lemma number_window_closes_witness :
  let run := await_number
               (fun n _ => quick (if (n <? 30)%nat then Transport
                                  else json_reply
                                         (JObj [("number", JStr "+15551234567");
                                                ("endsAt", JStr "2024-01-01T00:00:10Z")])))
               (fun _ => true) 30 (JStr "abc") (JStr "/v/1")
               (signed_in (JStr "abc")) in
  fst run = Ok None /\ reports (trace (snd run)) = [NumberNotReceived].
Proof.
  cbn zeta.
  match goal with
  | |- fst (await_number ?net _ _ _ _ ?w) = _ /\ _ =>
      destruct (number_window_closes net (fun _ => true) 30 (JStr "abc")
                  (JStr "/v/1") w (le_n 30)) as (H1 & H2 & _)
  end.
  - intros i Hi. cbn [signed_in exchanges Nat.add].
    destruct (Nat.ltb_spec i 30) as [_|Hge]; [reflexivity | lia].
  - split; [exact H1 | exact H2].
Defined.

Lemma otp_window_closes_witness :
  let run := check_otp
               (fun n _ => quick (json_reply
                  (JObj [("messages",
                          if (n <? 60)%nat then JList []
                          else JList [JObj [("message", JStr "code 9021")]])])))
               60 (JStr "R1") (JStr "+15551234567") (JInt 7) "svc"
               (signed_in (JStr "abc")) in
  fst run = Ok tt /\ reports (trace (snd run)) = [].
Proof.
  cbn zeta.
  match goal with
  | |- fst (check_otp ?net _ _ _ _ _ ?w) = _ /\ _ =>
      destruct (otp_window_closes net 60 (JStr "R1") (JStr "+15551234567")
                  (JInt 7) "svc" (JStr "abc") w (le_n 60) eq_refl)
        as (H1 & H2 & _)
  end.
  - intros i Hi. cbn [signed_in exchanges Nat.add].
    destruct (Nat.ltb_spec i 60) as [_|Hge]; [reflexivity | lia].
  - split; [exact H1 | exact H2].
Defined.
